(** * TableServe: table / session / order / bill lifecycle

    A shallow embedding of the lifecycle logic of the restaurant ordering
    application: the storage layer ([server/storage.ts]), the route handlers
    that drive it ([server/routes.ts]), the row types of [shared/schema.ts]
    and the request the customer page builds when it places an order
    ([client/src/pages/customer-menu.tsx]).

    Conventions of the embedding.
    - The relational store is a record of row lists; a data-access call is a
      computation in the state monad [Storage].  Every statement that writes
      is also appended to a [journal], so the order of the writes of a handler
      can be stated.
    - JavaScript numbers are IEEE binary64 values ([float]); integer columns
      are [Z]; text columns are [string]; a nullable column is an [option].
    - Primary keys ([gen_random_uuid()]) are drawn from a counter.
    - The outcome of a call of [Math.random()] is an explicit argument [r]:
      the binary64 number drawn, given by its exact value, a rational with
      [0 <= r < 1].  The arithmetic done on it is binary64 arithmetic on exact
      values ([Binary64]): the exact result, rounded to nearest, ties to even.
    - The clock ([new Date()], [Date.now()]) is an explicit argument [now], one
      reading per request.
    - Strings are sequences of ASCII characters. *)

From Stdlib Require Import ZArith QArith Qround String Ascii List Bool Lia Lqa.
From Stdlib Require Import Floats DecimalString.
Import ListNotations.

Open Scope string_scope.
Open Scope Z_scope.

(** ** JavaScript built-ins used by the code *)

Module Js.

(** [String(n)] for an integral number [n]. *)
Definition String_of_Z (n : Z) : string := NilZero.string_of_int (Z.to_int n).

(** [s.padStart(len, fill)] for a one-character [fill]. *)
Definition padStart (len : nat) (fill : ascii) (s : string) : string :=
  if (String.length s <? len)%nat
  then String.append (string_of_list_ascii (repeat fill (len - String.length s))) s
  else s.

Definition digit_of (c : ascii) : option Z :=
  let n := Z.of_nat (nat_of_ascii c) in
  if (48 <=? n) && (n <=? 57) then Some (n - 48) else None.


(** Reads the longest run of decimal digits at the front of [s]: the value
    accumulated onto [acc], how many digits were read, and the rest. *)
Fixpoint scan_digits (s : string) (acc : Z) (count : nat) : Z * nat * string :=
  match s with
  | String c rest =>
      match digit_of c with
      | Some d => scan_digits rest (10 * acc + d) (S count)
      | None => (acc, count, s)
      end
  | EmptyString => (acc, count, s)
  end.

(** White space, among the ASCII characters: space, tab, line feed, vertical
    tab, form feed, carriage return. *)
Definition is_white (c : ascii) : bool :=
  let n := nat_of_ascii c in
  Nat.eqb n 32 || (Nat.leb 9 n && Nat.leb n 13).

Fixpoint trimStart (s : string) : string :=
  match s with
  | String c rest => if is_white c then trimStart rest else s
  | EmptyString => s
  end.

(** The binary64 value nearest to the rational [n / d] (ties to even), for
    [0 <= n] and [0 < d]: the significand is brought into [2^52, 2^53), or
    below it at the least exponent, -1074; a value from 2^1024 on is
    infinite. *)
Definition nearest_double (n d : Z) : float :=
  if n <=? 0 then 0%float else
  let e0 := Z.log2 n - Z.log2 d - 52 in
  let scaled e := (n * 2 ^ Z.max 0 (- e), d * 2 ^ Z.max 0 e) in
  let e1 := (let '(a, b) := scaled e0 in if a / b <? 2 ^ 52 then e0 - 1 else e0) in
  let e := Z.max e1 (- 1074) in
  let '(a, b) := scaled e in
  let q := a / b in
  let r := a mod b in
  let q' := if (b <? 2 * r) || ((b =? 2 * r) && Z.odd q) then q + 1 else q in
  Z.ldexp (PrimFloat.of_uint63 (Uint63.of_Z q')) e.

(** The exponent part at the front of [s] -- [e] or [E], an optional sign
    and at least one digit -- and what follows it; 0 and [s] when there is
    none. *)
Definition scan_exponent (s : string) : Z * string :=
  match s with
  | String c rest =>
      if Ascii.eqb c "e" || Ascii.eqb c "E" then
        let '(neg, digits) :=
          match rest with
          | String "-" r => (true, r)
          | String "+" r => (false, r)
          | _ => (false, rest)
          end in
        let '(v, k, after) := scan_digits digits 0 0 in
        if Nat.eqb k 0 then (0, s) else (if neg then - v else v, after)
      else (0, s)
  | EmptyString => (0, s)
  end.

(** [parseFloat(s)]: leading white space is skipped; then the longest prefix
    that is a decimal literal is read -- an optional sign, then [Infinity],
    or digits with an optional point and digits and an optional exponent --
    and what follows is ignored; its value is rounded to binary64.  A string
    with no such prefix gives NaN. *)
Definition parseFloat (s : string) : float :=
  let '(neg, body) :=
    match trimStart s with
    | String "-" rest => (true, rest)
    | String "+" rest => (false, rest)
    | rest => (false, rest)
    end in
  if String.prefix "Infinity" body
  then (if neg then PrimFloat.neg_infinity else PrimFloat.infinity)
  else
    let '(ip, ni, rest) := scan_digits body 0 0 in
    let '(all, nf, rest) :=
      match rest with
      | String "." frac => scan_digits frac ip 0
      | _ => (ip, O, rest)
      end in
    if (ni + nf =? 0)%nat then PrimFloat.nan
    else
      let e := fst (scan_exponent rest) - Z.of_nat nf in
      let v := nearest_double (all * 10 ^ Z.max 0 e) (10 ^ Z.max 0 (- e)) in
      if neg then (- v)%float else v.

Definition insert_point (digits : string) : string :=
  let l := String.length digits in
  String.append (substring 0 (l - 2) digits)
    (String.append "." (substring (l - 2) 2 digits)).

(** The integer [n] for which [n / 100 - m * 2^e] is as close to zero as
    possible, the larger one when there are two. *)
Definition hundredths (m : positive) (e : Z) : Z :=
  if 0 <=? e then Z.pos m * 100 * 2 ^ e
  else (200 * Z.pos m + 2 ^ (- e)) / 2 ^ (1 - e).

(** [x.toFixed(2)]: the hundredths nearest to the exact value of [|x|],
    printed with two decimals after the sign.  From 1e21 on the method
    answers [Number::toString(x)], which is taken as the parameter
    [Number_toString]. *)
Definition toFixed2 (Number_toString : float -> string) (x : float) : string :=
  match Prim2SF x with
  | S754_nan => "NaN"
  | S754_infinity sg => if sg then "-Infinity" else "Infinity"
  | S754_zero _ => "0.00"
  | S754_finite sg m e =>
      if (1e21 <=? PrimFloat.abs x)%float then Number_toString x
      else
        String.append (if sg then "-" else "")
          (insert_point (padStart 3 "0" (String_of_Z (hundredths m e))))
  end.

(** [x || 0] for an optional number: undefined, NaN and both zeros give 0. *)
Definition or0 (x : option float) : float :=
  match x with
  | Some v => if PrimFloat.is_nan v || PrimFloat.is_zero v then 0%float else v
  | None => 0%float
  end.


(** Truthiness of an optional string and of an optional integer. *)
Definition truthy_string (s : option string) : bool :=
  match s with Some v => negb (String.eqb v "") | None => false end.

Definition truthy_number (n : option Z) : bool :=
  match n with Some v => negb (Z.eqb v 0) | None => false end.

End Js.

(** ** Binary64 arithmetic on exact values

    A nonnegative binary64 number is a multiple [m * 2^s] of 2^-1074 with
    [m] below 2^53.  The result of an operation is its exact result rounded
    to the nearest such number, ties to the even [m]; results stay far below
    the overflow threshold where this is used. *)

Module Binary64.

(** The nearest integer, ties to even. *)
Definition rne (q : Q) : Z :=
  let f := Qfloor q in
  match (q - inject_Z f ?= 1 # 2)%Q with
  | Lt => f
  | Gt => f + 1
  | Eq => if Z.even f then f else f + 1
  end.

(** Rounding of [q >= 0]: in units of 2^-1074, the integer part of [q] has
    [Z.log2 + 1] bits, of which 53 are kept. *)
Definition round_pos (q : Q) : Q :=
  let x := (q * inject_Z (2 ^ 1074))%Q in
  let sh := Z.max 0 (Z.log2 (Qfloor x) - 52) in
  (inject_Z (rne (x / inject_Z (2 ^ sh)) * 2 ^ sh) / inject_Z (2 ^ 1074))%Q.

Definition round (q : Q) : Q :=
  if Qle_bool 0 q then round_pos q else (- round_pos (- q))%Q.


End Binary64.

(** ** Rows ([shared/schema.ts]) *)

Module Table.
Inductive Status := vacant | active | billing.

Definition status_eqb (a b : Status) : bool :=
  match a, b with
  | vacant, vacant | active, active | billing, billing => true
  | _, _ => false
  end.

Record t := mk {
  id : nat;
  adminUid : string;
  tableNumber : Z;
  status : Status;
  activeSessionId : option string;
  otp : string;
  createdAt : Z;
  updatedAt : Z
}.
End Table.

Module OrderItem.
Inductive Status := pending | accepted | processing | completed | rejected.

Record t := mk {
  menuItemId : string;
  name : string;
  price : string;
  quantity : float;
  status : Status
}.
End OrderItem.

Module Order.
Record t := mk {
  id : nat;
  adminUid : string;
  sessionId : string;
  tableNumber : Z;
  items : list OrderItem.t;
  orderStatus : string;
  createdAt : Z;
  updatedAt : Z
}.
End Order.

Module BillItem.
Record t := mk {
  menuItemId : string;
  name : string;
  price : string;
  quantity : float
}.
End BillItem.

Module Bill.
Record t := mk {
  id : nat;
  billNumber : string;
  adminUid : string;
  sessionId : string;
  tableNumber : Z;
  items : list BillItem.t;
  subtotal : string;
  discountPercentage : string;
  discountAmount : string;
  serviceChargePercentage : string;
  serviceChargeAmount : string;
  totalAmount : string;
  paymentMode : string;
  generatedAt : Z;
  isFinal : bool
}.
End Bill.

Module SalesItem.
Record t := mk {
  name : string;
  quantity : float;
  price : string
}.
End SalesItem.

Module SalesHistory.
Record t := mk {
  id : nat;
  adminUid : string;
  billId : nat;
  tableNumber : Z;
  totalAmount : string;
  itemsSold : list SalesItem.t;
  createdAt : Z
}.
End SalesHistory.

(** ** The store and the data-access layer ([server/storage.ts]) *)

(** One entry per statement that writes, in the order the statements run. *)
Inductive WriteStmt :=
| SqlInsertTable (id : nat)
| SqlUpdateTable (id : nat)
| SqlDeleteTable (id : nat)
| SqlInsertOrder (id : nat)
| SqlUpdateOrder (id : nat)
| SqlInsertBill (id : nat)
| SqlUpdateBill (id : nat)
| SqlInsertSalesHistory (billId : nat).

Record DB := mkDB {
  tables : list Table.t;
  orders : list Order.t;
  bills : list Bill.t;
  salesHistory : list SalesHistory.t;
  nextId : nat;
  journal : list WriteStmt
}.

Definition emptyDB : DB := mkDB [] [] [] [] 0%nat [].

(** A data-access call: it reads the store and returns a value and the store
    it leaves. *)
Definition Storage (A : Type) : Type := DB -> A * DB.

Definition ret {A} (a : A) : Storage A := fun db => (a, db).

Definition bind {A B} (m : Storage A) (k : A -> Storage B) : Storage B :=
  fun db => let '(a, db') := m db in k a db'.

Notation "x <- m ;; k" := (bind m (fun x => k))
  (at level 61, m at next level, right associativity).
Notation "m ;;; k" := (bind m (fun _ => k))
  (at level 61, right associativity).

(** [for (const x of l) { await body(x) }] *)
Fixpoint forEach {A} (l : list A) (body : A -> Storage unit) : Storage unit :=
  match l with
  | [] => ret tt
  | x :: l' => body x ;;; forEach l' body
  end.

Definition exec {A} (m : Storage A) (db : DB) : DB := snd (m db).
Definition eval {A} (m : Storage A) (db : DB) : A := fst (m db).

(** [orderBy(desc(key))]: rows by decreasing key. *)
Fixpoint insert_desc {A} (key : A -> Z) (x : A) (l : list A) : list A :=
  match l with
  | [] => [x]
  | y :: l' => if key y <? key x then x :: l else y :: insert_desc key x l'
  end.

Definition orderBy_desc {A} (key : A -> Z) (l : list A) : list A :=
  fold_right (insert_desc key) [] l.

(** *** Column types *)

(** The range of an [integer] column; a statement that carries a number
    outside it throws. *)
Definition int4 (n : Z) : bool := (- 2 ^ 31 <=? n) && (n <? 2 ^ 31).

Definition lower (c : ascii) : ascii :=
  let n := nat_of_ascii c in
  if Nat.leb 65 n && Nat.leb n 90 then ascii_of_nat (n + 32) else c.

Fixpoint all_white (s : string) : bool :=
  match s with
  | String c rest => Js.is_white c && all_white rest
  | EmptyString => true
  end.

(** A [numeric(precision, 2)] column: the text the column holds once [text]
    has been stored in it, [None] when the insert throws.  The text is read
    as NaN or as a decimal number -- white space around it, a sign, digits
    with an optional point, an optional exponent -- which is rounded to two
    decimals, a half away from zero, and must then be below
    [10^(precision - 2)] in absolute value; it is written back without a
    sign when it is zero.  An infinite value is refused by a column that has
    a precision.  (The route only passes what [toFixed(2)] prints; the
    hexadecimal, octal and binary integers and the digit separators that
    later PostgreSQL versions read as well are not among it.) *)
Definition numeric (precision : Z) (text : string) : option string :=
  let s := Js.trimStart text in
  let is_nan :=
    match s with
    | String a (String b (String c rest)) =>
        Ascii.eqb (lower a) "n" && Ascii.eqb (lower b) "a" && Ascii.eqb (lower c) "n"
        && all_white rest
    | _ => false
    end in
  if is_nan then Some "NaN"
  else
    let '(neg, body) :=
      match s with
      | String "-" rest => (true, rest)
      | String "+" rest => (false, rest)
      | _ => (false, s)
      end in
    let '(ip, ni, rest) := Js.scan_digits body 0 0 in
    let '(all, nf, rest) :=
      match rest with
      | String "." frac => Js.scan_digits frac ip 0
      | _ => (ip, O, rest)
      end in
    if (ni + nf =? 0)%nat then None
    else
      let '(e, rest) := Js.scan_exponent rest in
      if negb (all_white rest) then None
      else
        let k := e - Z.of_nat nf + 2 in
        let h := if 0 <=? k then all * 10 ^ k
                 else (2 * all + 10 ^ (- k)) / (2 * 10 ^ (- k)) in
        if 10 ^ precision <=? h then None
        else
          Some (String.append (if neg && (0 <? h) then "-" else "")
                  (Js.insert_point (Js.padStart 3 "0" (Js.String_of_Z h)))).

(** *** Tables *)

Definition getTablesByAdminUid (adminUid : string) : Storage (list Table.t) :=
  fun db =>
    (filter (fun t => String.eqb (Table.adminUid t) adminUid) (tables db), db).

Definition getTable (id : nat) : Storage (option Table.t) :=
  fun db => (find (fun t => Nat.eqb (Table.id t) id) (tables db), db).

Definition getTableByNumber (adminUid : string) (tableNumber : Z)
  : Storage (option Table.t) :=
  fun db =>
    (find (fun t => String.eqb (Table.adminUid t) adminUid
                    && Z.eqb (Table.tableNumber t) tableNumber) (tables db), db).

(** [createTable({ adminUid, tableNumber, status, otp })]: the session column
    is left to its default, null. *)
Definition createTable (adminUid : string) (tableNumber : Z)
    (status : Table.Status) (otp : string) (now : Z) : Storage Table.t :=
  fun db =>
    let row := Table.mk (nextId db) adminUid tableNumber status None otp now now in
    (row, mkDB (tables db ++ [row]) (orders db) (bills db) (salesHistory db)
               (S (nextId db)) (journal db ++ [SqlInsertTable (nextId db)])).

(** [UPDATE tables SET ... WHERE id = $id RETURNING *], first row returned. *)
Definition updateTableRows (id : nat) (set : Table.t -> Table.t)
  : Storage (option Table.t) :=
  fun db =>
    let rows := map (fun t => if Nat.eqb (Table.id t) id then set t else t)
                    (tables db) in
    (find (fun t => Nat.eqb (Table.id t) id) rows,
     mkDB rows (orders db) (bills db) (salesHistory db) (nextId db)
          (journal db ++ [SqlUpdateTable id])).

(** The fields a route may pass to [updateTable]. *)
Record TablePatch := mkTablePatch {
  patch_status : option Table.Status;
  patch_activeSessionId : option (option string)
}.

Definition applyTablePatch (data : TablePatch) (now : Z) (t : Table.t) : Table.t :=
  Table.mk (Table.id t) (Table.adminUid t) (Table.tableNumber t)
    (match patch_status data with Some s => s | None => Table.status t end)
    (match patch_activeSessionId data with
     | Some s => s
     | None => Table.activeSessionId t
     end)
    (Table.otp t) (Table.createdAt t) now.

Definition updateTable (id : nat) (data : TablePatch) (now : Z)
  : Storage (option Table.t) :=
  updateTableRows id (applyTablePatch data now).

(** [Math.floor(1000 + Math.random() * 9000)]: the product and the sum are
    binary64 operations. *)
Definition otpNumber (r : Q) : Z :=
  Qfloor (Binary64.round (1000 + Binary64.round (r * 9000))%Q).

(** [String(Math.floor(1000 + Math.random() * 9000))] *)
Definition generateOtp (r : Q) : string :=
  Js.String_of_Z (otpNumber r).

Definition setVacant (newOtp : string) (now : Z) (t : Table.t) : Table.t :=
  Table.mk (Table.id t) (Table.adminUid t) (Table.tableNumber t)
    Table.vacant None newOtp (Table.createdAt t) now.

Definition setOtp (newOtp : string) (now : Z) (t : Table.t) : Table.t :=
  Table.mk (Table.id t) (Table.adminUid t) (Table.tableNumber t)
    (Table.status t) (Table.activeSessionId t) newOtp (Table.createdAt t) now.

Definition resetTable (r : Q) (id : nat) (now : Z) : Storage (option Table.t) :=
  let newOtp := generateOtp r in
  updateTableRows id (setVacant newOtp now).

Definition regenerateTableOtp (r : Q) (id : nat) (now : Z)
  : Storage (option Table.t) :=
  let newOtp := generateOtp r in
  updateTableRows id (setOtp newOtp now).

(** The numbers [1 .. count] the two loops below run over. *)
Definition upTo (count : Z) : list Z := map Z.of_nat (seq 1 (Z.to_nat count)).

(** The loop shared by [initializeTables] and [syncTables]; [rs i] is the
    draw of [Math.random()] made for table number [i]. *)
Definition addMissingTables (adminUid : string) (existingNumbers : list Z)
    (count : Z) (rs : Z -> Q) (now : Z) : Storage unit :=
  forEach (upTo count) (fun i =>
    if existsb (Z.eqb i) existingNumbers then ret tt
    else
      let otp := generateOtp (rs i) in
      createTable adminUid i Table.vacant otp now ;;; ret tt).

Definition initializeTables (adminUid : string) (count : Z) (rs : Z -> Q)
    (now : Z) : Storage unit :=
  existingTables <- getTablesByAdminUid adminUid ;;
  let existingNumbers := map Table.tableNumber existingTables in
  addMissingTables adminUid existingNumbers count rs now.

Definition deleteTable (id : nat) : Storage unit :=
  fun db =>
    (tt, mkDB (filter (fun t => negb (Nat.eqb (Table.id t) id)) (tables db))
              (orders db) (bills db) (salesHistory db) (nextId db)
              (journal db ++ [SqlDeleteTable id])).

Definition syncTables (adminUid : string) (newCount : Z) (rs : Z -> Q)
    (now : Z) : Storage unit :=
  existingTables <- getTablesByAdminUid adminUid ;;
  let existingNumbers := map Table.tableNumber existingTables in
  addMissingTables adminUid existingNumbers newCount rs now ;;;
  forEach existingTables (fun table =>
    if newCount <? Table.tableNumber table then deleteTable (Table.id table)
    else ret tt).

(** *** Orders *)

Definition getOrdersBySessionId (sessionId : string) : Storage (list Order.t) :=
  fun db =>
    (orderBy_desc Order.createdAt
       (filter (fun o => String.eqb (Order.sessionId o) sessionId) (orders db)),
     db).

Definition getActiveOrdersByTableNumber (adminUid : string) (tableNumber : Z)
  : Storage (list Order.t) :=
  fun db =>
    (orderBy_desc Order.createdAt
       (filter (fun o => String.eqb (Order.adminUid o) adminUid
                         && Z.eqb (Order.tableNumber o) tableNumber
                         && String.eqb (Order.orderStatus o) "active")
               (orders db)),
     db).

(** What [insertOrderSchema] lets through: the columns of [orders] without
    [id], [createdAt] and [updatedAt]; [orderStatus] has a column default and
    is optional. *)
Record InsertOrder := mkInsertOrder {
  io_adminUid : string;
  io_sessionId : string;
  io_tableNumber : Z;
  io_items : list OrderItem.t;
  io_orderStatus : option string
}.

(** [table_number] is an integer column: the insert throws ([None]) for a
    number outside its range. *)
Definition createOrder (data : InsertOrder) (now : Z) : Storage (option Order.t) :=
  fun db =>
    if negb (int4 (io_tableNumber data)) then (None, db)
    else
      let row := Order.mk (nextId db) (io_adminUid data) (io_sessionId data)
                   (io_tableNumber data) (io_items data)
                   (match io_orderStatus data with Some s => s | None => "active" end)
                   now now in
      (Some row, mkDB (tables db) (orders db ++ [row]) (bills db) (salesHistory db)
                      (S (nextId db)) (journal db ++ [SqlInsertOrder (nextId db)])).

Record OrderPatch := mkOrderPatch {
  patch_items : option (list OrderItem.t);
  patch_orderStatus : option string
}.

Definition applyOrderPatch (data : OrderPatch) (now : Z) (o : Order.t) : Order.t :=
  Order.mk (Order.id o) (Order.adminUid o) (Order.sessionId o) (Order.tableNumber o)
    (match patch_items data with Some l => l | None => Order.items o end)
    (match patch_orderStatus data with Some s => s | None => Order.orderStatus o end)
    (Order.createdAt o) now.

Definition updateOrder (id : nat) (data : OrderPatch) (now : Z)
  : Storage (option Order.t) :=
  fun db =>
    let rows := map (fun o => if Nat.eqb (Order.id o) id
                              then applyOrderPatch data now o else o) (orders db) in
    (find (fun o => Nat.eqb (Order.id o) id) rows,
     mkDB (tables db) rows (bills db) (salesHistory db) (nextId db)
          (journal db ++ [SqlUpdateOrder id])).

Definition cancelTable (r : Q) (id : nat) (now : Z) : Storage (option Table.t) :=
  table <- getTable id ;;
  match table with
  | None => ret None
  | Some table =>
      activeOrders <- getActiveOrdersByTableNumber (Table.adminUid table)
                                                   (Table.tableNumber table) ;;
      forEach activeOrders (fun order =>
        updateOrder (Order.id order) (mkOrderPatch None (Some "cancelled")) now ;;;
        ret tt) ;;;
      let newOtp := generateOtp r in
      updateTableRows id (setVacant newOtp now)
  end.

(** *** Bills and sales history *)

Definition getBillsByAdminUid (adminUid : string) : Storage (list Bill.t) :=
  fun db =>
    (orderBy_desc Bill.generatedAt
       (filter (fun b => String.eqb (Bill.adminUid b) adminUid) (bills db)), db).

Definition getBill (id : nat) : Storage (option Bill.t) :=
  fun db => (find (fun b => Nat.eqb (Bill.id b) id) (bills db), db).

(** The values the bill route passes to [createBill]; the payment mode is not
    among them and takes its column default. *)
Record InsertBill := mkInsertBill {
  ib_billNumber : string;
  ib_adminUid : string;
  ib_sessionId : string;
  ib_tableNumber : Z;
  ib_items : list BillItem.t;
  ib_subtotal : string;
  ib_discountPercentage : string;
  ib_discountAmount : string;
  ib_serviceChargePercentage : string;
  ib_serviceChargeAmount : string;
  ib_totalAmount : string;
  ib_isFinal : bool
}.

(** The six amounts of a bill as its columns hold them: the two percentages
    are [numeric(5, 2)], the four amounts [numeric(10, 2)]; [None] when one
    of them is refused. *)
Record Amounts := mkAmounts {
  am_subtotal : string;
  am_discountPercentage : string;
  am_discountAmount : string;
  am_serviceChargePercentage : string;
  am_serviceChargeAmount : string;
  am_totalAmount : string
}.

Definition storedAmounts (a : Amounts) : option Amounts :=
  match numeric 10 (am_subtotal a), numeric 5 (am_discountPercentage a),
        numeric 10 (am_discountAmount a), numeric 5 (am_serviceChargePercentage a),
        numeric 10 (am_serviceChargeAmount a), numeric 10 (am_totalAmount a) with
  | Some subtotal, Some discountPercentage, Some discountAmount,
    Some serviceChargePercentage, Some serviceChargeAmount, Some totalAmount =>
      Some (mkAmounts subtotal discountPercentage discountAmount
              serviceChargePercentage serviceChargeAmount totalAmount)
  | _, _, _, _, _, _ => None
  end.

(** The insert throws ([None]) when the bill number is taken ([bill_number]
    is a unique column), when the table number is outside the integer column
    or when an amount does not fit its numeric column. *)
Definition createBill (data : InsertBill) (now : Z) : Storage (option Bill.t) :=
  fun db =>
    if existsb (fun b => String.eqb (Bill.billNumber b) (ib_billNumber data)) (bills db)
    then (None, db)
    else if negb (int4 (ib_tableNumber data)) then (None, db)
    else
      match storedAmounts
              (mkAmounts (ib_subtotal data) (ib_discountPercentage data)
                 (ib_discountAmount data) (ib_serviceChargePercentage data)
                 (ib_serviceChargeAmount data) (ib_totalAmount data)) with
      | None => (None, db)
      | Some stored =>
          let row := Bill.mk (nextId db) (ib_billNumber data) (ib_adminUid data)
                       (ib_sessionId data) (ib_tableNumber data) (ib_items data)
                       (am_subtotal stored) (am_discountPercentage stored)
                       (am_discountAmount stored) (am_serviceChargePercentage stored)
                       (am_serviceChargeAmount stored) (am_totalAmount stored)
                       "cash" now (ib_isFinal data) in
          (Some row,
           mkDB (tables db) (orders db) (bills db ++ [row]) (salesHistory db)
                (S (nextId db)) (journal db ++ [SqlInsertBill (nextId db)]))
      end.

Definition setIsFinal (v : bool) (b : Bill.t) : Bill.t :=
  Bill.mk (Bill.id b) (Bill.billNumber b) (Bill.adminUid b) (Bill.sessionId b)
    (Bill.tableNumber b) (Bill.items b) (Bill.subtotal b)
    (Bill.discountPercentage b) (Bill.discountAmount b)
    (Bill.serviceChargePercentage b) (Bill.serviceChargeAmount b)
    (Bill.totalAmount b) (Bill.paymentMode b) (Bill.generatedAt b) v.

(** [updateBill(id, { isFinal })] *)
Definition updateBill (id : nat) (isFinal : bool) : Storage (option Bill.t) :=
  fun db =>
    let rows := map (fun b => if Nat.eqb (Bill.id b) id then setIsFinal isFinal b else b)
                    (bills db) in
    (find (fun b => Nat.eqb (Bill.id b) id) rows,
     mkDB (tables db) (orders db) rows (salesHistory db) (nextId db)
          (journal db ++ [SqlUpdateBill id])).

(** [BILL-YYYYMMDD-NNNN]; [dateStr] is the [YYYYMMDD] of the clock. *)
Definition getNextBillNumber (adminUid : string) (dateStr : string) : Storage string :=
  existingBills <- getBillsByAdminUid adminUid ;;
  let nextNumber := Z.of_nat (List.length existingBills) + 1 in
  ret ("BILL-" ++ dateStr ++ "-" ++ Js.padStart 4 "0" (Js.String_of_Z nextNumber)).

Record InsertSalesHistory := mkInsertSalesHistory {
  ish_adminUid : string;
  ish_billId : nat;
  ish_tableNumber : Z;
  ish_totalAmount : string;
  ish_itemsSold : list SalesItem.t
}.

(** The table number and the total come from a stored bill, so they fit
    their columns and are stored as they are. *)
Definition createSalesHistory (data : InsertSalesHistory) (now : Z)
  : Storage SalesHistory.t :=
  fun db =>
    let row := SalesHistory.mk (nextId db) (ish_adminUid data) (ish_billId data)
                 (ish_tableNumber data) (ish_totalAmount data) (ish_itemsSold data)
                 now in
    (row, mkDB (tables db) (orders db) (bills db) (salesHistory db ++ [row])
               (S (nextId db)) (journal db ++ [SqlInsertSalesHistory (ish_billId data)])).

(** ** The route handlers ([server/routes.ts]) *)

(** The failure statuses the handlers answer with: 400, 401, 403, 404, 500. *)
Inductive HttpError :=
| BadRequest | Unauthorized | Forbidden | NotFound | InternalError.

Inductive Response (A : Type) :=
| Json (body : A)
| Fail (e : HttpError).
Arguments Json {A} body.
Arguments Fail {A} e.

Definition Handler (A : Type) : Type := Storage (Response A).

(** *** POST /api/tables/:id/reset, /cancel, /regenerate-otp
    [reqAdminUid] is the tenant the authentication middleware put on the
    request. *)

Definition postTableReset (reqAdminUid : string) (id : nat) (r : Q) (now : Z)
  : Handler (option Table.t) :=
  existingTable <- getTable id ;;
  match existingTable with
  | None => ret (Fail NotFound)
  | Some existingTable =>
      if negb (String.eqb (Table.adminUid existingTable) reqAdminUid)
      then ret (Fail Forbidden)
      else table <- resetTable r id now ;; ret (Json table)
  end.

Definition postTableCancel (reqAdminUid : string) (id : nat) (r : Q) (now : Z)
  : Handler (option Table.t) :=
  existingTable <- getTable id ;;
  match existingTable with
  | None => ret (Fail NotFound)
  | Some existingTable =>
      if negb (String.eqb (Table.adminUid existingTable) reqAdminUid)
      then ret (Fail Forbidden)
      else if Table.status_eqb (Table.status existingTable) Table.vacant
      then ret (Fail BadRequest)
      else table <- cancelTable r id now ;; ret (Json table)
  end.

Definition postTableRegenerateOtp (reqAdminUid : string) (id : nat) (r : Q)
    (now : Z) : Handler (option Table.t) :=
  existingTable <- getTable id ;;
  match existingTable with
  | None => ret (Fail NotFound)
  | Some existingTable =>
      if negb (String.eqb (Table.adminUid existingTable) reqAdminUid)
      then ret (Fail Forbidden)
      else table <- regenerateTableOtp r id now ;; ret (Json table)
  end.

(** *** POST /api/tables/join *)

Record JoinBody := mkJoinBody {
  join_adminUid : option string;
  join_tableNumber : option Z;
  join_otp : option string
}.

Record JoinResult := mkJoinResult {
  sessionId : string;
  isExistingSession : bool;
  tableNumber : Z
}.

(** [`session-${Date.now()}-${Math.random().toString(36).substr(2, 9)}`];
    [suffix] stands for the base-36 digits of the draw. *)
Definition newSessionId (now : Z) (suffix : string) : string :=
  "session-" ++ Js.String_of_Z now ++ "-" ++ suffix.

Definition postTablesJoin (body : JoinBody) (now : Z) (suffix : string)
  : Handler JoinResult :=
  match join_adminUid body, join_tableNumber body, join_otp body with
  | Some adminUid, Some tableNumber, Some otp =>
      if negb (Js.truthy_string (Some adminUid))
         || negb (Js.truthy_number (Some tableNumber))
         || negb (Js.truthy_string (Some otp))
      then ret (Fail BadRequest)
      else
        table <- getTableByNumber adminUid tableNumber ;;
        match table with
        | None =>
            (* no row carries a number outside the integer column: for such a
               number the query throws *)
            ret (Fail (if int4 tableNumber then NotFound else InternalError))
        | Some table =>
            if negb (String.eqb (Table.otp table) otp)
            then ret (Fail Unauthorized)
            else if Table.status_eqb (Table.status table) Table.active
                    && Js.truthy_string (Table.activeSessionId table)
            then
              ret (Json (mkJoinResult
                           (match Table.activeSessionId table with
                            | Some s => s
                            | None => ""
                            end)
                           true (Table.tableNumber table)))
            else
              let newSession := newSessionId now suffix in
              updateTable (Table.id table)
                (mkTablePatch (Some Table.active) (Some (Some newSession))) now ;;;
              ret (Json (mkJoinResult newSession false (Table.tableNumber table)))
        end
  | _, _, _ => ret (Fail BadRequest)
  end.

(** *** POST /api/orders *)

Record OrderBody := mkOrderBody {
  body_adminUid : option string;
  body_sessionId : option string;
  body_tableNumber : option Z;
  body_items : option (list OrderItem.t);
  body_orderStatus : option string
}.

(** [insertOrderSchema.parse]: the four columns without a default must be
    present; the items column is JSON and any array passes.  The table number
    is taken as an integer; one outside the integer column is let through
    here and refused by the insert (a schema that carries the range of the
    column refuses it here, with the same outcome: nothing is stored). *)
Definition insertOrderSchema_parse (body : OrderBody) : option InsertOrder :=
  match body_adminUid body, body_sessionId body,
        body_tableNumber body, body_items body with
  | Some adminUid, Some sessionId, Some tableNumber, Some items =>
      Some (mkInsertOrder adminUid sessionId tableNumber items (body_orderStatus body))
  | _, _, _, _ => None
  end.

Definition postOrders (body : OrderBody) (now : Z) : Handler Order.t :=
  match insertOrderSchema_parse body with
  | None => ret (Fail BadRequest)
  | Some data =>
      order <- createOrder data now ;;
      match order with
      | None => ret (Fail InternalError)
      | Some order =>
          table <- getTableByNumber (io_adminUid data) (io_tableNumber data) ;;
          match table with
          | Some table =>
              updateTable (Table.id table)
                (mkTablePatch (Some Table.active) (Some (Some (io_sessionId data))))
                now ;;;
              ret (Json order)
          | None => ret (Json order)
          end
      end
  end.

(** The request the customer page sends ([placeOrderMutation]): one item per
    cart line, a copy of the menu item's id, name and price with the line's
    quantity, each with status pending; the order status is sent as active. *)
Record MenuItem := mkMenuItem {
  menu_id : string;
  menu_name : string;
  menu_price : string
}.

Record CartItem := mkCartItem {
  menuItem : MenuItem;
  quantity : float
}.

Definition orderItems (cart : list CartItem) : list OrderItem.t :=
  map (fun item =>
         OrderItem.mk (menu_id (menuItem item)) (menu_name (menuItem item))
           (menu_price (menuItem item)) (quantity item) OrderItem.pending) cart.

Definition placeOrderBody (adminUid sessionId : string) (tableNumber : Z)
    (cart : list CartItem) : OrderBody :=
  mkOrderBody (Some adminUid) (Some sessionId) (Some tableNumber)
    (Some (orderItems cart)) (Some "active").

(** *** POST /api/bills *)

Record Totals := mkTotals {
  totals_subtotal : string;
  totals_discountPercentage : string;
  totals_discountAmount : string;
  totals_serviceChargePercentage : string;
  totals_serviceChargeAmount : string;
  totals_totalAmount : string
}.

(** The "Calculate totals" block of the handler and the [toFixed(2)] calls
    that format its results for [createBill]. *)
Definition calculateTotals (Number_toString : float -> string)
    (items : list BillItem.t)
    (discountPercentage serviceChargePercentage : option float) : Totals :=
  let subtotal :=
    fold_left (fun sum item =>
                 (sum + Js.parseFloat (BillItem.price item) * BillItem.quantity item)%float)
              items 0%float in
  let discountAmount := ((subtotal * Js.or0 discountPercentage) / 100)%float in
  let afterDiscount := (subtotal - discountAmount)%float in
  let serviceChargeAmount :=
    ((afterDiscount * Js.or0 serviceChargePercentage) / 100)%float in
  let totalAmount := (afterDiscount + serviceChargeAmount)%float in
  mkTotals (Js.toFixed2 Number_toString subtotal)
           (Js.toFixed2 Number_toString (Js.or0 discountPercentage))
           (Js.toFixed2 Number_toString discountAmount)
           (Js.toFixed2 Number_toString (Js.or0 serviceChargePercentage))
           (Js.toFixed2 Number_toString serviceChargeAmount)
           (Js.toFixed2 Number_toString totalAmount).

Record BillBody := mkBillBody {
  bill_adminUid : string;
  bill_sessionId : string;
  bill_tableNumber : Z;
  bill_items : list BillItem.t;
  bill_discountPercentage : option float;
  bill_serviceChargePercentage : option float
}.

Definition postBills (Number_toString : float -> string) (reqAdminUid : string)
    (body : BillBody) (dateStr : string) (now : Z) : Handler Bill.t :=
  if negb (String.eqb reqAdminUid (bill_adminUid body)) then ret (Fail Forbidden)
  else
    billNumber <- getNextBillNumber (bill_adminUid body) dateStr ;;
    let totals := calculateTotals Number_toString (bill_items body)
                    (bill_discountPercentage body)
                    (bill_serviceChargePercentage body) in
    bill <- createBill
              (mkInsertBill billNumber (bill_adminUid body) (bill_sessionId body)
                 (bill_tableNumber body) (bill_items body)
                 (totals_subtotal totals) (totals_discountPercentage totals)
                 (totals_discountAmount totals)
                 (totals_serviceChargePercentage totals)
                 (totals_serviceChargeAmount totals) (totals_totalAmount totals)
                 false) now ;;
    match bill with
    | None => ret (Fail InternalError)
    | Some bill =>
        table <- getTableByNumber (bill_adminUid body) (bill_tableNumber body) ;;
        match table with
        | Some table =>
            updateTable (Table.id table) (mkTablePatch (Some Table.billing) None) now ;;;
            ret (Json bill)
        | None => ret (Json bill)
        end
    end.

(** *** POST /api/bills/:id/finalize *)

Definition itemsSold (items : list BillItem.t) : list SalesItem.t :=
  map (fun item => SalesItem.mk (BillItem.name item) (BillItem.quantity item)
                     (BillItem.price item)) items.

Definition postBillFinalize (reqAdminUid : string) (id : nat) (r : Q) (now : Z)
  : Handler Bill.t :=
  bill <- getBill id ;;
  match bill with
  | None => ret (Fail NotFound)
  | Some bill =>
      if negb (String.eqb reqAdminUid (Bill.adminUid bill)) then ret (Fail Forbidden)
      else
        updateBill (Bill.id bill) true ;;;
        createSalesHistory
          (mkInsertSalesHistory (Bill.adminUid bill) (Bill.id bill)
             (Bill.tableNumber bill) (Bill.totalAmount bill)
             (itemsSold (Bill.items bill))) now ;;;
        sessionOrders <- getOrdersBySessionId (Bill.sessionId bill) ;;
        forEach sessionOrders (fun order =>
          updateOrder (Order.id order) (mkOrderPatch None (Some "completed")) now ;;;
          ret tt) ;;;
        table <- getTableByNumber (Bill.adminUid bill) (Bill.tableNumber bill) ;;
        match table with
        | Some table => resetTable r (Table.id table) now ;;; ret (Json bill)
        | None => ret (Json bill)
        end
  end.

(** ** The words of the specification, for comparison with the code *)

Module BillingSpec.

(** Billing arithmetic over exact amounts; a line is a unit price and a
    quantity, [d] and [s] are the two percentages. *)
Definition subtotal (lines : list (Q * Q)) : Q :=
  fold_left (fun sum line => sum + fst line * snd line)%Q lines 0%Q.

Definition discountAmount (lines : list (Q * Q)) (d : Q) : Q :=
  (subtotal lines * d / 100)%Q.

Definition afterDiscount (lines : list (Q * Q)) (d : Q) : Q :=
  (subtotal lines - discountAmount lines d)%Q.

Definition serviceChargeAmount (lines : list (Q * Q)) (d s : Q) : Q :=
  (afterDiscount lines d * s / 100)%Q.


End BillingSpec.

(** ** Predicates the statements below use *)

(** [status == vacant <-> activeSessionId == null] *)
Definition table_inv (t : Table.t) : Prop :=
  Table.status t = Table.vacant <-> Table.activeSessionId t = None.

Definition tables_inv (db : DB) : Prop := Forall table_inv (tables db).





(** The sales-history rows written for a bill. *)
Definition salesRecordsOf (billId : nat) (db : DB) : list SalesHistory.t :=
  filter (fun h => Nat.eqb (SalesHistory.billId h) billId) (salesHistory db).

(** An order the cancellation of [t] looks at: same tenant, same table
    number, order status active. *)
Definition activeOn (t : Table.t) (o : Order.t) : bool :=
  String.eqb (Order.adminUid o) (Table.adminUid t)
  && Z.eqb (Order.tableNumber o) (Table.tableNumber t)
  && String.eqb (Order.orderStatus o) "active".

(** The operations of the table registry and the two that bind a session. *)
Inductive RegistryOp :=
| OpInitialize (adminUid : string) (count : Z) (rs : Z -> Q) (now : Z)
| OpSync (adminUid : string) (newCount : Z) (rs : Z -> Q) (now : Z)
| OpReset (reqAdminUid : string) (id : nat) (r : Q) (now : Z)
| OpCancel (reqAdminUid : string) (id : nat) (r : Q) (now : Z)
| OpRegenerateCode (reqAdminUid : string) (id : nat) (r : Q) (now : Z)
| OpJoin (body : JoinBody) (now : Z) (suffix : string)
| OpPlaceOrder (body : OrderBody) (now : Z).

Definition runOp (op : RegistryOp) (db : DB) : DB :=
  match op with
  | OpInitialize adminUid count rs now => exec (initializeTables adminUid count rs now) db
  | OpSync adminUid newCount rs now => exec (syncTables adminUid newCount rs now) db
  | OpReset a id r now => exec (postTableReset a id r now) db
  | OpCancel a id r now => exec (postTableCancel a id r now) db
  | OpRegenerateCode a id r now => exec (postTableRegenerateOtp a id r now) db
  | OpJoin body now suffix => exec (postTablesJoin body now suffix) db
  | OpPlaceOrder body now => exec (postOrders body now) db
  end.

Definition runOps (ops : list RegistryOp) (db : DB) : DB :=
  fold_left (fun d op => runOp op d) ops db.

(** A computation that keeps the table invariant. *)
Definition keeps_inv {A} (m : Storage A) : Prop :=
  forall db, tables_inv db -> tables_inv (snd (m db)).

(** What the two order loops write on a row. *)
Definition completeOrder (now : Z) (o : Order.t) : Order.t :=
  applyOrderPatch (mkOrderPatch None (Some "completed")) now o.

Definition cancelOrder (now : Z) (o : Order.t) : Order.t :=
  applyOrderPatch (mkOrderPatch None (Some "cancelled")) now o.

(** ** A run of the application

    Tenant "demo" with 10 tables, every code drawn as "4821"; a customer
    joins table 3, orders two of item A, the bill is generated with no
    discount and a 10% service charge, and finalized (twice).  A second
    customer request binds table 5 with an empty session id. *)
Module Scenario.

Definition draw : Q := 1739 # 4096.

Definition initialized : DB := Eval vm_compute in
  exec (initializeTables "demo" 10 (fun _ => draw) 100) emptyDB.

Definition joinBody : JoinBody := mkJoinBody (Some "demo") (Some 3) (Some "4821").

Definition joined : DB := Eval vm_compute in
  exec (postTablesJoin joinBody 200 "k3x9q") initialized.

Definition session : string := "session-200-k3x9q".

Definition table3 : Table.t :=
  Table.mk 2 "demo" 3 Table.active (Some session) "4821" 100 200.

Definition cart : list CartItem :=
  [mkCartItem (mkMenuItem "item-a" "A" "120.00") 2%float].

Definition ordered : DB := Eval vm_compute in
  exec (postOrders (placeOrderBody "demo" session 3 cart) 300) joined.

Definition table3ordered : Table.t :=
  Table.mk 2 "demo" 3 Table.active (Some session) "4821" 100 300.

Definition billBody : BillBody :=
  mkBillBody "demo" session 3 [BillItem.mk "item-a" "A" "120.00" 2%float]
    (Some 0%float) (Some 10%float).

Definition billed : DB := Eval vm_compute in
  exec (postBills (fun _ => "") "demo" billBody "20251215" 400) ordered.

Definition bill : Bill.t :=
  Bill.mk 11 "BILL-20251215-0001" "demo" session 3
    [BillItem.mk "item-a" "A" "120.00" 2%float]
    "240.00" "0.00" "0.00" "10.00" "24.00" "264.00" "cash" 400 false.

Definition finalized : DB := Eval vm_compute in
  exec (postBillFinalize "demo" 11 (1 # 2) 500) billed.

Definition finalizedTwice : DB := Eval vm_compute in
  exec (postBillFinalize "demo" 11 (1 # 4) 600) finalized.


Definition emptySessionBody : OrderBody :=
  mkOrderBody (Some "demo") (Some "") (Some 5)
    (Some [OrderItem.mk "item-a" "A" "120.00" 1%float OrderItem.pending]) None.

Definition emptySession : DB := Eval vm_compute in
  exec (postOrders emptySessionBody 250) initialized.

Definition table5 : Table.t :=
  Table.mk 4 "demo" 5 Table.active (Some "") "4821" 100 250.

Definition joinBody5 : JoinBody := mkJoinBody (Some "demo") (Some 5) (Some "4821").

End Scenario.

(** ** Further built-ins, data-access calls and routes *)

Module JsParse.

Definition hex_digit_of (c : ascii) : option Z :=
  let n := Z.of_nat (nat_of_ascii c) in
  if (48 <=? n) && (n <=? 57) then Some (n - 48)
  else if (97 <=? n) && (n <=? 102) then Some (n - 87)
  else if (65 <=? n) && (n <=? 70) then Some (n - 55)
  else None.

Fixpoint scan_hex (s : string) (acc : Z) (count : nat) : Z * nat :=
  match s with
  | String c rest =>
      match hex_digit_of c with
      | Some d => scan_hex rest (16 * acc + d) (S count)
      | None => (acc, count)
      end
  | EmptyString => (acc, count)
  end.

(** [parseInt(s)] with no radix: white space, an optional sign, then the
    longest run of decimal digits, or of hexadecimal digits after [0x];
    [None] is NaN.  The value is the exact integer (the code only uses
    results far below 2^53). *)
Definition parseInt (s : string) : option Z :=
  let '(neg, body) :=
    match Js.trimStart s with
    | String "-" rest => (true, rest)
    | String "+" rest => (false, rest)
    | rest => (false, rest)
    end in
  let '(v, k) :=
    match body with
    | String "0" (String "x" rest) => scan_hex rest 0 0
    | String "0" (String "X" rest) => scan_hex rest 0 0
    | _ => let '(v, k, _) := Js.scan_digits body 0 0 in (v, k)
    end in
  if Nat.eqb k 0 then None else Some (if neg then - v else v).

End JsParse.

(** *** More of the data-access layer *)

Definition verifyTableOtp (adminUid : string) (tableNumber : Z) (otp : string)
  : Storage bool :=
  table <- getTableByNumber adminUid tableNumber ;;
  match table with
  | None => ret false
  | Some table => ret (String.eqb (Table.otp table) otp)
  end.

Definition areAllTablesVacant (adminUid : string) : Storage bool :=
  allTables <- getTablesByAdminUid adminUid ;;
  ret (forallb (fun table => Table.status_eqb (Table.status table) Table.vacant)
               allTables).

Definition hasNonVacantTables (adminUid : string) : Storage bool :=
  allTables <- getTablesByAdminUid adminUid ;;
  ret (existsb (fun table => negb (Table.status_eqb (Table.status table) Table.vacant))
               allTables).

Definition getOrder (id : nat) : Storage (option Order.t) :=
  fun db => (find (fun o => Nat.eqb (Order.id o) id) (orders db), db).

Definition setItemStatus (status : OrderItem.Status) (item : OrderItem.t)
  : OrderItem.t :=
  OrderItem.mk (OrderItem.menuItemId item) (OrderItem.name item)
    (OrderItem.price item) (OrderItem.quantity item) status.

(** [items[itemIndex] = { ...items[itemIndex], status }] on a copy of the
    items, for an index the guard let through. *)
Fixpoint setNth (itemIndex : nat) (status : OrderItem.Status)
    (items : list OrderItem.t) : list OrderItem.t :=
  match items, itemIndex with
  | [], _ => []
  | item :: rest, O => setItemStatus status item :: rest
  | item :: rest, S i => item :: setNth i status rest
  end.

(** [updateOrderItemStatus(orderId, itemIndex, status)].  [itemIndex] is what
    [parseInt] gave: [None] is NaN, which passes both comparisons of the
    guard; the assignment then sets a property that is no element, and the
    array is written back with its elements as they were. *)
Definition updateOrderItemStatus (orderId : nat) (itemIndex : option Z)
    (status : OrderItem.Status) (now : Z) : Storage (option Order.t) :=
  order <- getOrder orderId ;;
  match order with
  | None => ret None
  | Some order =>
      let items := Order.items order in
      match itemIndex with
      | Some i =>
          if (i <? 0) || (Z.of_nat (List.length items) <=? i) then ret None
          else updateOrder orderId
                 (mkOrderPatch (Some (setNth (Z.to_nat i) status items)) None) now
      | None => updateOrder orderId (mkOrderPatch (Some items) None) now
      end
  end.

(** *** GET /api/tables/session/validate *)

Record ValidateQuery := mkValidateQuery {
  query_adminUid : option string;
  query_tableNumber : option string;
  query_sessionId : option string
}.

Inductive ValidateResult :=
| Valid (tableStatus : Table.Status)
| Invalid (reason : string).

(** The table number travels as text and goes through [parseInt]; a value
    that is no integer of the column's type makes the query throw. *)
Definition getSessionValidate (query : ValidateQuery) : Handler ValidateResult :=
  match query_adminUid query, query_tableNumber query, query_sessionId query with
  | Some adminUid, Some tableNumber, Some sessionId =>
      if negb (Js.truthy_string (Some adminUid))
         || negb (Js.truthy_string (Some tableNumber))
         || negb (Js.truthy_string (Some sessionId))
      then ret (Fail BadRequest)
      else
        match JsParse.parseInt tableNumber with
        | None => ret (Fail InternalError)
        | Some n =>
            if negb (int4 n) then ret (Fail InternalError)
            else
              table <- getTableByNumber adminUid n ;;
              match table with
              | None => ret (Json (Invalid "table_not_found"))
              | Some table =>
                  if Table.status_eqb (Table.status table) Table.vacant
                     || negb (match Table.activeSessionId table with
                              | Some s => String.eqb s sessionId
                              | None => false
                              end)
                  then ret (Json (Invalid "session_ended"))
                  else ret (Json (Valid (Table.status table)))
              end
        end
  | _, _, _ => ret (Fail BadRequest)
  end.

(** *** PATCH /api/tables/:id
    [updateTableSchema] accepts an optional status of the three and an
    optional, nullable session id; the fields of the body are the patch. *)
Definition patchTable (reqAdminUid : string) (id : nat) (data : TablePatch)
    (now : Z) : Handler (option Table.t) :=
  existingTable <- getTable id ;;
  match existingTable with
  | None => ret (Fail NotFound)
  | Some existingTable =>
      if negb (String.eqb (Table.adminUid existingTable) reqAdminUid)
      then ret (Fail Forbidden)
      else table <- updateTable id data now ;; ret (Json table)
  end.

(** *** PATCH /api/orders/:orderId/items/:itemIndex
    [status] is the body's status when it is one of the five, [None] when
    the schema rejects the body. *)
Definition patchOrderItem (reqAdminUid : string) (orderId : nat)
    (itemIndex : string) (status : option OrderItem.Status) (now : Z)
  : Handler Order.t :=
  existingOrder <- getOrder orderId ;;
  match existingOrder with
  | None => ret (Fail NotFound)
  | Some existingOrder =>
      if negb (String.eqb (Order.adminUid existingOrder) reqAdminUid)
      then ret (Fail Forbidden)
      else
        match status with
        | None => ret (Fail BadRequest)
        | Some status =>
            order <- updateOrderItemStatus orderId (JsParse.parseInt itemIndex)
                       status now ;;
            match order with
            | None => ret (Fail NotFound)
            | Some order => ret (Json order)
            end
        end
  end.

(** *** PATCH /api/orders/:id
    The body's order status: absent, one of the three, or anything else. *)
Inductive OrderStatusField :=
| StatusAbsent
| StatusGiven (s : string).

Definition orderStatusEnum : list string := ["active"; "completed"; "cancelled"].

Definition updateOrderStatusSchema_parse (body : OrderStatusField)
  : option OrderPatch :=
  match body with
  | StatusAbsent => Some (mkOrderPatch None None)
  | StatusGiven s =>
      if existsb (String.eqb s) orderStatusEnum
      then Some (mkOrderPatch None (Some s)) else None
  end.

Definition patchOrder (reqAdminUid : string) (id : nat) (body : OrderStatusField)
    (now : Z) : Handler (option Order.t) :=
  existingOrder <- getOrder id ;;
  match existingOrder with
  | None => ret (Fail NotFound)
  | Some existingOrder =>
      if negb (String.eqb (Order.adminUid existingOrder) reqAdminUid)
      then ret (Fail Forbidden)
      else
        match updateOrderStatusSchema_parse body with
        | None => ret (Fail BadRequest)
        | Some data => order <- updateOrder id data now ;; ret (Json order)
        end
  end.

(** *** The rows the table loops add and remove, in closed form *)

(** The rows the loop of [addMissingTables] creates over [numbers], the
    first of them with id [next]. *)
Fixpoint missingRows (adminUid : string) (existingNumbers : list Z) (rs : Z -> Q)
    (now : Z) (numbers : list Z) (next : nat) : list Table.t :=
  match numbers with
  | [] => []
  | i :: rest =>
      if existsb (Z.eqb i) existingNumbers
      then missingRows adminUid existingNumbers rs now rest next
      else Table.mk next adminUid i Table.vacant None (generateOtp (rs i)) now now
           :: missingRows adminUid existingNumbers rs now rest (S next)
  end.

(** The rows of a tenant. *)
Definition tablesOf (adminUid : string) (db : DB) : list Table.t :=
  filter (fun t => String.eqb (Table.adminUid t) adminUid) (tables db).

(** A row the second loop of [syncTables] deletes: its id is the id of a
    table of [existing] whose number exceeds [newCount]. *)
Definition excessId (newCount : Z) (existing : list Table.t) (t : Table.t) : bool :=
  existsb (fun x => (newCount <? Table.tableNumber x)
                    && Nat.eqb (Table.id t) (Table.id x)) existing.

(** Table ids are distinct and below the id counter. *)
Definition table_ids_fresh (db : DB) : Prop :=
  NoDup (map Table.id (tables db))
  /\ Forall (fun t => (Table.id t < nextId db)%nat) (tables db).

(** *** Every modelled entry point, as one step of the application *)

Inductive ApiCall :=
| CallInitialize (adminUid : string) (count : Z) (rs : Z -> Q) (now : Z)
| CallSync (adminUid : string) (newCount : Z) (rs : Z -> Q) (now : Z)
| CallReset (reqAdminUid : string) (id : nat) (r : Q) (now : Z)
| CallCancel (reqAdminUid : string) (id : nat) (r : Q) (now : Z)
| CallRegenerateOtp (reqAdminUid : string) (id : nat) (r : Q) (now : Z)
| CallPatchTable (reqAdminUid : string) (id : nat) (data : TablePatch) (now : Z)
| CallJoin (body : JoinBody) (now : Z) (suffix : string)
| CallValidate (query : ValidateQuery)
| CallPlaceOrder (body : OrderBody) (now : Z)
| CallPatchOrderItem (reqAdminUid : string) (orderId : nat) (itemIndex : string)
    (status : option OrderItem.Status) (now : Z)
| CallPatchOrder (reqAdminUid : string) (id : nat) (body : OrderStatusField) (now : Z)
| CallGenerateBill (Number_toString : float -> string) (reqAdminUid : string)
    (body : BillBody) (dateStr : string) (now : Z)
| CallFinalize (reqAdminUid : string) (id : nat) (r : Q) (now : Z).

Definition runCall (call : ApiCall) (db : DB) : DB :=
  match call with
  | CallInitialize a count rs now => exec (initializeTables a count rs now) db
  | CallSync a newCount rs now => exec (syncTables a newCount rs now) db
  | CallReset a id r now => exec (postTableReset a id r now) db
  | CallCancel a id r now => exec (postTableCancel a id r now) db
  | CallRegenerateOtp a id r now => exec (postTableRegenerateOtp a id r now) db
  | CallPatchTable a id data now => exec (patchTable a id data now) db
  | CallJoin body now suffix => exec (postTablesJoin body now suffix) db
  | CallValidate query => exec (getSessionValidate query) db
  | CallPlaceOrder body now => exec (postOrders body now) db
  | CallPatchOrderItem a orderId itemIndex status now =>
      exec (patchOrderItem a orderId itemIndex status now) db
  | CallPatchOrder a id body now => exec (patchOrder a id body now) db
  | CallGenerateBill ts a body dateStr now => exec (postBills ts a body dateStr now) db
  | CallFinalize a id r now => exec (postBillFinalize a id r now) db
  end.

Definition runCalls (calls : list ApiCall) (db : DB) : DB :=
  fold_left (fun d call => runCall call d) calls db.

(** [l'] is [l], row by row up to [le], followed by new rows. *)
Definition grows {A} (le : A -> A -> Prop) (l l' : list A) : Prop :=
  exists kept added, l' = (kept ++ added)%list /\ Forall2 le l kept.

(** The columns of an order that no statement of the code assigns after the
    insert. *)
Definition order_same (o o' : Order.t) : Prop :=
  Order.id o' = Order.id o /\ Order.adminUid o' = Order.adminUid o
  /\ Order.sessionId o' = Order.sessionId o
  /\ Order.tableNumber o' = Order.tableNumber o
  /\ Order.createdAt o' = Order.createdAt o.

(** A bill row after later statements: [isFinal] may have been set, nothing
    else differs. *)
Definition bill_same (b b' : Bill.t) : Prop :=
  b' = b \/ (b' = setIsFinal true b).

Definition lifecycle (db db' : DB) : Prop :=
  grows eq (salesHistory db) (salesHistory db')
  /\ grows order_same (orders db) (orders db')
  /\ grows bill_same (bills db) (bills db').

(** A computation whose final store is related to its initial store. *)
Definition respects (R : DB -> DB -> Prop) {A} (m : Storage A) : Prop :=
  forall db, R db (snd (m db)).

(** *** Bill numbers, in closed form *)

(** The bills of a tenant. *)
Definition billsOf (adminUid : string) (db : DB) : list Bill.t :=
  filter (fun b => String.eqb (Bill.adminUid b) adminUid) (bills db).

(** The number [getNextBillNumber] gives a tenant that has [count] bills. *)
Definition billNumberOf (dateStr : string) (count : nat) : string :=
  "BILL-" ++ dateStr ++ "-" ++ Js.padStart 4 "0" (Js.String_of_Z (Z.of_nat count + 1)).

(** The amounts [postBills] passes to [createBill]. *)
Definition billAmounts (Number_toString : float -> string) (body : BillBody)
  : Amounts :=
  let totals := calculateTotals Number_toString (bill_items body)
                  (bill_discountPercentage body) (bill_serviceChargePercentage body) in
  mkAmounts (totals_subtotal totals) (totals_discountPercentage totals)
    (totals_discountAmount totals) (totals_serviceChargePercentage totals)
    (totals_serviceChargeAmount totals) (totals_totalAmount totals).

(** The row [postBills] inserts, with the amounts as the columns hold them. *)
Definition billRow (stored : Amounts) (body : BillBody)
    (dateStr : string) (now : Z) (db : DB) : Bill.t :=
  Bill.mk (nextId db)
    (billNumberOf dateStr (List.length (billsOf (bill_adminUid body) db)))
    (bill_adminUid body) (bill_sessionId body) (bill_tableNumber body) (bill_items body)
    (am_subtotal stored) (am_discountPercentage stored)
    (am_discountAmount stored) (am_serviceChargePercentage stored)
    (am_serviceChargeAmount stored) (am_totalAmount stored)
    "cash" now false.

(** What makes the insert of [postBills] throw. *)
Definition billRefused (Number_toString : float -> string) (body : BillBody)
    (dateStr : string) (db : DB) : bool :=
  existsb (fun b => String.eqb (Bill.billNumber b)
                      (billNumberOf dateStr
                         (List.length (billsOf (bill_adminUid body) db))))
          (bills db)
  || negb (int4 (bill_tableNumber body))
  || match storedAmounts (billAmounts Number_toString body) with
     | Some _ => false
     | None => true
     end.

Definition setBilling (now : Z) (t : Table.t) : Table.t :=
  applyTablePatch (mkTablePatch (Some Table.billing) None) now t.

(** ** The customer's cart ([client/src/lib/customer-context.tsx])
    The state updaters of the cart, as functions of the previous cart. *)

Definition sameMenuItem (id : string) (item : CartItem) : bool :=
  String.eqb (menu_id (menuItem item)) id.

Definition addToCart (m : MenuItem) (prev : list CartItem) : list CartItem :=
  match find (sameMenuItem (menu_id m)) prev with
  | Some _ =>
      map (fun item =>
             if sameMenuItem (menu_id m) item
             then mkCartItem (menuItem item) (quantity item + 1)%float
             else item) prev
  | None => (prev ++ [mkCartItem m 1%float])%list
  end.

Definition removeFromCart (menuItemId : string) (prev : list CartItem)
  : list CartItem :=
  filter (fun item => negb (sameMenuItem menuItemId item)) prev.

Definition updateQuantity (menuItemId : string) (qty : float) (prev : list CartItem)
  : list CartItem :=
  if (qty <=? 0)%float then removeFromCart menuItemId prev
  else map (fun item =>
              if sameMenuItem menuItemId item then mkCartItem (menuItem item) qty
              else item) prev.

Definition clearCart (prev : list CartItem) : list CartItem := [].

Inductive CartOp :=
| AddToCart (m : MenuItem)
| RemoveFromCart (menuItemId : string)
| UpdateQuantity (menuItemId : string) (qty : float)
| ClearCart.

Definition runCartOp (op : CartOp) (cart : list CartItem) : list CartItem :=
  match op with
  | AddToCart m => addToCart m cart
  | RemoveFromCart id => removeFromCart id cart
  | UpdateQuantity id qty => updateQuantity id qty cart
  | ClearCart => clearCart cart
  end.

Definition runCart (ops : list CartOp) (cart : list CartItem) : list CartItem :=
  fold_left (fun c op => runCartOp op c) ops cart.

Definition cartIds (cart : list CartItem) : list string :=
  map (fun item => menu_id (menuItem item)) cart.

(** ** The billing page ([client/src/pages/admin-billing.tsx]) *)

(** The orders the page bills for the selected table: its active ones. *)
Definition tableOrders (selectedTable : string) (orders : list Order.t)
  : list Order.t :=
  if String.eqb selectedTable "" then []
  else filter (fun o => String.eqb (Js.String_of_Z (Order.tableNumber o)) selectedTable
                        && String.eqb (Order.orderStatus o) "active") orders.

Definition isBillable (s : OrderItem.Status) : bool :=
  match s with
  | OrderItem.completed | OrderItem.accepted | OrderItem.processing => true
  | OrderItem.pending | OrderItem.rejected => false
  end.

(** [existingItem.quantity += quantity] on the first item with that id. *)
Fixpoint bumpFirst (id : string) (qty : float) (items : list BillItem.t)
  : list BillItem.t :=
  match items with
  | [] => []
  | i :: rest =>
      if String.eqb (BillItem.menuItemId i) id
      then BillItem.mk (BillItem.menuItemId i) (BillItem.name i) (BillItem.price i)
             (BillItem.quantity i + qty)%float :: rest
      else i :: bumpFirst id qty rest
  end.

(** The body of the inner [forEach] of [billableItems]. *)
Definition addBillable (items : list BillItem.t) (item : OrderItem.t)
  : list BillItem.t :=
  if isBillable (OrderItem.status item) then
    match find (fun i => String.eqb (BillItem.menuItemId i) (OrderItem.menuItemId item))
               items with
    | Some _ => bumpFirst (OrderItem.menuItemId item) (OrderItem.quantity item) items
    | None =>
        (items ++ [BillItem.mk (OrderItem.menuItemId item) (OrderItem.name item)
                     (OrderItem.price item) (OrderItem.quantity item)])%list
    end
  else items.

Definition billableItems (tableOrders : list Order.t) : list BillItem.t :=
  fold_left (fun items order => fold_left addBillable (Order.items order) items)
            tableOrders [].

(** [parseFloat(text) || 0] of a percentage field of the page. *)
Definition pagePercentage (text : string) : float :=
  Js.or0 (Some (Js.parseFloat text)).

Definition pageSubtotal (items : list BillItem.t) : float :=
  fold_left (fun sum item =>
               (sum + Js.parseFloat (BillItem.price item) * BillItem.quantity item)%float)
            items 0%float.

Definition pageDiscountAmount (items : list BillItem.t) (discountPercentage : string)
  : float :=
  ((pageSubtotal items * pagePercentage discountPercentage) / 100)%float.

Definition pageServiceChargeAmount (items : list BillItem.t)
    (discountPercentage serviceChargePercentage : string) : float :=
  (((pageSubtotal items - pageDiscountAmount items discountPercentage)
    * pagePercentage serviceChargePercentage) / 100)%float.

Definition pageTotalAmount (items : list BillItem.t)
    (discountPercentage serviceChargePercentage : string) : float :=
  (pageSubtotal items - pageDiscountAmount items discountPercentage
   + pageServiceChargeAmount items discountPercentage serviceChargePercentage)%float.

(** ** Pairing suggestions ([server/openai.ts] and POST /api/suggestions) *)

(** A menu row, with the columns the suggestion code reads. *)
Record MenuRow := mkMenuRow {
  row_id : string;
  row_adminUid : string;
  row_name : string;
  row_isAvailable : bool
}.

Record Suggestion := mkSuggestion {
  itemId : string;
  itemName : string;
  reason : string
}.

(** [getAIPairingSuggestions]: [answer] is what the model call yields, [None]
    when it fails, returns no content or content that does not parse.  The
    other columns of the items only go into the prompt. *)
Definition getAIPairingSuggestions (selectedId : string) (availableIds : list string)
    (cartItemIds : list string) (answer : option (list Suggestion))
  : list Suggestion :=
  let otherItems :=
    filter (fun id => negb (String.eqb id selectedId)
                      && negb (existsb (String.eqb id) cartItemIds)) availableIds in
  if Nat.eqb (List.length otherItems) 0 then []
  else
    match answer with
    | None => []
    | Some suggestions =>
        firstn 3 (filter (fun s => existsb (fun id => String.eqb id (itemId s)) otherItems)
                         suggestions)
    end.

(** The suggestion route after its input checks: the selected item is looked
    up by id alone, the menu is the tenant's available items, and each
    suggestion is returned with the menu row it names. *)
Definition postSuggestions (menu : list MenuRow) (adminUid selectedItemId : string)
    (cartItemIds : list string) (answer : option (list Suggestion))
  : Response (list (Suggestion * MenuRow)) :=
  if String.eqb adminUid "" || String.eqb selectedItemId "" then Fail BadRequest
  else
    match find (fun item => String.eqb (row_id item) selectedItemId) menu with
    | None => Fail NotFound
    | Some selectedItem =>
        let allMenuItems :=
          filter (fun item => String.eqb (row_adminUid item) adminUid) menu in
        let availableItems := filter row_isAvailable allMenuItems in
        let result :=
          getAIPairingSuggestions (row_id selectedItem) (map row_id availableItems)
            cartItemIds answer in
        Json (flat_map (fun s =>
                 match find (fun item => String.eqb (row_id item) (itemId s))
                            availableItems with
                 | Some fullItem => [(s, fullItem)]
                 | None => []
                 end) result)
    end.

(** ** Today's sales ([server/storage.ts], GET /api/analytics/:adminUid/today) *)

Definition getSalesHistoryByDateRange (adminUid : string) (startDate endDate : Z)
  : Storage (list SalesHistory.t) :=
  fun db =>
    (orderBy_desc SalesHistory.createdAt
       (filter (fun s => String.eqb (SalesHistory.adminUid s) adminUid
                         && (startDate <=? SalesHistory.createdAt s)
                         && (SalesHistory.createdAt s <=? endDate))
               (salesHistory db)), db).

Record SalesSummary := mkSalesSummary {
  totalSales : float;
  orderCount : nat
}.

(** [today] is the local midnight before the call and [tomorrow] the one
    after it; both come from the clock and the time zone of the server. *)
Definition getTodaySales (adminUid : string) (today tomorrow : Z)
  : Storage SalesSummary :=
  todaySales <- getSalesHistoryByDateRange adminUid today tomorrow ;;
  ret (mkSalesSummary
         (fold_left (fun sum sale =>
                       (sum + Js.parseFloat (SalesHistory.totalAmount sale))%float)
                    todaySales 0%float)
         (List.length todaySales)).

Definition getAnalyticsToday (reqAdminUid adminUid : string) (today tomorrow : Z)
  : Handler SalesSummary :=
  if negb (String.eqb reqAdminUid adminUid) then ret (Fail Forbidden)
  else summary <- getTodaySales adminUid today tomorrow ;; ret (Json summary).

(** ** Restaurant settings ([server/storage.ts], PATCH /api/restaurants/:adminUid) *)

(** The columns of a restaurant that the settings route reads or writes; the
    id, the password, the e-mail address, the reset token and the creation
    time are carried along unchanged and are left out.  The rows of this
    table are kept beside the store of tables, orders and bills. *)
Module Restaurant.
Record t := mk {
  adminUid : string;
  restaurantName : string;
  address : option string;
  phone : option string;
  gstNumber : option string;
  upiId : option string;
  tableCount : Z;
  updatedAt : Z
}.
End Restaurant.

Record RestaurantPatch := mkRestaurantPatch {
  rp_restaurantName : option string;
  rp_address : option string;
  rp_phone : option string;
  rp_gstNumber : option string;
  rp_upiId : option string;
  rp_tableCount : option Z
}.

Definition getRestaurantByAdminUid (adminUid : string)
    (restaurants : list Restaurant.t) : option Restaurant.t :=
  find (fun r => String.eqb (Restaurant.adminUid r) adminUid) restaurants.

Definition applyRestaurantPatch (data : RestaurantPatch) (now : Z) (r : Restaurant.t)
  : Restaurant.t :=
  let keep {A} (new : option A) (old : option A) : option A :=
    match new with Some v => Some v | None => old end in
  Restaurant.mk (Restaurant.adminUid r)
    (match rp_restaurantName data with Some v => v | None => Restaurant.restaurantName r end)
    (keep (rp_address data) (Restaurant.address r))
    (keep (rp_phone data) (Restaurant.phone r))
    (keep (rp_gstNumber data) (Restaurant.gstNumber r))
    (keep (rp_upiId data) (Restaurant.upiId r))
    (match rp_tableCount data with Some n => n | None => Restaurant.tableCount r end)
    now.

(** The updated row, if any, and the rows after the update. *)
Definition updateRestaurant (adminUid : string) (data : RestaurantPatch) (now : Z)
    (restaurants : list Restaurant.t) : option Restaurant.t * list Restaurant.t :=
  let restaurants' :=
    map (fun r => if String.eqb (Restaurant.adminUid r) adminUid
                  then applyRestaurantPatch data now r else r) restaurants in
  (find (fun r => String.eqb (Restaurant.adminUid r) adminUid) restaurants',
   restaurants').

(** [updateRestaurantSchema]: every field is optional and the table count,
    when present, is a positive integer.  The body is taken with fields of
    the right JSON types; a table count that is no integer is refused by the
    schema as well. *)
Definition updateRestaurantSchema_parse (body : RestaurantPatch)
  : option RestaurantPatch :=
  match rp_tableCount body with
  | Some n => if 0 <? n then Some body else None
  | None => Some body
  end.

(** The answer (the password and the reset token are stripped from it) and
    the restaurant rows after the call.  A table count beyond the integer
    column makes the update throw. *)
Definition patchRestaurant (reqAdminUid adminUid : string) (body : RestaurantPatch)
    (rs : Z -> Q) (now : Z) (restaurants : list Restaurant.t)
  : Storage (Response Restaurant.t * list Restaurant.t) :=
  if negb (String.eqb reqAdminUid adminUid) then ret (Fail Forbidden, restaurants)
  else
    match updateRestaurantSchema_parse body with
    | None => ret (Fail BadRequest, restaurants)
    | Some data =>
        hasNonVacant <-
          match rp_tableCount data, getRestaurantByAdminUid adminUid restaurants with
          | Some n, Some currentRestaurant =>
              if negb (Z.eqb n (Restaurant.tableCount currentRestaurant))
              then hasNonVacantTables adminUid
              else ret false
          | _, _ => ret false
          end ;;
        if hasNonVacant then ret (Fail BadRequest, restaurants)
        else if match rp_tableCount data with
                | Some n => negb (int4 n)
                | None => false
                end
        then ret (Fail InternalError, restaurants)
        else
          let '(restaurant, restaurants') :=
            updateRestaurant adminUid data now restaurants in
          match restaurant with
          | None => ret (Fail NotFound, restaurants')
          | Some restaurant =>
              match rp_tableCount data with
              | Some n => syncTables (Restaurant.adminUid restaurant) n rs now
              | None => ret tt
              end ;;;
              ret (Json restaurant, restaurants')
          end
    end.

(** ** Billing arithmetic *)








(** ** Access codes *)






















(** ** Rows found again after an update *)

Lemma find_map_pres {A} (q : A -> bool) (g : A -> A) (l : list A) :
  (forall x, q (g x) = q x) ->
  find q (map g l) = option_map g (find q l).
Proof.
  intros Hq. induction l as [|x l IH]; simpl.
  - reflexivity.
  - rewrite Hq. destruct (q x); [reflexivity | exact IH].
Qed.

Lemma find_map_set {A} (p : A -> bool) (f : A -> A) (l : list A) :
  (forall x, p (f x) = p x) ->
  find p (map (fun x => if p x then f x else x) l) = option_map f (find p l).
Proof.
  intros Hp. induction l as [|x l IH]; simpl.
  - reflexivity.
  - destruct (p x) eqn:E.
    + rewrite Hp, E. reflexivity.
    + rewrite E. exact IH.
Qed.

Lemma getTable_updateTableRows (id : nat) (f : Table.t -> Table.t) (db : DB) :
  (forall x, Table.id (f x) = Table.id x) ->
  eval (getTable id) (exec (updateTableRows id f) db)
  = option_map f (eval (getTable id) db).
Proof.
  intros Hid. unfold eval, exec, getTable, updateTableRows; simpl.
  apply (find_map_set (fun t => Nat.eqb (Table.id t) id)).
  intros x. rewrite Hid. reflexivity.
Qed.

Lemma getTableByNumber_updateTableRows (a : string) (n : Z) (id : nat)
    (f : Table.t -> Table.t) (db : DB) :
  (forall x, Table.adminUid (f x) = Table.adminUid x) ->
  (forall x, Table.tableNumber (f x) = Table.tableNumber x) ->
  eval (getTableByNumber a n) (exec (updateTableRows id f) db)
  = option_map (fun t => if Nat.eqb (Table.id t) id then f t else t)
               (eval (getTableByNumber a n) db).
Proof.
  intros Ha Hn. unfold eval, exec, getTableByNumber, updateTableRows; simpl.
  apply (find_map_pres
           (fun t => String.eqb (Table.adminUid t) a && Z.eqb (Table.tableNumber t) n)).
  intros x. destruct (Nat.eqb (Table.id x) id); [|reflexivity].
  rewrite Ha, Hn. reflexivity.
Qed.

(** ** Regenerating a code *)

(** C10. Regenerating the code of a table succeeds whatever the table's
    status is (the route never looks at it) and rewrites only [otp] and
    [updatedAt] of the rows with that id: status, session, owner, number and
    creation time of every row stay as they were, and so do the orders, the
    bills and the sales history. *)
Theorem regenerate_otp_any_status
    (reqAdminUid : string) (id : nat) (r : Q) (now : Z) (db : DB) (t : Table.t) :
  eval (getTable id) db = Some t ->
  Table.adminUid t = reqAdminUid ->
  let db' := exec (postTableRegenerateOtp reqAdminUid id r now) db in
  eval (postTableRegenerateOtp reqAdminUid id r now) db
    = Json (Some (setOtp (generateOtp r) now t))
  /\ eval (getTable id) db'
     = Some (Table.mk (Table.id t) (Table.adminUid t) (Table.tableNumber t)
               (Table.status t) (Table.activeSessionId t) (generateOtp r)
               (Table.createdAt t) now)
  /\ tables db'
     = map (fun x => if Nat.eqb (Table.id x) id then setOtp (generateOtp r) now x else x)
           (tables db)
  /\ map Table.status (tables db') = map Table.status (tables db)
  /\ map Table.activeSessionId (tables db') = map Table.activeSessionId (tables db)
  /\ map Table.id (tables db') = map Table.id (tables db)
  /\ map Table.adminUid (tables db') = map Table.adminUid (tables db)
  /\ map Table.tableNumber (tables db') = map Table.tableNumber (tables db)
  /\ map Table.createdAt (tables db') = map Table.createdAt (tables db)
  /\ orders db' = orders db /\ bills db' = bills db
  /\ salesHistory db' = salesHistory db.
Proof.
  intros Hget Hauth db'.
  assert (Hrun : postTableRegenerateOtp reqAdminUid id r now db
                 = (Json (eval (regenerateTableOtp r id now) db),
                    exec (updateTableRows id (setOtp (generateOtp r) now)) db)).
  { unfold postTableRegenerateOtp, bind, ret.
    unfold eval, getTable in Hget; simpl in Hget.
    unfold getTable at 1. rewrite Hget, Hauth, String.eqb_refl. simpl.
    reflexivity. }
  assert (Hdb : db' = exec (updateTableRows id (setOtp (generateOtp r) now)) db).
  { unfold db', exec at 1. rewrite Hrun. reflexivity. }
  assert (Hfind : eval (getTable id) db' = Some (setOtp (generateOtp r) now t)).
  { rewrite Hdb, getTable_updateTableRows by reflexivity. rewrite Hget. reflexivity. }
  assert (Hmap : forall B (proj : Table.t -> B),
             (forall x, proj (setOtp (generateOtp r) now x) = proj x) ->
             map proj (tables db') = map proj (tables db)).
  { intros B proj Hproj. rewrite Hdb. unfold exec, updateTableRows; simpl.
    rewrite map_map. apply map_ext. intros x.
    destruct (Nat.eqb (Table.id x) id); [apply Hproj | reflexivity]. }
  repeat split; try (apply Hmap; reflexivity); try (rewrite Hdb; reflexivity).
  - unfold eval at 1. rewrite Hrun. simpl. f_equal.
    unfold regenerateTableOtp. rewrite Hdb in Hfind. exact Hfind.
  - exact Hfind.
Qed.

(** ** Joining a table *)

(** What [postTablesJoin] does once the three fields are present and the
    table is found. *)
Lemma postTablesJoin_found (a : string) (n : Z) (code : string) (now : Z)
    (suffix : string) (db : DB) (t : Table.t) :
  a <> "" -> n <> 0 -> code <> "" ->
  eval (getTableByNumber a n) db = Some t ->
  postTablesJoin (mkJoinBody (Some a) (Some n) (Some code)) now suffix db
  = if negb (String.eqb (Table.otp t) code) then (Fail Unauthorized, db)
    else if Table.status_eqb (Table.status t) Table.active
            && Js.truthy_string (Table.activeSessionId t)
    then (Json (mkJoinResult
                  (match Table.activeSessionId t with Some s => s | None => "" end)
                  true (Table.tableNumber t)), db)
    else (Json (mkJoinResult (newSessionId now suffix) false (Table.tableNumber t)),
          exec (updateTable (Table.id t)
                  (mkTablePatch (Some Table.active)
                     (Some (Some (newSessionId now suffix)))) now) db).
Proof.
  intros Ha Hn Hc Hget.
  apply String.eqb_neq in Ha, Hc. apply Z.eqb_neq in Hn.
  unfold postTablesJoin, Js.truthy_string, Js.truthy_number; simpl.
  rewrite Ha, Hn, Hc; simpl.
  unfold bind, ret.
  unfold eval, getTableByNumber in Hget; simpl in Hget.
  unfold getTableByNumber at 1. rewrite Hget.
  destruct (negb (String.eqb (Table.otp t) code)); [reflexivity|].
  destruct (Table.status_eqb (Table.status t) Table.active && _); reflexivity.
Qed.

(** C6. When the code presented for a table differs from the code stored for
    it, joining fails and the store is left as it was, whatever the status
    and the session of the table are: with Unauthorized when the request
    carries its three fields (a code that is missing or empty is turned down
    before, as a bad request). *)
Theorem join_wrong_code_unauthorized (body : JoinBody) (now : Z) (suffix : string)
    (db : DB) (a : string) (n : Z) (t : Table.t) :
  join_adminUid body = Some a ->
  join_tableNumber body = Some n ->
  eval (getTableByNumber a n) db = Some t ->
  join_otp body <> Some (Table.otp t) ->
  (exists e, postTablesJoin body now suffix db = (Fail e, db))
  /\ (forall code,
        join_otp body = Some code -> a <> "" -> n <> 0 -> code <> "" ->
        postTablesJoin body now suffix db = (Fail Unauthorized, db)).
Proof.
  intros Hba Hbn Hget Hne.
  destruct body as [oa on oc]; simpl in Hba, Hbn, Hne; subst oa on.
  assert (Hwell : forall code, oc = Some code -> a <> "" -> n <> 0 -> code <> "" ->
            postTablesJoin (mkJoinBody (Some a) (Some n) oc) now suffix db
            = (Fail Unauthorized, db)).
  { intros code Hoc Ha Hn Hc. subst oc.
    rewrite (postTablesJoin_found a n code now suffix db t Ha Hn Hc Hget).
    assert (E : String.eqb (Table.otp t) code = false).
    { apply String.eqb_neq. congruence. }
    rewrite E. reflexivity. }
  split; [|exact Hwell].
  destruct oc as [code|]; [|eexists; reflexivity].
  destruct (String.eqb a "") eqn:Ea;
    [eexists; unfold postTablesJoin; simpl; rewrite Ea; reflexivity|].
  destruct (Z.eqb n 0) eqn:En;
    [eexists; unfold postTablesJoin; simpl; rewrite Ea, En; reflexivity|].
  destruct (String.eqb code "") eqn:Ec;
    [eexists; unfold postTablesJoin; simpl; rewrite Ea, En, Ec; reflexivity|].
  exists Unauthorized. apply (Hwell code eq_refl).
  - apply String.eqb_neq. exact Ea.
  - apply Z.eqb_neq. exact En.
  - apply String.eqb_neq. exact Ec.
Qed.

(** C5 (as amended). On a table that is active with a non-empty session id,
    joining with the stored code answers that session id with
    [isExistingSession = true] and leaves the store as it was; and for a
    table in any state, two joins in a row with the stored code answer the
    same session id, the second with [isExistingSession = true] and without
    writing. *)
Theorem join_idempotent (a : string) (n : Z) (now : Z) (suffix : string)
    (db : DB) (t : Table.t) :
  a <> "" -> n <> 0 -> Table.otp t <> "" ->
  eval (getTableByNumber a n) db = Some t ->
  let body := mkJoinBody (Some a) (Some n) (Some (Table.otp t)) in
  (forall s, Table.status t = Table.active ->
             Table.activeSessionId t = Some s -> s <> "" ->
             postTablesJoin body now suffix db
             = (Json (mkJoinResult s true (Table.tableNumber t)), db))
  /\ (forall now2 suffix2,
        let db1 := exec (postTablesJoin body now suffix) db in
        exists sid first,
          eval (postTablesJoin body now suffix) db
            = Json (mkJoinResult sid first (Table.tableNumber t))
          /\ postTablesJoin body now2 suffix2 db1
             = (Json (mkJoinResult sid true (Table.tableNumber t)), db1)).
Proof.
  intros Ha Hn Hc Hget body.
  assert (Hexisting : forall db0 t0 nw sf s,
             eval (getTableByNumber a n) db0 = Some t0 ->
             Table.otp t0 = Table.otp t ->
             Table.status t0 = Table.active ->
             Table.activeSessionId t0 = Some s -> s <> "" ->
             postTablesJoin body nw sf db0
             = (Json (mkJoinResult s true (Table.tableNumber t0)), db0)).
  { intros db0 t0 nw sf s Hget0 Hotp Hst Hs Hne.
    unfold body.
    rewrite (postTablesJoin_found a n (Table.otp t) nw sf db0 t0 Ha Hn Hc Hget0).
    rewrite Hotp, String.eqb_refl, Hst, Hs. simpl.
    apply String.eqb_neq in Hne. rewrite Hne. reflexivity. }
  split.
  - intros s Hst Hs Hne. apply (Hexisting db t now suffix s); auto.
  - intros now2 suffix2 db1.
    pose proof (postTablesJoin_found a n (Table.otp t) now suffix db t Ha Hn Hc Hget)
      as Hfirst.
    fold body in Hfirst. rewrite String.eqb_refl in Hfirst. simpl in Hfirst.
    destruct (Table.status_eqb (Table.status t) Table.active
              && Js.truthy_string (Table.activeSessionId t)) eqn:Hbranch.
    + (* the first join resumes the session that is there *)
      apply andb_true_iff in Hbranch. destruct Hbranch as [Hst Htr].
      destruct (Table.activeSessionId t) as [s|] eqn:Hs; [|discriminate].
      assert (Hact : Table.status t = Table.active).
      { destruct (Table.status t); try discriminate; reflexivity. }
      assert (Hne : s <> "").
      { simpl in Htr. apply negb_true_iff in Htr. apply String.eqb_neq. exact Htr. }
      exists s, true. unfold db1, eval, exec. rewrite Hfirst. simpl.
      split; [reflexivity|].
      apply (Hexisting db t now2 suffix2 s); auto.
    + (* the first join opens a session; the second finds it *)
      exists (newSessionId now suffix), false.
      unfold db1, eval. unfold exec at 1 2. rewrite Hfirst. simpl.
      split; [reflexivity|].
      set (patch := mkTablePatch (Some Table.active)
                      (Some (Some (newSessionId now suffix)))).
      assert (Hget1 : eval (getTableByNumber a n)
                        (exec (updateTable (Table.id t) patch now) db)
                      = Some (applyTablePatch patch now t)).
      { unfold updateTable.
        rewrite getTableByNumber_updateTableRows by reflexivity.
        rewrite Hget. simpl. rewrite Nat.eqb_refl. reflexivity. }
      apply (Hexisting _ _ now2 suffix2 (newSessionId now suffix) Hget1);
        try reflexivity.
      discriminate.
Qed.

(** ** The table invariant *)

Create HintDb inv.

Lemma keeps_ret {A} (a : A) : keeps_inv (ret a).
Proof. intros db H. exact H. Qed.

Lemma keeps_bind {A B} (m : Storage A) (k : A -> Storage B) :
  keeps_inv m -> (forall a, keeps_inv (k a)) -> keeps_inv (bind m k).
Proof.
  intros Hm Hk db H. unfold bind.
  specialize (Hm db H). destruct (m db) as [a db1]. simpl in Hm.
  apply Hk. exact Hm.
Qed.

Lemma keeps_forEach {A} (l : list A) (body : A -> Storage unit) :
  (forall x, keeps_inv (body x)) -> keeps_inv (forEach l body).
Proof.
  intros Hbody. induction l as [|x l IH]; simpl.
  - apply keeps_ret.
  - apply keeps_bind; [apply Hbody | intros _; exact IH].
Qed.

Lemma keeps_same_tables {A} (m : Storage A) :
  (forall db, tables (snd (m db)) = tables db) -> keeps_inv m.
Proof. intros Hsame db H. unfold tables_inv. rewrite Hsame. exact H. Qed.

Lemma keeps_createTable_vacant (a : string) (n : Z) (code : string) (now : Z) :
  keeps_inv (createTable a n Table.vacant code now).
Proof.
  intros db H. unfold createTable, tables_inv; simpl.
  apply Forall_app. split; [exact H|].
  constructor; [|constructor]. unfold table_inv; simpl. tauto.
Qed.

Lemma keeps_updateTableRows (id : nat) (f : Table.t -> Table.t) :
  (forall t, table_inv t -> table_inv (f t)) -> keeps_inv (updateTableRows id f).
Proof.
  intros Hf db H. unfold updateTableRows, tables_inv; simpl.
  apply Forall_map. unfold tables_inv in H.
  eapply Forall_impl; [|exact H].
  intros t Ht. destruct (Nat.eqb (Table.id t) id); [apply Hf|]; exact Ht.
Qed.

Lemma keeps_deleteTable (id : nat) : keeps_inv (deleteTable id).
Proof.
  intros db H. unfold deleteTable, tables_inv; simpl.
  unfold tables_inv in H. rewrite Forall_forall in *.
  intros t Ht. apply filter_In in Ht. apply H. tauto.
Qed.

Lemma table_inv_setVacant (code : string) (now : Z) (t : Table.t) :
  table_inv (setVacant code now t).
Proof. unfold table_inv; simpl. tauto. Qed.

Lemma table_inv_setOtp (code : string) (now : Z) (t : Table.t) :
  table_inv t -> table_inv (setOtp code now t).
Proof. unfold table_inv; simpl. tauto. Qed.

Lemma table_inv_bind_session (s : string) (now : Z) (t : Table.t) :
  table_inv (applyTablePatch (mkTablePatch (Some Table.active) (Some (Some s))) now t).
Proof. unfold table_inv; simpl. split; discriminate. Qed.

#[local] Hint Resolve keeps_ret keeps_createTable_vacant keeps_deleteTable
  table_inv_setVacant table_inv_setOtp table_inv_bind_session : inv.

Ltac keeps_step :=
  match goal with
  | |- keeps_inv (bind _ _) => apply keeps_bind; [|intros ?]
  | |- keeps_inv (forEach _ _) => apply keeps_forEach; intros ?
  | |- keeps_inv (updateTableRows _ _) => apply keeps_updateTableRows; intros ? ?
  | |- keeps_inv (match ?x with _ => _ end) => destruct x
  | |- keeps_inv (if ?c then _ else _) => destruct c
  | |- keeps_inv _ => solve [auto with inv | apply keeps_same_tables; reflexivity]
  | |- table_inv _ => solve [auto with inv]
  end.

Ltac keeps := repeat keeps_step.

Lemma keeps_addMissingTables (a : string) (existing : list Z) (count : Z)
    (rs : Z -> Q) (now : Z) :
  keeps_inv (addMissingTables a existing count rs now).
Proof. unfold addMissingTables. keeps. Qed.

Lemma keeps_initializeTables (a : string) (count : Z) (rs : Z -> Q) (now : Z) :
  keeps_inv (initializeTables a count rs now).
Proof. unfold initializeTables. keeps. apply keeps_addMissingTables. Qed.

Lemma keeps_syncTables (a : string) (count : Z) (rs : Z -> Q) (now : Z) :
  keeps_inv (syncTables a count rs now).
Proof. unfold syncTables. keeps. apply keeps_addMissingTables. Qed.

Lemma keeps_postTableReset (a : string) (id : nat) (r : Q) (now : Z) :
  keeps_inv (postTableReset a id r now).
Proof. unfold postTableReset, resetTable. keeps. Qed.

Lemma keeps_postTableCancel (a : string) (id : nat) (r : Q) (now : Z) :
  keeps_inv (postTableCancel a id r now).
Proof. unfold postTableCancel, cancelTable. keeps. Qed.

Lemma keeps_postTableRegenerateOtp (a : string) (id : nat) (r : Q) (now : Z) :
  keeps_inv (postTableRegenerateOtp a id r now).
Proof. unfold postTableRegenerateOtp, regenerateTableOtp. keeps. Qed.

Lemma keeps_postTablesJoin (body : JoinBody) (now : Z) (suffix : string) :
  keeps_inv (postTablesJoin body now suffix).
Proof. unfold postTablesJoin, updateTable. keeps. Qed.

Lemma keeps_createOrder (data : InsertOrder) (now : Z) :
  keeps_inv (createOrder data now).
Proof.
  intros db H. unfold createOrder. destruct (negb _); exact H.
Qed.

Lemma keeps_postOrders (body : OrderBody) (now : Z) :
  keeps_inv (postOrders body now).
Proof.
  unfold postOrders, updateTable.
  destruct (insertOrderSchema_parse body); [|keeps].
  apply keeps_bind; [apply keeps_createOrder|intros ?]. keeps.
Qed.

Lemma runOp_inv (op : RegistryOp) (db : DB) :
  tables_inv db -> tables_inv (runOp op db).
Proof.
  destruct op; simpl; unfold exec.
  - apply keeps_initializeTables.
  - apply keeps_syncTables.
  - apply keeps_postTableReset.
  - apply keeps_postTableCancel.
  - apply keeps_postTableRegenerateOtp.
  - apply keeps_postTablesJoin.
  - apply keeps_postOrders.
Qed.

Lemma runOps_inv (ops : list RegistryOp) (db : DB) :
  tables_inv db -> tables_inv (runOps ops db).
Proof.
  revert db. induction ops as [|op ops IH]; intros db H; simpl.
  - exact H.
  - apply IH. apply runOp_inv. exact H.
Qed.

(** C4. Every table of every store reached from freshly initialized tables
    by initialize, sync, reset, cancel, regenerate-code, join and order
    placement, in any number and order, is vacant exactly when its session
    id is null. *)
Theorem registry_invariant
    (adminUid : string) (count : Z) (rs : Z -> Q) (now : Z) (ops : list RegistryOp) :
  forall t,
    In t (tables (runOps ops (exec (initializeTables adminUid count rs now) emptyDB))) ->
    (Table.status t = Table.vacant <-> Table.activeSessionId t = None).
Proof.
  assert (H : tables_inv
                (runOps ops (exec (initializeTables adminUid count rs now) emptyDB))).
  { apply runOps_inv. apply keeps_initializeTables. constructor. }
  unfold tables_inv in H. rewrite Forall_forall in H. exact H.
Qed.

(** ** Loops that update orders *)

Lemma In_insert_desc {A} (key : A -> Z) (x y : A) (l : list A) :
  In y (insert_desc key x l) <-> y = x \/ In y l.
Proof.
  induction l as [|z l IH]; simpl.
  - intuition congruence.
  - destruct (key z <? key x); simpl.
    + intuition congruence.
    + rewrite IH. intuition congruence.
Qed.

Lemma In_orderBy_desc {A} (key : A -> Z) (y : A) (l : list A) :
  In y (orderBy_desc key l) <-> In y l.
Proof.
  unfold orderBy_desc. induction l as [|x l IH]; simpl.
  - tauto.
  - rewrite In_insert_desc, IH. intuition congruence.
Qed.

Lemma applyOrderPatch_twice (data : OrderPatch) (now : Z) (o : Order.t) :
  applyOrderPatch data now (applyOrderPatch data now o) = applyOrderPatch data now o.
Proof.
  unfold applyOrderPatch; simpl.
  destruct (patch_items data), (patch_orderStatus data); reflexivity.
Qed.

(** The loop [for (const order of l) updateOrder(order.id, data)] patches the
    orders whose id is the id of a member of [l], and journals one update per
    member, in the order of [l]. *)
Lemma forEach_updateOrder (data : OrderPatch) (now : Z) (l : list Order.t) (db : DB) :
  forEach l (fun order => updateOrder (Order.id order) data now ;;; ret tt) db
  = (tt,
     mkDB (tables db)
          (map (fun o =>
                  if existsb (fun x => Nat.eqb (Order.id o) (Order.id x)) l
                  then applyOrderPatch data now o else o) (orders db))
          (bills db) (salesHistory db) (nextId db)
          (journal db ++ map (fun o => SqlUpdateOrder (Order.id o)) l)).
Proof.
  revert db. induction l as [|x l IH]; intros db.
  - simpl. unfold ret. rewrite map_id, app_nil_r. destruct db; reflexivity.
  - cbn [forEach]. unfold bind at 1 2. unfold updateOrder at 1. unfold ret at 1.
    rewrite IH. cbn [tables orders bills salesHistory nextId journal].
    f_equal. f_equal.
    + rewrite map_map. apply map_ext. intros o. cbn [existsb].
      destruct (Nat.eqb (Order.id o) (Order.id x)) eqn:E; cbn [orb].
      * change (Order.id (applyOrderPatch data now o)) with (Order.id o).
        rewrite applyOrderPatch_twice.
        destruct (existsb _ l); reflexivity.
      * reflexivity.
    + rewrite <- app_assoc. reflexivity.
Qed.

Lemma NoDup_map_inj {A B} (f : A -> B) (l : list A) (x y : A) :
  NoDup (map f l) -> In x l -> In y l -> f x = f y -> x = y.
Proof.
  induction l as [|z l IH]; simpl; intros Hnd Hx Hy Hf; [contradiction|].
  inversion Hnd as [|? ? Hnotin Hnd']; subst.
  destruct Hx as [Hx|Hx], Hy as [Hy|Hy]; subst.
  - reflexivity.
  - exfalso. apply Hnotin. rewrite Hf. apply in_map. exact Hy.
  - exfalso. apply Hnotin. rewrite <- Hf. apply in_map. exact Hx.
  - apply IH; assumption.
Qed.

(** ** Finalizing a bill *)

(** The store a finalize call leaves, written out. *)
Lemma postBillFinalize_run (reqAdminUid : string) (id : nat) (r : Q) (now : Z)
    (db : DB) (bill : Bill.t) :
  eval (getBill id) db = Some bill ->
  reqAdminUid = Bill.adminUid bill ->
  let sessionOrders := eval (getOrdersBySessionId (Bill.sessionId bill)) db in
  let table := eval (getTableByNumber (Bill.adminUid bill) (Bill.tableNumber bill)) db in
  postBillFinalize reqAdminUid id r now db
  = (Json bill,
     mkDB
       (match table with
        | Some t => map (fun x => if Nat.eqb (Table.id x) (Table.id t)
                                  then setVacant (generateOtp r) now x else x)
                        (tables db)
        | None => tables db
        end)
       (map (fun o =>
               if existsb (fun x => Nat.eqb (Order.id o) (Order.id x)) sessionOrders
               then completeOrder now o else o) (orders db))
       (map (fun b => if Nat.eqb (Bill.id b) (Bill.id bill)
                      then setIsFinal true b else b) (bills db))
       (salesHistory db ++
          [SalesHistory.mk (nextId db) (Bill.adminUid bill) (Bill.id bill)
             (Bill.tableNumber bill) (Bill.totalAmount bill)
             (itemsSold (Bill.items bill)) now])
       (S (nextId db))
       (journal db
          ++ [SqlUpdateBill (Bill.id bill); SqlInsertSalesHistory (Bill.id bill)]
          ++ map (fun o => SqlUpdateOrder (Order.id o)) sessionOrders
          ++ match table with
             | Some t => [SqlUpdateTable (Table.id t)]
             | None => []
             end)).
Proof.
  intros Hget Hauth sessionOrders table.
  unfold postBillFinalize.
  unfold bind at 1. unfold getBill at 1.
  unfold eval, getBill in Hget; simpl in Hget. rewrite Hget.
  rewrite Hauth, String.eqb_refl. cbn [negb].
  unfold bind at 1. unfold updateBill at 1.
  unfold bind at 1. unfold createSalesHistory at 1.
  cbn [tables orders bills salesHistory nextId journal
       ish_adminUid ish_billId ish_tableNumber ish_totalAmount ish_itemsSold].
  unfold bind at 1. unfold getOrdersBySessionId at 1.
  cbn [tables orders bills salesHistory nextId journal].
  unfold bind at 1. rewrite forEach_updateOrder.
  cbn [tables orders bills salesHistory nextId journal].
  unfold bind at 1. unfold getTableByNumber at 1.
  cbn [tables orders bills salesHistory nextId journal].
  fold sessionOrders.
  change (find (fun t => String.eqb (Table.adminUid t) (Bill.adminUid bill)
                         && Z.eqb (Table.tableNumber t) (Bill.tableNumber bill))
               (tables db)) with table.
  destruct table as [t|].
  - unfold bind, resetTable, updateTableRows, ret.
    cbn [tables orders bills salesHistory nextId journal].
    repeat rewrite <- app_assoc. reflexivity.
  - unfold ret. rewrite app_nil_r. repeat rewrite <- app_assoc. reflexivity.
Qed.

(** Each authorized finalize call on an existing bill, final or not, adds one
    sales-history row for it. *)
Lemma finalize_adds_sales_record (reqAdminUid : string) (id : nat) (r : Q)
    (now : Z) (db : DB) (bill : Bill.t) :
  eval (getBill id) db = Some bill ->
  reqAdminUid = Bill.adminUid bill ->
  List.length (salesRecordsOf (Bill.id bill)
                 (exec (postBillFinalize reqAdminUid id r now) db))
  = S (List.length (salesRecordsOf (Bill.id bill) db)).
Proof.
  intros Hget Hauth. unfold exec.
  rewrite (postBillFinalize_run reqAdminUid id r now db bill Hget Hauth).
  unfold salesRecordsOf; simpl.
  rewrite filter_app, length_app; simpl. rewrite Nat.eqb_refl. simpl. lia.
Qed.

(** C3. On an existing bill that is not final, an authorized finalize call
    writes, in this order: the bill row, which is afterwards the same row
    with [isFinal = true]; one sales-history row carrying the bill's total
    and its items (name, quantity, price); one update per order of the bill's
    session (every order with that session id ends completed); and the
    bill's table (vacant, no session, fresh code). *)
Theorem finalize_cascade (reqAdminUid : string) (id : nat) (r : Q) (now : Z)
    (db : DB) (bill : Bill.t) :
  eval (getBill id) db = Some bill ->
  Bill.isFinal bill = false ->
  reqAdminUid = Bill.adminUid bill ->
  let db' := exec (postBillFinalize reqAdminUid id r now) db in
  let sessionOrders := eval (getOrdersBySessionId (Bill.sessionId bill)) db in
  let table := eval (getTableByNumber (Bill.adminUid bill) (Bill.tableNumber bill)) db in
  eval (postBillFinalize reqAdminUid id r now) db = Json bill
  /\ journal db'
     = (journal db
        ++ [SqlUpdateBill (Bill.id bill); SqlInsertSalesHistory (Bill.id bill)]
        ++ map (fun o => SqlUpdateOrder (Order.id o)) sessionOrders
        ++ match table with Some t => [SqlUpdateTable (Table.id t)] | None => [] end)%list
  /\ eval (getBill id) db'
     = Some (Bill.mk (Bill.id bill) (Bill.billNumber bill) (Bill.adminUid bill)
               (Bill.sessionId bill) (Bill.tableNumber bill) (Bill.items bill)
               (Bill.subtotal bill) (Bill.discountPercentage bill)
               (Bill.discountAmount bill) (Bill.serviceChargePercentage bill)
               (Bill.serviceChargeAmount bill) (Bill.totalAmount bill)
               (Bill.paymentMode bill) (Bill.generatedAt bill) true)
  /\ (forall b', eval (getBill id) db' = Some b' -> Bill.isFinal b' = true)
  /\ salesHistory db'
     = (salesHistory db
        ++ [SalesHistory.mk (nextId db) (Bill.adminUid bill) (Bill.id bill)
              (Bill.tableNumber bill) (Bill.totalAmount bill)
              (itemsSold (Bill.items bill)) now])%list
  /\ map (fun i => (SalesItem.name i, SalesItem.quantity i, SalesItem.price i))
         (itemsSold (Bill.items bill))
     = map (fun i => (BillItem.name i, BillItem.quantity i, BillItem.price i))
           (Bill.items bill)
  /\ List.length (salesRecordsOf (Bill.id bill) db')
     = S (List.length (salesRecordsOf (Bill.id bill) db))
  /\ (forall o, In o (orders db') ->
                Order.sessionId o = Bill.sessionId bill ->
                Order.orderStatus o = "completed")
  /\ (forall t, table = Some t ->
        eval (getTableByNumber (Bill.adminUid bill) (Bill.tableNumber bill)) db'
        = Some (Table.mk (Table.id t) (Table.adminUid t) (Table.tableNumber t)
                  Table.vacant None (generateOtp r) (Table.createdAt t) now)).
Proof.
  intros Hget Hfinal Hauth db' sessionOrders table.
  pose proof (postBillFinalize_run reqAdminUid id r now db bill Hget Hauth) as Hrun.
  cbv zeta in Hrun. fold sessionOrders table in Hrun.
  assert (Hid : Bill.id bill = id).
  { unfold eval, getBill in Hget; simpl in Hget.
    apply find_some in Hget. destruct Hget as [_ Hid].
    apply Nat.eqb_eq in Hid. exact Hid. }
  split; [unfold eval; rewrite Hrun; reflexivity|].
  split; [unfold db', exec; rewrite Hrun; reflexivity|].
  assert (Hstored : eval (getBill id) db' = Some (setIsFinal true bill)).
  { unfold db', exec, eval. rewrite Hrun. unfold getBill; simpl.
    rewrite Hid.
    rewrite (find_map_set (fun b => Nat.eqb (Bill.id b) id) (setIsFinal true))
      by reflexivity.
    unfold eval, getBill in Hget; simpl in Hget. rewrite Hget. reflexivity. }
  split; [exact Hstored|].
  split; [intros b' Hb'; rewrite Hstored in Hb'; inversion Hb'; reflexivity|].
  split; [unfold db', exec; rewrite Hrun; reflexivity|].
  split; [unfold itemsSold; rewrite map_map; reflexivity|].
  split; [apply finalize_adds_sales_record; assumption|].
  split.
  - intros o Hin Hsid. unfold db', exec in Hin. rewrite Hrun in Hin. simpl in Hin.
    apply in_map_iff in Hin. destruct Hin as [o0 [Ho Hin0]].
    assert (Hsid0 : Order.sessionId o0 = Bill.sessionId bill).
    { rewrite <- Hsid, <- Ho.
      destruct (existsb _ sessionOrders); reflexivity. }
    assert (Hmem : existsb (fun x => Nat.eqb (Order.id o0) (Order.id x)) sessionOrders
                   = true).
    { apply existsb_exists. exists o0. split; [|apply Nat.eqb_refl].
      unfold sessionOrders, eval, getOrdersBySessionId; simpl.
      apply In_orderBy_desc. apply filter_In. split; [exact Hin0|].
      apply String.eqb_eq. exact Hsid0. }
    rewrite Hmem in Ho. rewrite <- Ho. reflexivity.
  - intros t Ht. unfold db', exec, eval. rewrite Hrun. rewrite Ht.
    unfold getTableByNumber; simpl.
    rewrite (find_map_pres
               (fun x => String.eqb (Table.adminUid x) (Bill.adminUid bill)
                         && Z.eqb (Table.tableNumber x) (Bill.tableNumber bill))).
    + unfold table, eval, getTableByNumber in Ht; simpl in Ht. rewrite Ht. simpl.
      rewrite Nat.eqb_refl. reflexivity.
    + intros x. destruct (Nat.eqb (Table.id x) (Table.id t)); reflexivity.
Qed.

Lemma finalize_cascade_witness :
  eval (getBill 11) Scenario.billed = Some Scenario.bill
  /\ Bill.isFinal Scenario.bill = false
  /\ option_map Bill.isFinal (eval (getBill 11) Scenario.finalized) = Some true
  /\ salesHistory Scenario.finalized
     = [SalesHistory.mk 12 "demo" 11 3 "264.00"
          [SalesItem.mk "A" 2%float "120.00"] 500]
  /\ journal Scenario.finalized
     = (journal Scenario.billed
        ++ [SqlUpdateBill 11; SqlInsertSalesHistory 11; SqlUpdateOrder 10;
            SqlUpdateTable 2])%list.
Proof.
  pose proof (finalize_cascade "demo" 11 (1 # 2) 500 Scenario.billed Scenario.bill
                eq_refl eq_refl eq_refl) as H.
  cbv zeta in H.
  destruct H as [_ [Hj [Hb [_ [Hs _]]]]].
  split; [reflexivity|]. split; [reflexivity|]. split; [|split].
  - change Scenario.finalized
      with (exec (postBillFinalize "demo" 11 (1 # 2) 500) Scenario.billed).
    rewrite Hb. reflexivity.
  - exact Hs.
  - exact Hj.
Defined.

(** C1 (the code at the failing input). The bill of the run is finalized
    once: one sales-history row.  The same call again is answered with
    success as well and leaves two rows for the bill. *)
Theorem finalize_twice_writes_two_records :
  eval (getBill 11) Scenario.finalized = Some (setIsFinal true Scenario.bill)
  /\ List.length (salesRecordsOf 11 Scenario.finalized) = 1%nat
  /\ eval (postBillFinalize "demo" 11 (1 # 4) 600) Scenario.finalized
     = Json (setIsFinal true Scenario.bill)
  /\ List.length (salesRecordsOf 11 Scenario.finalizedTwice) = 2%nat.
Proof. vm_compute. repeat split. Qed.

(** ** Cancelling a table *)

Lemma cancelTable_run (r : Q) (id : nat) (now : Z) (db : DB) (t : Table.t) :
  eval (getTable id) db = Some t ->
  let activeOrders :=
    eval (getActiveOrdersByTableNumber (Table.adminUid t) (Table.tableNumber t)) db in
  exec (cancelTable r id now) db
  = mkDB (map (fun x => if Nat.eqb (Table.id x) id
                        then setVacant (generateOtp r) now x else x) (tables db))
         (map (fun o =>
                 if existsb (fun x => Nat.eqb (Order.id o) (Order.id x)) activeOrders
                 then cancelOrder now o else o) (orders db))
         (bills db) (salesHistory db) (nextId db)
         (journal db ++ map (fun o => SqlUpdateOrder (Order.id o)) activeOrders
            ++ [SqlUpdateTable id]).
Proof.
  intros Hget activeOrders.
  unfold exec, cancelTable.
  unfold bind at 1. unfold getTable at 1.
  unfold eval, getTable in Hget; simpl in Hget. rewrite Hget.
  unfold bind at 1. unfold getActiveOrdersByTableNumber at 1.
  unfold bind at 1. rewrite forEach_updateOrder.
  unfold updateTableRows.
  cbn [tables orders bills salesHistory nextId journal snd].
  rewrite <- app_assoc. reflexivity.
Qed.

Lemma cancelTable_returning (r : Q) (id : nat) (now : Z) (db : DB) :
  eval (cancelTable r id now) db
  = eval (getTable id) (exec (cancelTable r id now) db).
Proof.
  unfold eval, exec, cancelTable, bind, getTable, getActiveOrdersByTableNumber.
  destruct (find (fun t => Nat.eqb (Table.id t) id) (tables db)) as [t|] eqn:E.
  - destruct (forEach _ _ db) as [u db2]. reflexivity.
  - unfold ret. simpl. rewrite E. reflexivity.
Qed.

Lemma active_order_ids (t : Table.t) (db : DB) (o : Order.t) :
  NoDup (map Order.id (orders db)) ->
  In o (orders db) ->
  existsb (fun x => Nat.eqb (Order.id o) (Order.id x))
    (eval (getActiveOrdersByTableNumber (Table.adminUid t) (Table.tableNumber t)) db)
  = activeOn t o.
Proof.
  intros Hnd Hin.
  unfold eval, getActiveOrdersByTableNumber; simpl.
  destruct (activeOn t o) eqn:Hact.
  - apply existsb_exists. exists o. split; [|apply Nat.eqb_refl].
    apply In_orderBy_desc. apply filter_In. split; assumption.
  - apply not_true_is_false. intros Hex.
    apply existsb_exists in Hex. destruct Hex as [x [Hx Hid]].
    apply In_orderBy_desc in Hx. apply filter_In in Hx. destruct Hx as [Hx Hax].
    apply Nat.eqb_eq in Hid.
    assert (o = x) by (eapply NoDup_map_inj; eauto).
    subst x. unfold activeOn in Hact. congruence.
Qed.

Lemma cancelled_count (t : Table.t) (now : Z) (l : list Order.t) :
  List.length
    (filter (fun o => String.eqb (Order.orderStatus o) "cancelled")
       (map (fun o => if activeOn t o then cancelOrder now o else o) l))
  = (List.length (filter (activeOn t) l)
     + List.length (filter (fun o => String.eqb (Order.orderStatus o) "cancelled") l))%nat.
Proof.
  induction l as [|o l IH]; simpl; [reflexivity|].
  destruct (activeOn t o) eqn:Hact; simpl.
  - unfold activeOn in Hact. apply andb_true_iff in Hact. destruct Hact as [_ Hst].
    apply String.eqb_eq in Hst. rewrite Hst. simpl. rewrite IH. reflexivity.
  - destruct (String.eqb (Order.orderStatus o) "cancelled"); simpl; rewrite IH; lia.
Qed.

(** C9 (as amended). Cancelling a table that is not vacant sets to cancelled
    exactly the orders that are active on it (k of them, say) and leaves
    every other order as it is; the table ends vacant, with no session and
    with the freshly generated code, which is drawn without regard to the
    code it replaces. *)
Theorem cancel_table (reqAdminUid : string) (id : nat) (r : Q) (now : Z)
    (db : DB) (t : Table.t) :
  eval (getTable id) db = Some t ->
  Table.adminUid t = reqAdminUid ->
  Table.status t <> Table.vacant ->
  NoDup (map Order.id (orders db)) ->
  let db' := exec (postTableCancel reqAdminUid id r now) db in
  orders db' = map (fun o => if activeOn t o then cancelOrder now o else o) (orders db)
  /\ (forall o, activeOn t o = true ->
                Order.orderStatus (cancelOrder now o) = "cancelled"
                /\ Order.id (cancelOrder now o) = Order.id o
                /\ Order.items (cancelOrder now o) = Order.items o
                /\ Order.sessionId (cancelOrder now o) = Order.sessionId o)
  /\ (forall k, List.length (filter (activeOn t) (orders db)) = k ->
        List.length (filter (fun o => String.eqb (Order.orderStatus o) "cancelled")
                       (orders db'))
        = (k + List.length
                 (filter (fun o => String.eqb (Order.orderStatus o) "cancelled")
                    (orders db)))%nat)
  /\ eval (getTable id) db'
     = Some (Table.mk (Table.id t) (Table.adminUid t) (Table.tableNumber t)
               Table.vacant None (generateOtp r) (Table.createdAt t) now)
  /\ eval (postTableCancel reqAdminUid id r now) db
     = Json (Some (setVacant (generateOtp r) now t)).
Proof.
  intros Hget Hauth Hst Hnd db'.
  assert (Hhandler : postTableCancel reqAdminUid id r now db
                     = (Json (eval (cancelTable r id now) db),
                        exec (cancelTable r id now) db)).
  { unfold postTableCancel. unfold bind at 1. unfold getTable at 1.
    pose proof Hget as Hget'. unfold eval, getTable in Hget'; simpl in Hget'.
    rewrite Hget', Hauth, String.eqb_refl. cbn [negb].
    destruct (Table.status t); try contradiction; cbn [Table.status_eqb];
      unfold bind, ret, eval, exec; destruct (cancelTable r id now db); reflexivity. }
  assert (Hdb : db' = exec (cancelTable r id now) db).
  { unfold db'. unfold exec at 1. rewrite Hhandler. reflexivity. }
  assert (Horders : orders db'
            = map (fun o => if activeOn t o then cancelOrder now o else o) (orders db)).
  { rewrite Hdb, (cancelTable_run r id now db t Hget). simpl.
    apply map_ext_in. intros o Hin.
    rewrite (active_order_ids t db o Hnd Hin). reflexivity. }
  assert (Htable : eval (getTable id) db' = Some (setVacant (generateOtp r) now t)).
  { rewrite Hdb, (cancelTable_run r id now db t Hget).
    unfold eval, getTable; simpl.
    rewrite (find_map_set (fun x => Nat.eqb (Table.id x) id)) by reflexivity.
    unfold eval, getTable in Hget; simpl in Hget. rewrite Hget. reflexivity. }
  split; [exact Horders|].
  split; [intros o _; repeat split|].
  split; [intros k Hk; rewrite Horders, cancelled_count, Hk; reflexivity|].
  split; [exact Htable|].
  unfold eval at 1. rewrite Hhandler. simpl. f_equal.
  rewrite cancelTable_returning, <- Hdb. exact Htable.
Qed.

Lemma cancel_table_witness :
  eval (getTable 2) Scenario.ordered = Some Scenario.table3ordered
  /\ List.length (filter (activeOn Scenario.table3ordered) (orders Scenario.ordered))
     = 1%nat
  /\ List.length
       (filter (fun o => String.eqb (Order.orderStatus o) "cancelled")
          (orders (exec (postTableCancel "demo" 2 (1 # 2) 350) Scenario.ordered)))
     = 1%nat.
Proof.
  assert (Hget : eval (getTable 2) Scenario.ordered = Some Scenario.table3ordered)
    by reflexivity.
  assert (Hst : Table.status Scenario.table3ordered <> Table.vacant) by discriminate.
  assert (Hnd : NoDup (map Order.id (orders Scenario.ordered))).
  { vm_compute. constructor; [intros []|constructor]. }
  pose proof (cancel_table "demo" 2 (1 # 2) 350 Scenario.ordered _ Hget eq_refl Hst Hnd)
    as H.
  cbv zeta in H. destruct H as [_ [_ [Hk _]]].
  specialize (Hk 1%nat eq_refl).
  split; [|split].
  - exact Hget.
  - reflexivity.
  - exact Hk.
Defined.

(** C9 (as stated) fails: the draw that gave the table its code can come
    again, and then the code after the cancellation is the code before it. *)
Lemma cancel_may_keep_code :
  option_map Table.status (eval (getTable 2) Scenario.ordered) = Some Table.active
  /\ option_map Table.otp (eval (getTable 2) Scenario.ordered) = Some "4821"
  /\ option_map Table.otp
       (eval (getTable 2)
          (exec (postTableCancel "demo" 2 Scenario.draw 350) Scenario.ordered))
     = Some "4821".
Proof. vm_compute. repeat split. Qed.

(** ** Placing an order *)




(** ** The join and registry statements on the run *)

Lemma regenerate_otp_any_status_witness :
  eval (getTable 2) Scenario.joined = Some Scenario.table3
  /\ eval (getTable 2)
       (exec (postTableRegenerateOtp "demo" 2 (1 # 2) 250) Scenario.joined)
     = Some (Table.mk 2 "demo" 3 Table.active (Some Scenario.session) "5500" 100 250).
Proof.
  pose proof (regenerate_otp_any_status "demo" 2 (1 # 2) 250 Scenario.joined
                Scenario.table3 eq_refl eq_refl) as H.
  cbv zeta in H. destruct H as [_ [Ht _]].
  split; [reflexivity | exact Ht].
Defined.

Lemma join_wrong_code_unauthorized_witness :
  eval (getTableByNumber "demo" 3) Scenario.joined = Some Scenario.table3
  /\ postTablesJoin (mkJoinBody (Some "demo") (Some 3) (Some "0000")) 250 "zz"
       Scenario.joined
     = (Fail Unauthorized, Scenario.joined).
Proof.
  split; [reflexivity|].
  assert (Hne : join_otp (mkJoinBody (Some "demo") (Some 3) (Some "0000"))
                <> Some (Table.otp Scenario.table3)) by discriminate.
  destruct (join_wrong_code_unauthorized
              (mkJoinBody (Some "demo") (Some 3) (Some "0000")) 250 "zz"
              Scenario.joined "demo" 3 Scenario.table3 eq_refl eq_refl eq_refl Hne)
    as [_ H].
  apply (H "0000" eq_refl); [discriminate | lia | discriminate].
Defined.

Lemma join_idempotent_witness :
  postTablesJoin Scenario.joinBody 250 "zz" Scenario.joined
  = (Json (mkJoinResult Scenario.session true 3), Scenario.joined)
  /\ exists sid first,
       eval (postTablesJoin Scenario.joinBody 200 "k3x9q") Scenario.initialized
       = Json (mkJoinResult sid first 3)
       /\ postTablesJoin Scenario.joinBody 250 "zz" Scenario.joined
          = (Json (mkJoinResult sid true 3), Scenario.joined).
Proof.
  split.
  - assert (Ha : "demo" <> "") by discriminate.
    assert (Hn : 3 <> 0) by lia.
    assert (Hc : Table.otp Scenario.table3 <> "") by discriminate.
    destruct (join_idempotent "demo" 3 250 "zz" Scenario.joined Scenario.table3
                Ha Hn Hc eq_refl) as [H _].
    apply (H Scenario.session eq_refl eq_refl). discriminate.
  - assert (Ha : "demo" <> "") by discriminate.
    assert (Hn : 3 <> 0) by lia.
    assert (Hc : Table.otp (Table.mk 2 "demo" 3 Table.vacant None "4821" 100 100) <> "")
      by discriminate.
    destruct (join_idempotent "demo" 3 200 "k3x9q" Scenario.initialized
                (Table.mk 2 "demo" 3 Table.vacant None "4821" 100 100)
                Ha Hn Hc eq_refl) as [_ H].
    exact (H 250 "zz").
Defined.

(** C5 (as stated) fails: table 5 is active and its session id is not null
    (it is the empty string), yet a join with the right code opens a new
    session and writes the table. *)
Lemma join_empty_session_opens_new :
  eval (getTableByNumber "demo" 5) Scenario.emptySession = Some Scenario.table5
  /\ Table.status Scenario.table5 = Table.active
  /\ Table.activeSessionId Scenario.table5 <> None
  /\ eval (postTablesJoin Scenario.joinBody5 260 "zz") Scenario.emptySession
     = Json (mkJoinResult "session-260-zz" false 5)
  /\ eval (getTableByNumber "demo" 5)
       (exec (postTablesJoin Scenario.joinBody5 260 "zz") Scenario.emptySession)
     = Some (Table.mk 4 "demo" 5 Table.active (Some "session-260-zz") "4821" 100 260).
Proof. vm_compute. repeat split. discriminate. Qed.

Lemma registry_invariant_witness :
  In Scenario.table3
     (tables (runOps [OpJoin Scenario.joinBody 200 "k3x9q"]
                (exec (initializeTables "demo" 10 (fun _ => Scenario.draw) 100) emptyDB)))
  /\ (Table.status Scenario.table3 = Table.vacant
      <-> Table.activeSessionId Scenario.table3 = None).
Proof.
  assert (Hin : In Scenario.table3
                  (tables (runOps [OpJoin Scenario.joinBody 200 "k3x9q"]
                             (exec (initializeTables "demo" 10
                                      (fun _ => Scenario.draw) 100) emptyDB)))).
  { vm_compute. right; right; left. reflexivity. }
  split; [exact Hin|].
  exact (registry_invariant "demo" 10 (fun _ => Scenario.draw) 100
           [OpJoin Scenario.joinBody 200 "k3x9q"] Scenario.table3 Hin).
Defined.

(** ** Item status *)

Lemma setNth_length (i : nat) (status : OrderItem.Status) (items : list OrderItem.t) :
  List.length (setNth i status items) = List.length items.
Proof.
  revert i. induction items as [|item rest IH]; intros [|i]; simpl; auto.
Qed.

Lemma setNth_same (i : nat) (status : OrderItem.Status) (items : list OrderItem.t) :
  (i < List.length items)%nat ->
  exists item, nth_error items i = Some item
               /\ nth_error (setNth i status items) i = Some (setItemStatus status item).
Proof.
  revert i. induction items as [|item rest IH]; intros [|i] Hi; simpl in *; try lia.
  - exists item. split; reflexivity.
  - apply IH. lia.
Qed.

Lemma setNth_other (i j : nat) (status : OrderItem.Status) (items : list OrderItem.t) :
  j <> i -> nth_error (setNth i status items) j = nth_error items j.
Proof.
  revert i j. induction items as [|item rest IH]; intros [|i] [|j] Hij; simpl;
    try reflexivity; try congruence.
  apply IH. congruence.
Qed.

Lemma setNth_core (i : nat) (status : OrderItem.Status) (items : list OrderItem.t) :
  map (fun x => (OrderItem.menuItemId x, OrderItem.name x, OrderItem.price x,
                 OrderItem.quantity x)) (setNth i status items)
  = map (fun x => (OrderItem.menuItemId x, OrderItem.name x, OrderItem.price x,
                   OrderItem.quantity x)) items.
Proof.
  revert i. induction items as [|item rest IH]; intros [|i]; simpl; try reflexivity.
  f_equal. apply IH.
Qed.

Lemma getOrder_updateOrder (id : nat) (data : OrderPatch) (now : Z) (db : DB) :
  eval (getOrder id) (exec (updateOrder id data now) db)
  = option_map (applyOrderPatch data now) (eval (getOrder id) db).
Proof.
  unfold eval, exec, getOrder, updateOrder; simpl.
  apply (find_map_set (fun o => Nat.eqb (Order.id o) id)). reflexivity.
Qed.

Lemma updateOrderItemStatus_run (orderId : nat) (i : Z) (status : OrderItem.Status)
    (now : Z) (db : DB) (order : Order.t) :
  eval (getOrder orderId) db = Some order ->
  0 <= i < Z.of_nat (List.length (Order.items order)) ->
  updateOrderItemStatus orderId (Some i) status now db
  = (Some (applyOrderPatch
             (mkOrderPatch (Some (setNth (Z.to_nat i) status (Order.items order))) None)
             now order),
     exec (updateOrder orderId
             (mkOrderPatch (Some (setNth (Z.to_nat i) status (Order.items order))) None)
             now) db).
Proof.
  intros Hget Hi.
  set (data := mkOrderPatch
                 (Some (setNth (Z.to_nat i) status (Order.items order))) None).
  assert (Hrun : updateOrderItemStatus orderId (Some i) status now db
                 = updateOrder orderId data now db).
  { unfold updateOrderItemStatus, bind. unfold getOrder at 1.
    pose proof Hget as Hget'. unfold eval, getOrder in Hget'; simpl in Hget'.
    rewrite Hget'.
    assert (G : (i <? 0) || (Z.of_nat (List.length (Order.items order)) <=? i) = false).
    { apply orb_false_iff. split; [apply Z.ltb_ge | apply Z.leb_gt]; lia. }
    rewrite G. reflexivity. }
  rewrite Hrun.
  pose proof (getOrder_updateOrder orderId data now db) as Hback.
  rewrite Hget in Hback. simpl in Hback.
  unfold eval, exec, getOrder in Hback. simpl in Hback.
  unfold exec, updateOrder. simpl. rewrite Hback. reflexivity.
Qed.

(** X1. Setting an item status at an index below 0 or not below the number
    of items, or on an order that does not exist, answers undefined and
    writes nothing. *)
Theorem item_status_out_of_range (orderId : nat) (i : Z) (status : OrderItem.Status)
    (now : Z) (db : DB) :
  (forall order, eval (getOrder orderId) db = Some order ->
                 i < 0 \/ Z.of_nat (List.length (Order.items order)) <= i) ->
  updateOrderItemStatus orderId (Some i) status now db = (None, db).
Proof.
  intros H. unfold updateOrderItemStatus, bind.
  unfold eval in H. destruct (getOrder orderId db) as [[order|] db0] eqn:E;
    unfold getOrder in E; inversion E; subst db0; [|reflexivity].
  simpl in H. specialize (H order eq_refl).
  assert (G : (i <? 0) || (Z.of_nat (List.length (Order.items order)) <=? i) = true).
  { apply orb_true_iff. destruct H; [left; apply Z.ltb_lt | right; apply Z.leb_le]; lia. }
  rewrite G. reflexivity.
Qed.

Lemma item_status_out_of_range_witness :
  updateOrderItemStatus 10 (Some 1) OrderItem.completed 350 Scenario.ordered
  = (None, Scenario.ordered)
  /\ updateOrderItemStatus 99 (Some 0) OrderItem.completed 350 Scenario.ordered
     = (None, Scenario.ordered).
Proof.
  split.
  - apply (item_status_out_of_range 10 1 OrderItem.completed 350 Scenario.ordered).
    intros order H; vm_compute in H; inversion H; subst; simpl; lia.
  - apply (item_status_out_of_range 99 0 OrderItem.completed 350 Scenario.ordered).
    intros order H; vm_compute in H; inversion H.
Defined.

(** X2. Setting an item status at an index in range changes the status of
    that item and nothing else: the order read back has the same number of
    items, the new status at the index whatever the old one was, every other
    item and every other field of the items as before, and the other rows of
    the store are untouched. *)
Theorem item_status_round_trip (orderId : nat) (i : Z) (status : OrderItem.Status)
    (now : Z) (db : DB) (order : Order.t) :
  eval (getOrder orderId) db = Some order ->
  0 <= i < Z.of_nat (List.length (Order.items order)) ->
  let db' := exec (updateOrderItemStatus orderId (Some i) status now) db in
  exists order',
    eval (updateOrderItemStatus orderId (Some i) status now) db = Some order'
    /\ eval (getOrder orderId) db' = Some order'
    /\ List.length (Order.items order') = List.length (Order.items order)
    /\ option_map OrderItem.status (nth_error (Order.items order') (Z.to_nat i))
       = Some status
    /\ (forall j, j <> Z.to_nat i ->
          nth_error (Order.items order') j = nth_error (Order.items order) j)
    /\ map (fun x => (OrderItem.menuItemId x, OrderItem.name x, OrderItem.price x,
                      OrderItem.quantity x)) (Order.items order')
       = map (fun x => (OrderItem.menuItemId x, OrderItem.name x, OrderItem.price x,
                        OrderItem.quantity x)) (Order.items order)
    /\ Order.orderStatus order' = Order.orderStatus order
    /\ Order.sessionId order' = Order.sessionId order
    /\ (forall o, In o (orders db) -> Order.id o <> orderId -> In o (orders db'))
    /\ tables db' = tables db /\ bills db' = bills db
    /\ salesHistory db' = salesHistory db.
Proof.
  intros Hget Hi db'.
  set (data := mkOrderPatch
                 (Some (setNth (Z.to_nat i) status (Order.items order))) None).
  pose proof (updateOrderItemStatus_run orderId i status now db order Hget Hi) as Hrun.
  fold data in Hrun.
  assert (Hdb : db' = exec (updateOrder orderId data now) db).
  { unfold db'. unfold exec at 1. rewrite Hrun. reflexivity. }
  exists (applyOrderPatch data now order).
  split; [unfold eval; rewrite Hrun; reflexivity|].
  split; [rewrite Hdb, getOrder_updateOrder, Hget; reflexivity|].
  destruct (setNth_same (Z.to_nat i) status (Order.items order)) as [item [_ Hset]];
    [lia|].
  simpl.
  split; [apply setNth_length|].
  split; [rewrite Hset; reflexivity|].
  split; [intros j Hj; apply setNth_other; exact Hj|].
  split; [apply setNth_core|].
  split; [reflexivity|]. split; [reflexivity|].
  split.
  { intros o Hin Hid. rewrite Hdb. unfold exec, updateOrder; simpl.
    apply in_map_iff. exists o. split; [|exact Hin].
    apply Nat.eqb_neq in Hid. rewrite Hid. reflexivity. }
  rewrite Hdb. repeat split; reflexivity.
Qed.

Lemma item_status_round_trip_witness :
  option_map OrderItem.status
    (nth_error (Order.items
                  (Order.mk 10 "demo" Scenario.session 3
                     [OrderItem.mk "item-a" "A" "120.00" 2%float OrderItem.rejected]
                     "active" 300 350)) 0)
  = Some OrderItem.rejected
  /\ exists order',
       eval (getOrder 10)
         (exec (updateOrderItemStatus 10 (Some 0) OrderItem.rejected 350)
               Scenario.ordered) = Some order'
       /\ option_map OrderItem.status (nth_error (Order.items order') 0)
          = Some OrderItem.rejected.
Proof.
  split; [reflexivity|].
  assert (Hi : 0 <= 0 < Z.of_nat (List.length
             (Order.items (Order.mk 10 "demo" Scenario.session 3
                [OrderItem.mk "item-a" "A" "120.00" 2%float OrderItem.pending]
                "active" 300 300)))) by (simpl; lia).
  destruct (item_status_round_trip 10 0 OrderItem.rejected 350 Scenario.ordered _
              eq_refl Hi) as [order' [_ [Hback [_ [Hst _]]]]].
  exists order'. split; [exact Hback | exact Hst].
Defined.

(** X3. The item-status route answers 404 for an order that does not exist,
    403 for an order of another tenant and 400 for a body without one of the
    five statuses, each time without writing; past these checks it answers
    404 when the data-access call answers undefined and the updated order
    otherwise, and leaves the store that call leaves. *)
Theorem patch_order_item_guards (reqAdminUid : string) (orderId : nat)
    (itemIndex : string) (status : option OrderItem.Status) (now : Z) (db : DB) :
  (eval (getOrder orderId) db = None ->
     patchOrderItem reqAdminUid orderId itemIndex status now db = (Fail NotFound, db))
  /\ (forall order,
        eval (getOrder orderId) db = Some order ->
        (Order.adminUid order <> reqAdminUid ->
           patchOrderItem reqAdminUid orderId itemIndex status now db
           = (Fail Forbidden, db))
        /\ (Order.adminUid order = reqAdminUid ->
              (status = None ->
                 patchOrderItem reqAdminUid orderId itemIndex status now db
                 = (Fail BadRequest, db))
              /\ (forall st,
                    status = Some st ->
                    patchOrderItem reqAdminUid orderId itemIndex status now db
                    = (match eval (updateOrderItemStatus orderId
                                     (JsParse.parseInt itemIndex) st now) db with
                       | None => Fail NotFound
                       | Some order' => Json order'
                       end,
                       exec (updateOrderItemStatus orderId
                               (JsParse.parseInt itemIndex) st now) db)))).
Proof.
  split.
  - intros Hnone. unfold patchOrderItem, bind.
    unfold eval, getOrder in Hnone; simpl in Hnone.
    unfold getOrder at 1. rewrite Hnone. reflexivity.
  - intros order Hget.
    pose proof Hget as Hget'. unfold eval, getOrder in Hget'; simpl in Hget'.
    split.
    + intros Hne. unfold patchOrderItem, bind. unfold getOrder at 1. rewrite Hget'.
      apply String.eqb_neq in Hne. rewrite Hne. reflexivity.
    + intros Heq. split.
      * intros ->. unfold patchOrderItem, bind. unfold getOrder at 1.
        rewrite Hget', Heq, String.eqb_refl. reflexivity.
      * intros st ->.
        unfold patchOrderItem. unfold bind at 1. unfold getOrder at 1.
        rewrite Hget', Heq, String.eqb_refl. cbn [negb].
        unfold bind, eval, exec.
        destruct (updateOrderItemStatus orderId (JsParse.parseInt itemIndex) st now db)
          as [[o|] db1]; reflexivity.
Qed.

Lemma patch_order_item_guards_witness :
  patchOrderItem "other" 10 "0" (Some OrderItem.accepted) 350 Scenario.ordered
  = (Fail Forbidden, Scenario.ordered)
  /\ patchOrderItem "demo" 10 "7" (Some OrderItem.accepted) 350 Scenario.ordered
     = (Fail NotFound, Scenario.ordered).
Proof.
  destruct (patch_order_item_guards "other" 10 "0" (Some OrderItem.accepted) 350
              Scenario.ordered) as [_ H1].
  destruct (patch_order_item_guards "demo" 10 "7" (Some OrderItem.accepted) 350
              Scenario.ordered) as [_ H2].
  split.
  - apply (H1 _ eq_refl). discriminate.
  - destruct (H2 _ eq_refl) as [_ H3]. destruct (H3 eq_refl) as [_ H4].
    rewrite (H4 OrderItem.accepted eq_refl). vm_compute. reflexivity.
Defined.

(** ** Session validation *)

Lemma parseInt_nonempty (s : string) (n : Z) :
  JsParse.parseInt s = Some n -> s <> "".
Proof. intros H ->. discriminate. Qed.

Lemma getSessionValidate_found (a tn sid : string) (n : Z) (db : DB) (t : Table.t) :
  a <> "" -> sid <> "" ->
  JsParse.parseInt tn = Some n -> int4 n = true ->
  eval (getTableByNumber a n) db = Some t ->
  getSessionValidate (mkValidateQuery (Some a) (Some tn) (Some sid)) db
  = (Json (if Table.status_eqb (Table.status t) Table.vacant
              || negb (match Table.activeSessionId t with
                       | Some s => String.eqb s sid
                       | None => false
                       end)
           then Invalid "session_ended" else Valid (Table.status t)), db).
Proof.
  intros Ha Hs Hp Hr Hget.
  pose proof (parseInt_nonempty tn n Hp) as Ht.
  apply String.eqb_neq in Ha, Hs, Ht.
  unfold getSessionValidate, Js.truthy_string; simpl.
  rewrite Ha, Hs, Ht, Hp, Hr; simpl.
  unfold bind, ret. unfold eval, getTableByNumber in Hget; simpl in Hget.
  unfold getTableByNumber at 1. rewrite Hget.
  destruct (Table.status_eqb (Table.status t) Table.vacant || _); reflexivity.
Qed.

(** X4. After a join that succeeded, the session id it answered validates on
    that table (with table status active), and any other session id is
    reported as ended. *)
Theorem validate_after_join (a : string) (n : Z) (tn : string) (now : Z)
    (suffix : string) (db : DB) (t : Table.t) :
  a <> "" -> n <> 0 -> Table.otp t <> "" ->
  JsParse.parseInt tn = Some n -> int4 n = true ->
  eval (getTableByNumber a n) db = Some t ->
  let body := mkJoinBody (Some a) (Some n) (Some (Table.otp t)) in
  let db' := exec (postTablesJoin body now suffix) db in
  exists sid first,
    eval (postTablesJoin body now suffix) db
    = Json (mkJoinResult sid first (Table.tableNumber t))
    /\ eval (getSessionValidate (mkValidateQuery (Some a) (Some tn) (Some sid))) db'
       = Json (Valid Table.active)
    /\ (forall other, other <> "" -> other <> sid ->
          eval (getSessionValidate (mkValidateQuery (Some a) (Some tn) (Some other))) db'
          = Json (Invalid "session_ended")).
Proof.
  intros Ha Hn Hc Hp Hr Hget body db'.
  pose proof (postTablesJoin_found a n (Table.otp t) now suffix db t Ha Hn Hc Hget)
    as Hjoin.
  fold body in Hjoin. rewrite String.eqb_refl in Hjoin. simpl in Hjoin.
  assert (Hafter : forall t' sid,
             eval (getTableByNumber a n) db' = Some t' ->
             Table.status t' = Table.active ->
             Table.activeSessionId t' = Some sid -> sid <> "" ->
             eval (getSessionValidate (mkValidateQuery (Some a) (Some tn) (Some sid))) db'
             = Json (Valid Table.active)
             /\ (forall other, other <> "" -> other <> sid ->
                   eval (getSessionValidate
                           (mkValidateQuery (Some a) (Some tn) (Some other))) db'
                   = Json (Invalid "session_ended"))).
  { intros t' sid Hget' Hst Hsid Hne. split.
    - unfold eval.
      rewrite (getSessionValidate_found a tn sid n db' t' Ha Hne Hp Hr Hget').
      rewrite Hst, Hsid, String.eqb_refl. reflexivity.
    - intros other Ho Hdiff. unfold eval.
      rewrite (getSessionValidate_found a tn other n db' t' Ha Ho Hp Hr Hget').
      rewrite Hst, Hsid. apply not_eq_sym in Hdiff.
      apply String.eqb_neq in Hdiff. rewrite Hdiff. reflexivity. }
  destruct (Table.status_eqb (Table.status t) Table.active
            && Js.truthy_string (Table.activeSessionId t)) eqn:Hbranch.
  - apply andb_true_iff in Hbranch. destruct Hbranch as [Hst Htr].
    destruct (Table.activeSessionId t) as [s|] eqn:Hs; [|discriminate].
    assert (Hact : Table.status t = Table.active)
      by (destruct (Table.status t); try discriminate; reflexivity).
    assert (Hne : s <> "").
    { simpl in Htr. apply negb_true_iff in Htr. apply String.eqb_neq. exact Htr. }
    assert (Hdb : db' = db) by (unfold db', exec; rewrite Hjoin; reflexivity).
    exists s, true. split; [unfold eval; rewrite Hjoin; reflexivity|].
    apply (Hafter t s); auto. rewrite Hdb. exact Hget.
  - set (patch := mkTablePatch (Some Table.active)
                    (Some (Some (newSessionId now suffix)))) in *.
    assert (Hdb : db' = exec (updateTable (Table.id t) patch now) db)
      by (unfold db'; unfold exec at 1; rewrite Hjoin; reflexivity).
    exists (newSessionId now suffix), false.
    split; [unfold eval; rewrite Hjoin; reflexivity|].
    apply (Hafter (applyTablePatch patch now t) (newSessionId now suffix));
      try reflexivity; try discriminate.
    rewrite Hdb. unfold updateTable.
    rewrite getTableByNumber_updateTableRows by reflexivity.
    rewrite Hget. simpl. rewrite Nat.eqb_refl. reflexivity.
Qed.

Lemma validate_after_join_witness :
  eval (getSessionValidate
          (mkValidateQuery (Some "demo") (Some "3") (Some Scenario.session)))
       Scenario.joined
  = Json (Valid Table.active)
  /\ exists sid first,
       eval (postTablesJoin Scenario.joinBody 200 "k3x9q") Scenario.initialized
       = Json (mkJoinResult sid first 3)
       /\ eval (getSessionValidate (mkValidateQuery (Some "demo") (Some "3") (Some sid)))
               Scenario.joined
          = Json (Valid Table.active).
Proof.
  split; [reflexivity|].
  assert (Ha : "demo" <> "") by discriminate.
  assert (Hn : 3 <> 0) by lia.
  assert (Hc : Table.otp (Table.mk 2 "demo" 3 Table.vacant None "4821" 100 100) <> "")
    by discriminate.
  destruct (validate_after_join "demo" 3 "3" 200 "k3x9q" Scenario.initialized
              (Table.mk 2 "demo" 3 Table.vacant None "4821" 100 100)
              Ha Hn Hc eq_refl eq_refl eq_refl) as [sid [first [H1 [H2 _]]]].
  exists sid, first. split; [exact H1 | exact H2].
Defined.

Lemma lookup_after_vacate (a : string) (n : Z) (code : string) (now : Z)
    (rows : list Table.t) (t : Table.t) :
  find (fun x => String.eqb (Table.adminUid x) a && Z.eqb (Table.tableNumber x) n) rows
  = Some t ->
  find (fun x => String.eqb (Table.adminUid x) a && Z.eqb (Table.tableNumber x) n)
       (map (fun x => if Nat.eqb (Table.id x) (Table.id t)
                      then setVacant code now x else x) rows)
  = Some (setVacant code now t).
Proof.
  intros Hfind.
  rewrite (find_map_pres
             (fun x => String.eqb (Table.adminUid x) a && Z.eqb (Table.tableNumber x) n)).
  - rewrite Hfind. simpl. rewrite Nat.eqb_refl. reflexivity.
  - intros x. destruct (Nat.eqb (Table.id x) (Table.id t)); reflexivity.
Qed.

(** X5. Once a table has been reset, cancelled, or freed by finalizing its
    bill, no session id validates on it any more: every validation of that
    table answers session_ended. *)
Theorem validate_after_reset (a tn sid : string) (n : Z) (r : Q) (now : Z)
    (db : DB) (t : Table.t) :
  a <> "" -> sid <> "" ->
  JsParse.parseInt tn = Some n -> int4 n = true ->
  eval (getTableByNumber a n) db = Some t ->
  let query := mkValidateQuery (Some a) (Some tn) (Some sid) in
  (eval (getTable (Table.id t)) db = Some t ->
   eval (getSessionValidate query)
        (exec (postTableReset (Table.adminUid t) (Table.id t) r now) db)
   = Json (Invalid "session_ended")
   /\ (Table.status t <> Table.vacant ->
       eval (getSessionValidate query)
            (exec (postTableCancel (Table.adminUid t) (Table.id t) r now) db)
       = Json (Invalid "session_ended")))
  /\ (forall id bill,
        eval (getBill id) db = Some bill ->
        Bill.adminUid bill = a -> Bill.tableNumber bill = n ->
        eval (getSessionValidate query)
             (exec (postBillFinalize (Bill.adminUid bill) id r now) db)
        = Json (Invalid "session_ended")).
Proof.
  intros Ha Hs Hp Hr Hget query.
  assert (Hvacant : forall db',
             eval (getTableByNumber a n) db' = Some (setVacant (generateOtp r) now t) ->
             eval (getSessionValidate query) db' = Json (Invalid "session_ended")).
  { intros db' Hget'. unfold eval, query.
    rewrite (getSessionValidate_found a tn sid n db' _ Ha Hs Hp Hr Hget').
    reflexivity. }
  pose proof Hget as Hfind. unfold eval, getTableByNumber in Hfind; simpl in Hfind.
  split.
  - intros Hid. pose proof Hid as Hid'. unfold eval, getTable in Hid'; simpl in Hid'.
    split.
    + apply Hvacant.
      unfold exec, postTableReset, bind. unfold getTable at 1.
      rewrite Hid', String.eqb_refl. cbn [negb].
      unfold resetTable, updateTableRows, ret, eval, getTableByNumber. cbn [fst snd tables].
      apply lookup_after_vacate. exact Hfind.
    + intros Hst. apply Hvacant.
      assert (Hdb : exec (postTableCancel (Table.adminUid t) (Table.id t) r now) db
                    = exec (cancelTable r (Table.id t) now) db).
      { unfold exec, postTableCancel, bind. unfold getTable at 1.
        rewrite Hid', String.eqb_refl. cbn [negb].
        destruct (Table.status t); try contradiction; cbn [Table.status_eqb];
          unfold ret; destruct (cancelTable r (Table.id t) now db); reflexivity. }
      rewrite Hdb, (cancelTable_run r (Table.id t) now db t Hid).
      unfold eval, getTableByNumber. cbn [fst tables].
      apply lookup_after_vacate. exact Hfind.
  - intros id bill Hbill Hba Hbn. apply Hvacant.
    unfold exec.
    rewrite (postBillFinalize_run (Bill.adminUid bill) id r now db bill Hbill eq_refl).
    rewrite Hba, Hbn, Hget.
    unfold eval, getTableByNumber. cbn [fst snd tables].
    apply lookup_after_vacate. exact Hfind.
Qed.

Lemma validate_after_reset_witness :
  eval (getSessionValidate
          (mkValidateQuery (Some "demo") (Some "3") (Some Scenario.session)))
       (exec (postTableReset "demo" 2 (1 # 2) 250) Scenario.joined)
  = Json (Invalid "session_ended")
  /\ eval (getSessionValidate
             (mkValidateQuery (Some "demo") (Some "3") (Some Scenario.session)))
          Scenario.finalized
     = Json (Invalid "session_ended").
Proof.
  assert (Ha : "demo" <> "") by discriminate.
  assert (Hs : Scenario.session <> "") by discriminate.
  split.
  - destruct (validate_after_reset "demo" "3" Scenario.session 3 (1 # 2) 250
                Scenario.joined Scenario.table3 Ha Hs eq_refl eq_refl eq_refl)
      as [H _].
    exact (proj1 (H eq_refl)).
  - assert (Hget : eval (getTableByNumber "demo" 3) Scenario.billed
                   = Some (Table.mk 2 "demo" 3 Table.billing (Some Scenario.session)
                             "4821" 100 400)) by reflexivity.
    destruct (validate_after_reset "demo" "3" Scenario.session 3 (1 # 2) 500
                Scenario.billed _ Ha Hs eq_refl eq_refl Hget) as [_ H].
    exact (H 11%nat Scenario.bill eq_refl eq_refl eq_refl).
Defined.

(** ** The code check outside the join *)

(** X6. For a request with its three fields, joining answers a session
    exactly when [verifyTableOtp] holds for the same tenant, table number and
    code; when it does not hold, joining writes nothing. *)
Theorem verifyTableOtp_iff_join (a : string) (n : Z) (code : string) (now : Z)
    (suffix : string) (db : DB) :
  a <> "" -> n <> 0 -> code <> "" ->
  let body := mkJoinBody (Some a) (Some n) (Some code) in
  (eval (verifyTableOtp a n code) db = true
   <-> exists result, eval (postTablesJoin body now suffix) db = Json result)
  /\ (eval (verifyTableOtp a n code) db = false ->
      exec (postTablesJoin body now suffix) db = db).
Proof.
  intros Ha Hn Hc body.
  destruct (eval (getTableByNumber a n) db) as [t|] eqn:Hget.
  - pose proof (postTablesJoin_found a n code now suffix db t Ha Hn Hc Hget) as Hjoin.
    fold body in Hjoin.
    assert (Hv : eval (verifyTableOtp a n code) db = String.eqb (Table.otp t) code).
    { unfold eval, verifyTableOtp, bind. unfold eval, getTableByNumber in Hget.
      simpl in Hget. unfold getTableByNumber. rewrite Hget. reflexivity. }
    rewrite Hv. unfold eval, exec. rewrite Hjoin.
    destruct (String.eqb (Table.otp t) code); simpl.
    + split; [|discriminate]. split; [|reflexivity]. intros _.
      destruct (Table.status_eqb (Table.status t) Table.active && _);
        eexists; reflexivity.
    + split; [|reflexivity]. split; [discriminate|]. intros [res H]. discriminate.
  - assert (Hv : eval (verifyTableOtp a n code) db = false).
    { unfold eval, verifyTableOtp, bind. unfold eval, getTableByNumber in Hget.
      simpl in Hget. unfold getTableByNumber. rewrite Hget. reflexivity. }
    assert (Hjoin : postTablesJoin body now suffix db
                    = (Fail (if int4 n then NotFound else InternalError), db)).
    { apply String.eqb_neq in Ha, Hc. apply Z.eqb_neq in Hn.
      unfold body, postTablesJoin, Js.truthy_string, Js.truthy_number; simpl.
      rewrite Ha, Hn, Hc; simpl. unfold bind.
      unfold eval, getTableByNumber in Hget; simpl in Hget.
      unfold getTableByNumber. rewrite Hget. reflexivity. }
    rewrite Hv. unfold eval, exec. rewrite Hjoin. simpl.
    split; [|reflexivity]. split; [discriminate|]. intros [res H]. discriminate.
Qed.

Lemma verifyTableOtp_iff_join_witness :
  eval (verifyTableOtp "demo" 3 "4821") Scenario.initialized = true
  /\ exists result,
       eval (postTablesJoin Scenario.joinBody 200 "k3x9q") Scenario.initialized
       = Json result.
Proof.
  assert (Ha : "demo" <> "") by discriminate.
  assert (Hn : 3 <> 0) by lia.
  assert (Hc : "4821" <> "") by discriminate.
  destruct (verifyTableOtp_iff_join "demo" 3 "4821" 200 "k3x9q" Scenario.initialized
              Ha Hn Hc) as [[H _] _].
  split; [reflexivity | exact (H eq_refl)].
Defined.

(** ** Creating the tables of a tenant *)

Lemma addMissingTables_run (a : string) (existing : list Z) (rs : Z -> Q) (now : Z)
    (numbers : list Z) (db : DB) :
  forEach numbers (fun i =>
    if existsb (Z.eqb i) existing then ret tt
    else
      let otp := generateOtp (rs i) in
      createTable a i Table.vacant otp now ;;; ret tt) db
  = (tt,
     let rows := missingRows a existing rs now numbers (nextId db) in
     mkDB (tables db ++ rows) (orders db) (bills db) (salesHistory db)
          (nextId db + List.length rows)
          (journal db ++ map (fun t => SqlInsertTable (Table.id t)) rows)).
Proof.
  revert db. induction numbers as [|i rest IH]; intros db.
  - simpl. unfold ret. rewrite !app_nil_r, Nat.add_0_r. destruct db; reflexivity.
  - cbn [forEach missingRows]. unfold bind at 1.
    destruct (existsb (Z.eqb i) existing).
    + unfold ret at 1. apply IH.
    + unfold bind at 1. unfold createTable at 1. unfold ret at 1.
      rewrite IH. cbn [tables orders bills salesHistory nextId journal].
      cbv zeta. f_equal. cbn [List.length map].
      rewrite <- !app_assoc. cbn [app]. f_equal. lia.
Qed.

Lemma initializeTables_run (a : string) (count : Z) (rs : Z -> Q) (now : Z) (db : DB) :
  exec (initializeTables a count rs now) db
  = let rows := missingRows a (map Table.tableNumber (tablesOf a db)) rs now
                  (upTo count) (nextId db) in
    mkDB (tables db ++ rows) (orders db) (bills db) (salesHistory db)
         (nextId db + List.length rows)
         (journal db ++ map (fun t => SqlInsertTable (Table.id t)) rows).
Proof.
  unfold exec, initializeTables, bind, getTablesByAdminUid, addMissingTables.
  rewrite addMissingTables_run. reflexivity.
Qed.

Lemma In_upTo (count n : Z) : In n (upTo count) <-> 1 <= n <= count.
Proof.
  unfold upTo. rewrite in_map_iff. split.
  - intros [k [Hk Hin]]. apply in_seq in Hin. lia.
  - intros Hn. exists (Z.to_nat n). split; [lia|]. apply in_seq. lia.
Qed.

Lemma NoDup_upTo (count : Z) : NoDup (upTo count).
Proof.
  unfold upTo. generalize (seq_NoDup (Z.to_nat count) 1).
  generalize (seq 1 (Z.to_nat count)). intros l Hl.
  induction Hl as [|x l Hx Hl IH]; simpl; constructor; [|exact IH].
  intros Hin. apply in_map_iff in Hin. destruct Hin as [y [Hy Hin]].
  apply Nat2Z.inj in Hy. subst y. contradiction.
Qed.

Lemma missingRows_numbers (a : string) (existing : list Z) (rs : Z -> Q) (now : Z)
    (numbers : list Z) (next : nat) :
  map Table.tableNumber (missingRows a existing rs now numbers next)
  = filter (fun i => negb (existsb (Z.eqb i) existing)) numbers.
Proof.
  revert next. induction numbers as [|i rest IH]; intros next; simpl; [reflexivity|].
  destruct (existsb (Z.eqb i) existing); simpl; [apply IH | f_equal; apply IH].
Qed.

Lemma missingRows_shape (a : string) (existing : list Z) (rs : Z -> Q) (now : Z)
    (numbers : list Z) (next : nat) :
  Forall (fun t => Table.adminUid t = a /\ Table.status t = Table.vacant
                   /\ Table.activeSessionId t = None
                   /\ Table.otp t = generateOtp (rs (Table.tableNumber t))
                   /\ In (Table.tableNumber t) numbers
                   /\ (next <= Table.id t)%nat)
         (missingRows a existing rs now numbers next).
Proof.
  revert next. induction numbers as [|i rest IH]; intros next; simpl; [constructor|].
  destruct (existsb (Z.eqb i) existing).
  - eapply Forall_impl; [|apply IH].
    intros t [H1 [H2 [H3 [H4 [H5 H6]]]]].
    split; [exact H1|]. split; [exact H2|]. split; [exact H3|]. split; [exact H4|].
    split; [right; exact H5 | exact H6].
  - constructor.
    + cbn [Table.adminUid Table.status Table.activeSessionId Table.otp
           Table.tableNumber Table.id].
      split; [reflexivity|]. split; [reflexivity|]. split; [reflexivity|].
      split; [reflexivity|]. split; [left; reflexivity | lia].
    + eapply Forall_impl; [|apply (IH (S next))].
      intros t [H1 [H2 [H3 [H4 [H5 H6]]]]].
      split; [exact H1|]. split; [exact H2|]. split; [exact H3|]. split; [exact H4|].
      split; [right; exact H5 | lia].
Qed.

Lemma existsb_eqb_In (i : Z) (l : list Z) : existsb (Z.eqb i) l = true <-> In i l.
Proof.
  rewrite existsb_exists. split.
  - intros [x [Hin Hx]]. apply Z.eqb_eq in Hx. subst. exact Hin.
  - intros Hin. exists i. split; [exact Hin | apply Z.eqb_refl].
Qed.

(** X7. [initializeTables] never touches what is there: the tables after it
    are the tables before it followed by new rows, each of the tenant, vacant,
    without a session, numbered within 1..count and carrying a generated
    code; afterwards every number of 1..count has a table of the tenant; and
    orders, bills and sales history are as before. *)
Theorem initializeTables_fills (a : string) (count : Z) (rs : Z -> Q) (now : Z)
    (db : DB) :
  let db' := exec (initializeTables a count rs now) db in
  (exists rows,
      tables db' = (tables db ++ rows)%list
      /\ Forall (fun t => Table.adminUid t = a /\ Table.status t = Table.vacant
                          /\ Table.activeSessionId t = None
                          /\ 1 <= Table.tableNumber t <= count
                          /\ Table.otp t = generateOtp (rs (Table.tableNumber t)))
                rows)
  /\ (forall n, 1 <= n <= count ->
        exists t, In t (tables db') /\ Table.adminUid t = a /\ Table.tableNumber t = n)
  /\ orders db' = orders db /\ bills db' = bills db
  /\ salesHistory db' = salesHistory db.
Proof.
  intros db'. unfold db'. rewrite initializeTables_run. cbv zeta.
  cbn [tables orders bills salesHistory].
  set (existing := map Table.tableNumber (tablesOf a db)).
  set (rows := missingRows a existing rs now (upTo count) (nextId db)).
  split; [|split; [|repeat split]].
  - exists rows. split; [reflexivity|].
    eapply Forall_impl; [|apply missingRows_shape].
    intros t [H1 [H2 [H3 [H4 [H5 _]]]]]. apply In_upTo in H5. intuition.
  - intros n Hn.
    destruct (existsb (Z.eqb n) existing) eqn:E.
    + apply existsb_eqb_In in E. unfold existing in E.
      apply in_map_iff in E. destruct E as [t [Ht Hin]].
      unfold tablesOf in Hin. apply filter_In in Hin. destruct Hin as [Hin Ha].
      apply String.eqb_eq in Ha.
      exists t. split; [apply in_or_app; left; exact Hin | split; assumption].
    + assert (Hin : In n (map Table.tableNumber rows)).
      { unfold rows. rewrite missingRows_numbers. apply filter_In.
        split; [apply In_upTo; exact Hn | rewrite E; reflexivity]. }
      apply in_map_iff in Hin. destruct Hin as [t [Ht Hin]].
      pose proof (missingRows_shape a existing rs now (upTo count) (nextId db)) as Hs.
      rewrite Forall_forall in Hs. destruct (Hs t Hin) as [Ha _].
      exists t. split; [apply in_or_app; right; exact Hin | split; assumption].
Qed.

Lemma missingRows_none (a : string) (existing : list Z) (rs : Z -> Q) (now : Z)
    (numbers : list Z) (next : nat) :
  (forall i, In i numbers -> In i existing) ->
  missingRows a existing rs now numbers next = [].
Proof.
  revert next. induction numbers as [|i rest IH]; intros next H; simpl; [reflexivity|].
  assert (E : existsb (Z.eqb i) existing = true).
  { apply existsb_eqb_In. apply H. left. reflexivity. }
  rewrite E. apply IH. intros j Hj. apply H. right. exact Hj.
Qed.

(** X8. [initializeTables] is idempotent: run again for the same tenant and
    count, with whatever draws and clock, it creates nothing and leaves the
    store exactly as the first run left it. *)
Theorem initializeTables_idempotent (a : string) (count : Z) (rs rs2 : Z -> Q)
    (now now2 : Z) (db : DB) :
  exec (initializeTables a count rs2 now2) (exec (initializeTables a count rs now) db)
  = exec (initializeTables a count rs now) db.
Proof.
  set (db1 := exec (initializeTables a count rs now) db).
  rewrite (initializeTables_run a count rs2 now2 db1). cbv zeta.
  rewrite missingRows_none.
  - simpl. rewrite app_nil_r, app_nil_r, Nat.add_0_r. destruct db1; reflexivity.
  - intros i Hi. apply In_upTo in Hi.
    pose proof (initializeTables_run a count rs now db) as Hrun. cbv zeta in Hrun.
    fold db1 in Hrun.
    set (existing := map Table.tableNumber (tablesOf a db)) in *.
    set (rows := missingRows a existing rs now (upTo count) (nextId db)) in *.
    assert (Htabs : tables db1 = (tables db ++ rows)%list) by (rewrite Hrun; reflexivity).
    unfold tablesOf. rewrite Htabs, filter_app, map_app. apply in_or_app.
    destruct (existsb (Z.eqb i) existing) eqn:E.
    + left. apply existsb_eqb_In in E. exact E.
    + right.
      assert (Hin : In i (map Table.tableNumber rows)).
      { unfold rows. rewrite missingRows_numbers. apply filter_In.
        split; [apply In_upTo; exact Hi | rewrite E; reflexivity]. }
      apply in_map_iff in Hin. destruct Hin as [t [Ht Hin]].
      apply in_map_iff. exists t. split; [exact Ht|].
      apply filter_In. split; [exact Hin|].
      pose proof (missingRows_shape a existing rs now (upTo count) (nextId db)) as Hs.
      rewrite Forall_forall in Hs. destruct (Hs t Hin) as [Ha _].
      apply String.eqb_eq. exact Ha.
Qed.

Lemma NoDup_app_disjoint {A} (l1 l2 : list A) :
  NoDup l1 -> NoDup l2 -> (forall x, In x l1 -> ~ In x l2) -> NoDup (l1 ++ l2).
Proof.
  intros H1 H2 Hd. induction H1 as [|x l Hx Hl IH]; simpl; [exact H2|].
  constructor.
  - intros Hin. apply in_app_or in Hin. destruct Hin as [Hin|Hin].
    + contradiction.
    + apply (Hd x); [left; reflexivity | exact Hin].
  - apply IH. intros y Hy. apply Hd. right. exact Hy.
Qed.

(** X9. When the tables of a tenant have distinct numbers (none at all, for
    a new tenant), they still have after [initializeTables]: with X7, each
    number of 1..count then has exactly one table of the tenant. *)
Theorem initializeTables_one_per_number (a : string) (count : Z) (rs : Z -> Q)
    (now : Z) (db : DB) :
  NoDup (map Table.tableNumber (tablesOf a db)) ->
  let db' := exec (initializeTables a count rs now) db in
  NoDup (map Table.tableNumber (tablesOf a db'))
  /\ (forall n, 1 <= n <= count ->
        List.length (filter (fun t => Z.eqb (Table.tableNumber t) n) (tablesOf a db'))
        = 1%nat).
Proof.
  intros Hnd db'.
  pose proof (initializeTables_run a count rs now db) as Hrun. cbv zeta in Hrun.
  fold db' in Hrun.
  set (existing := map Table.tableNumber (tablesOf a db)) in *.
  set (rows := missingRows a existing rs now (upTo count) (nextId db)) in *.
  pose proof (missingRows_shape a existing rs now (upTo count) (nextId db)) as Hs.
  fold rows in Hs. rewrite Forall_forall in Hs.
  assert (Hrows : filter (fun t => String.eqb (Table.adminUid t) a) rows = rows).
  { apply forallb_filter_id. apply forallb_forall. intros t Ht.
    destruct (Hs t Ht) as [Ha _]. apply String.eqb_eq. exact Ha. }
  assert (Hof : tablesOf a db' = (tablesOf a db ++ rows)%list).
  { unfold tablesOf. rewrite Hrun. cbn [tables]. rewrite filter_app, Hrows. reflexivity. }
  assert (Hnd' : NoDup (map Table.tableNumber (tablesOf a db'))).
  { rewrite Hof, map_app. apply NoDup_app_disjoint.
    - exact Hnd.
    - unfold rows. rewrite missingRows_numbers. apply NoDup_filter. apply NoDup_upTo.
    - intros n Hin Hin2. unfold rows in Hin2. rewrite missingRows_numbers in Hin2.
      apply filter_In in Hin2. destruct Hin2 as [_ Hneg].
      apply negb_true_iff in Hneg.
      assert (Ht : existsb (Z.eqb n) existing = true) by (apply existsb_eqb_In; exact Hin).
      congruence. }
  split; [exact Hnd'|].
  intros n Hn.
  assert (Hex : In n (map Table.tableNumber (tablesOf a db'))).
  { rewrite Hof, map_app. apply in_or_app.
    destruct (existsb (Z.eqb n) existing) eqn:E.
    - left. apply existsb_eqb_In. exact E.
    - right. unfold rows. rewrite missingRows_numbers. apply filter_In.
      split; [apply In_upTo; exact Hn | rewrite E; reflexivity]. }
  revert Hnd' Hex. generalize (tablesOf a db'). intros l.
  induction l as [|t l IH]; simpl; intros Hnd' Hex; [contradiction|].
  inversion Hnd' as [|? ? Hnotin Hnd'']; subst.
  destruct (Z.eqb (Table.tableNumber t) n) eqn:E.
  - apply Z.eqb_eq in E. simpl. f_equal.
    assert (Hno : ~ In n (map Table.tableNumber l)) by (rewrite <- E; exact Hnotin).
    clear - Hno. induction l as [|x l IH]; simpl; [reflexivity|].
    destruct (Z.eqb (Table.tableNumber x) n) eqn:Ex.
    + exfalso. apply Hno. left. apply Z.eqb_eq. exact Ex.
    + apply IH. intros H. apply Hno. right. exact H.
  - apply IH; [exact Hnd''|]. destruct Hex as [Hex|Hex]; [|exact Hex].
    apply Z.eqb_neq in E. contradiction.
Qed.

Lemma initializeTables_one_per_number_witness :
  NoDup (map Table.tableNumber (tablesOf "demo" emptyDB))
  /\ List.length (filter (fun t => Z.eqb (Table.tableNumber t) 3)
                    (tablesOf "demo"
                       (exec (initializeTables "demo" 10 (fun _ => Scenario.draw) 100)
                             emptyDB))) = 1%nat.
Proof.
  assert (Hnd : NoDup (map Table.tableNumber (tablesOf "demo" emptyDB)))
    by constructor.
  split; [exact Hnd|].
  destruct (initializeTables_one_per_number "demo" 10 (fun _ => Scenario.draw) 100
              emptyDB Hnd) as [_ H].
  apply (H 3). lia.
Defined.

(** ** Synchronizing the tables with a new count *)

Lemma filter_filter {A} (p q : A -> bool) (l : list A) :
  filter p (filter q l) = filter (fun x => q x && p x) l.
Proof.
  induction l as [|x l IH]; simpl; [reflexivity|].
  destruct (q x); simpl; [destruct (p x); simpl; rewrite IH; reflexivity | exact IH].
Qed.

Lemma deleteLoop_run (newCount : Z) (existing : list Table.t) (db : DB) :
  forEach existing (fun table =>
    if newCount <? Table.tableNumber table then deleteTable (Table.id table)
    else ret tt) db
  = (tt,
     mkDB (filter (fun t => negb (excessId newCount existing t)) (tables db))
          (orders db) (bills db) (salesHistory db) (nextId db)
          (journal db
             ++ map (fun t => SqlDeleteTable (Table.id t))
                    (filter (fun t => newCount <? Table.tableNumber t) existing))).
Proof.
  revert db. induction existing as [|x rest IH]; intros db.
  - simpl. unfold ret. rewrite app_nil_r.
    rewrite forallb_filter_id by (apply forallb_forall; reflexivity).
    destruct db; reflexivity.
  - cbn [forEach]. unfold bind at 1.
    destruct (newCount <? Table.tableNumber x) eqn:E.
    + unfold deleteTable at 1. rewrite IH.
      cbn [tables orders bills salesHistory nextId journal filter]. rewrite E.
      f_equal. f_equal.
      * rewrite filter_filter. apply filter_ext. intros t.
        unfold excessId. cbn [existsb]. rewrite E. cbn [andb].
        rewrite negb_orb. reflexivity.
      * cbn [map]. rewrite <- app_assoc. reflexivity.
    + unfold ret at 1. rewrite IH. cbn [filter]. rewrite E.
      f_equal. f_equal. apply filter_ext. intros t.
      unfold excessId. cbn [existsb]. rewrite E. reflexivity.
Qed.

Lemma syncTables_run (a : string) (newCount : Z) (rs : Z -> Q) (now : Z) (db : DB) :
  exec (syncTables a newCount rs now) db
  = let existing := tablesOf a db in
    let rows := missingRows a (map Table.tableNumber existing) rs now
                  (upTo newCount) (nextId db) in
    mkDB (filter (fun t => negb (excessId newCount existing t)) (tables db ++ rows))
         (orders db) (bills db) (salesHistory db)
         (nextId db + List.length rows)
         ((journal db ++ map (fun t => SqlInsertTable (Table.id t)) rows)
            ++ map (fun t => SqlDeleteTable (Table.id t))
                   (filter (fun t => newCount <? Table.tableNumber t) existing)).
Proof.
  unfold exec, syncTables. unfold bind at 1. unfold getTablesByAdminUid at 1.
  unfold bind at 1. unfold addMissingTables. rewrite addMissingTables_run.
  rewrite deleteLoop_run. reflexivity.
Qed.

Lemma excessId_false_old (a : string) (newCount : Z) (db : DB) (t : Table.t) :
  NoDup (map Table.id (tables db)) ->
  In t (tables db) ->
  Table.adminUid t <> a \/ Table.tableNumber t <= newCount ->
  excessId newCount (tablesOf a db) t = false.
Proof.
  intros Hnd Hin Hkeep. apply not_true_is_false. intros Hex.
  unfold excessId in Hex. apply existsb_exists in Hex.
  destruct Hex as [x [Hx Hc]]. apply andb_true_iff in Hc. destruct Hc as [Hgt Hid].
  unfold tablesOf in Hx. apply filter_In in Hx. destruct Hx as [Hx Ha].
  apply Nat.eqb_eq in Hid. apply String.eqb_eq in Ha. apply Z.ltb_lt in Hgt.
  assert (t = x) by (eapply NoDup_map_inj; eauto).
  subst x. destruct Hkeep; [contradiction | lia].
Qed.

Lemma excessId_false_new (a : string) (newCount : Z) (db : DB) (t : Table.t) :
  Forall (fun x => (Table.id x < nextId db)%nat) (tables db) ->
  (nextId db <= Table.id t)%nat ->
  excessId newCount (tablesOf a db) t = false.
Proof.
  intros Hlt Hge. apply not_true_is_false. intros Hex.
  unfold excessId in Hex. apply existsb_exists in Hex.
  destruct Hex as [x [Hx Hc]]. apply andb_true_iff in Hc. destruct Hc as [_ Hid].
  unfold tablesOf in Hx. apply filter_In in Hx. destruct Hx as [Hx _].
  apply Nat.eqb_eq in Hid. rewrite Forall_forall in Hlt. specialize (Hlt x Hx). lia.
Qed.

(** X10. After [syncTables] no table of the tenant has a number above the
    new count, and orders, bills and sales history are as before (the orders
    of a deleted table stay).  When table ids are distinct and below the id
    counter, every number of 1..newCount has a table of the tenant, and the
    rows of other tenants and the tenant's rows within the count are still
    there, unchanged. *)
Theorem syncTables_bounds (a : string) (newCount : Z) (rs : Z -> Q) (now : Z)
    (db : DB) :
  let db' := exec (syncTables a newCount rs now) db in
  (forall t, In t (tables db') -> Table.adminUid t = a ->
             Table.tableNumber t <= newCount)
  /\ orders db' = orders db /\ bills db' = bills db
  /\ salesHistory db' = salesHistory db
  /\ (table_ids_fresh db ->
      (forall n, 1 <= n <= newCount ->
         exists t, In t (tables db') /\ Table.adminUid t = a
                   /\ Table.tableNumber t = n)
      /\ (forall t, In t (tables db) ->
            Table.adminUid t <> a \/ Table.tableNumber t <= newCount ->
            In t (tables db'))).
Proof.
  intros db'. unfold db'. rewrite syncTables_run. cbv zeta.
  cbn [tables orders bills salesHistory].
  set (existing := tablesOf a db).
  set (rows := missingRows a (map Table.tableNumber existing) rs now
                 (upTo newCount) (nextId db)).
  pose proof (missingRows_shape a (map Table.tableNumber existing) rs now
                (upTo newCount) (nextId db)) as Hs.
  fold rows in Hs. rewrite Forall_forall in Hs.
  split; [|split; [reflexivity|split; [reflexivity|split; [reflexivity|]]]].
  - intros t Hin Ha. apply filter_In in Hin. destruct Hin as [Hin Hex].
    apply negb_true_iff in Hex.
    apply in_app_or in Hin. destruct Hin as [Hin|Hin].
    + destruct (Z.leb_spec (Table.tableNumber t) newCount) as [Hle|Hgt]; [exact Hle|].
      exfalso.
      assert (Ht : excessId newCount existing t = true).
      { unfold excessId. apply existsb_exists. exists t. split.
        - unfold existing, tablesOf. apply filter_In. split; [exact Hin|].
          apply String.eqb_eq. exact Ha.
        - apply andb_true_iff. split; [apply Z.ltb_lt; lia | apply Nat.eqb_refl]. }
      congruence.
    + destruct (Hs t Hin) as [_ [_ [_ [_ [Hn _]]]]]. apply In_upTo in Hn. lia.
  - intros [Hnd Hlt]. split.
    + intros n Hn.
      destruct (existsb (Z.eqb n) (map Table.tableNumber existing)) eqn:E.
      * apply existsb_eqb_In in E. apply in_map_iff in E.
        destruct E as [t [Ht Hin]].
        unfold existing, tablesOf in Hin. apply filter_In in Hin.
        destruct Hin as [Hin Ha]. apply String.eqb_eq in Ha.
        exists t. split; [|split; assumption].
        apply filter_In. split; [apply in_or_app; left; exact Hin|].
        apply negb_true_iff. apply (excessId_false_old a newCount db t Hnd Hin).
        right. lia.
      * assert (Hin : In n (map Table.tableNumber rows)).
        { unfold rows. rewrite missingRows_numbers. apply filter_In.
          split; [apply In_upTo; exact Hn | rewrite E; reflexivity]. }
        apply in_map_iff in Hin. destruct Hin as [t [Ht Hin]].
        destruct (Hs t Hin) as [Ha [_ [_ [_ [_ Hid]]]]].
        exists t. split; [|split; assumption].
        apply filter_In. split; [apply in_or_app; right; exact Hin|].
        apply negb_true_iff. apply (excessId_false_new a newCount db t Hlt Hid).
    + intros t Hin Hkeep. apply filter_In.
      split; [apply in_or_app; left; exact Hin|].
      apply negb_true_iff. apply (excessId_false_old a newCount db t Hnd Hin Hkeep).
Qed.

Lemma syncTables_bounds_witness :
  table_ids_fresh Scenario.initialized
  /\ (forall t, In t (tables (exec (syncTables "demo" 4 (fun _ => Scenario.draw) 150)
                                   Scenario.initialized)) ->
                Table.adminUid t = "demo" -> Table.tableNumber t <= 4)
  /\ exists t, In t (tables (exec (syncTables "demo" 12 (fun _ => Scenario.draw) 150)
                                  Scenario.initialized))
               /\ Table.adminUid t = "demo" /\ Table.tableNumber t = 12.
Proof.
  assert (Hfresh : table_ids_fresh Scenario.initialized).
  { split.
    - vm_compute. repeat (constructor; [simpl; intuition discriminate|]). constructor.
    - vm_compute. repeat (constructor; [lia|]). constructor. }
  split; [exact Hfresh|]. split.
  - exact (proj1 (syncTables_bounds "demo" 4 (fun _ => Scenario.draw) 150
                    Scenario.initialized)).
  - destruct (syncTables_bounds "demo" 12 (fun _ => Scenario.draw) 150
                Scenario.initialized) as [_ [_ [_ [_ H]]]].
    destruct (H Hfresh) as [H1 _]. apply (H1 12). lia.
Defined.

(** ** What no call ever does to orders, bills and sales history *)

Lemma Forall2_refl_all {A} (le : A -> A -> Prop) (l : list A) :
  (forall x, le x x) -> Forall2 le l l.
Proof. intros H. induction l; constructor; auto. Qed.

Lemma Forall2_trans_all {A} (le : A -> A -> Prop) (l1 l2 l3 : list A) :
  (forall x y z, le x y -> le y z -> le x z) ->
  Forall2 le l1 l2 -> Forall2 le l2 l3 -> Forall2 le l1 l3.
Proof.
  intros Ht H12. revert l3. induction H12 as [|x y l1 l2 Hxy H12 IH]; intros l3 H23.
  - inversion H23. constructor.
  - inversion H23 as [|y' z l2' l3' Hyz H23']; subst.
    constructor; [eapply Ht; eauto | apply IH; exact H23'].
Qed.

Lemma Forall2_map_r {A} (le : A -> A -> Prop) (f : A -> A) (l : list A) :
  (forall x, le x (f x)) -> Forall2 le l (map f l).
Proof. intros H. induction l; simpl; constructor; auto. Qed.

Lemma grows_refl {A} (le : A -> A -> Prop) (l : list A) :
  (forall x, le x x) -> grows le l l.
Proof.
  intros H. exists l, []. split; [rewrite app_nil_r; reflexivity|].
  apply Forall2_refl_all. exact H.
Qed.

Lemma grows_trans {A} (le : A -> A -> Prop) (l1 l2 l3 : list A) :
  (forall x y z, le x y -> le y z -> le x z) ->
  grows le l1 l2 -> grows le l2 l3 -> grows le l1 l3.
Proof.
  intros Ht [k1 [a1 [E1 F1]]] [k2 [a2 [E2 F2]]]. subst l2 l3.
  apply Forall2_app_inv_l in F2. destruct F2 as [k21 [k22 [F21 [F22 E]]]]. subst k2.
  exists k21, (k22 ++ a2)%list. split; [rewrite app_assoc; reflexivity|].
  eapply Forall2_trans_all; eauto.
Qed.

Lemma grows_app {A} (le : A -> A -> Prop) (l added : list A) :
  (forall x, le x x) -> grows le l (l ++ added).
Proof.
  intros H. exists l, added. split; [reflexivity | apply Forall2_refl_all; exact H].
Qed.

Lemma grows_map {A} (le : A -> A -> Prop) (f : A -> A) (l : list A) :
  (forall x, le x (f x)) -> grows le l (map f l).
Proof.
  intros H. exists (map f l), []. split; [rewrite app_nil_r; reflexivity|].
  apply Forall2_map_r. exact H.
Qed.

Lemma order_same_refl (o : Order.t) : order_same o o.
Proof. unfold order_same. repeat split. Qed.

Lemma order_same_trans (x y z : Order.t) :
  order_same x y -> order_same y z -> order_same x z.
Proof. unfold order_same. intuition congruence. Qed.

Lemma bill_same_refl (b : Bill.t) : bill_same b b.
Proof. left. reflexivity. Qed.

Lemma bill_same_trans (x y z : Bill.t) :
  bill_same x y -> bill_same y z -> bill_same x z.
Proof.
  unfold bill_same. intros [Hxy|Hxy] [Hyz|Hyz]; subst; auto.
Qed.

Lemma lifecycle_refl (db : DB) : lifecycle db db.
Proof.
  repeat split.
  - apply grows_refl. reflexivity.
  - apply grows_refl. apply order_same_refl.
  - apply grows_refl. apply bill_same_refl.
Qed.

Lemma lifecycle_trans (db1 db2 db3 : DB) :
  lifecycle db1 db2 -> lifecycle db2 db3 -> lifecycle db1 db3.
Proof.
  intros [S1 [O1 B1]] [S2 [O2 B2]]. repeat split.
  - eapply grows_trans; eauto. intros; congruence.
  - eapply grows_trans; eauto. apply order_same_trans.
  - eapply grows_trans; eauto. apply bill_same_trans.
Qed.

Lemma respects_ret {A} (a : A) : respects lifecycle (ret a).
Proof. intros db. apply lifecycle_refl. Qed.

Lemma respects_bind {A B} (m : Storage A) (k : A -> Storage B) :
  respects lifecycle m -> (forall a, respects lifecycle (k a)) ->
  respects lifecycle (bind m k).
Proof.
  intros Hm Hk db. unfold bind.
  specialize (Hm db). destruct (m db) as [a db1]. simpl in Hm.
  eapply lifecycle_trans; [exact Hm | apply Hk].
Qed.

Lemma respects_forEach {A} (l : list A) (body : A -> Storage unit) :
  (forall x, respects lifecycle (body x)) -> respects lifecycle (forEach l body).
Proof.
  intros Hbody. induction l as [|x l IH]; simpl.
  - apply respects_ret.
  - apply respects_bind; [apply Hbody | intros _; exact IH].
Qed.

Lemma respects_same {A} (m : Storage A) :
  (forall db, salesHistory (snd (m db)) = salesHistory db
              /\ orders (snd (m db)) = orders db
              /\ bills (snd (m db)) = bills db) ->
  respects lifecycle m.
Proof.
  intros H db. destruct (H db) as [Hs [Ho Hb]]. unfold lifecycle.
  rewrite Hs, Ho, Hb. apply lifecycle_refl.
Qed.

Lemma respects_createOrder (data : InsertOrder) (now : Z) :
  respects lifecycle (createOrder data now).
Proof.
  intros db. unfold createOrder.
  destruct (negb (int4 (io_tableNumber data))); [apply lifecycle_refl|].
  unfold lifecycle; simpl. repeat split.
  - apply grows_refl. reflexivity.
  - apply grows_app. apply order_same_refl.
  - apply grows_refl. apply bill_same_refl.
Qed.

Lemma respects_updateOrder (id : nat) (data : OrderPatch) (now : Z) :
  respects lifecycle (updateOrder id data now).
Proof.
  intros db. unfold updateOrder, lifecycle; simpl. repeat split.
  - apply grows_refl. reflexivity.
  - apply grows_map. intros o.
    destruct (Nat.eqb (Order.id o) id); [|apply order_same_refl].
    unfold order_same; simpl. repeat split.
  - apply grows_refl. apply bill_same_refl.
Qed.

Lemma respects_createBill (data : InsertBill) (now : Z) :
  respects lifecycle (createBill data now).
Proof.
  intros db. unfold createBill.
  destruct (existsb _ (bills db)); [apply lifecycle_refl|].
  destruct (negb (int4 (ib_tableNumber data))); [apply lifecycle_refl|].
  destruct (storedAmounts _); [|apply lifecycle_refl].
  unfold lifecycle; simpl. repeat split.
  - apply grows_refl. reflexivity.
  - apply grows_refl. apply order_same_refl.
  - apply grows_app. apply bill_same_refl.
Qed.

Lemma respects_updateBill_final (id : nat) : respects lifecycle (updateBill id true).
Proof.
  intros db. unfold updateBill, lifecycle; simpl. repeat split.
  - apply grows_refl. reflexivity.
  - apply grows_refl. apply order_same_refl.
  - apply grows_map. intros b.
    destruct (Nat.eqb (Bill.id b) id); [right | left]; reflexivity.
Qed.

Lemma respects_createSalesHistory (data : InsertSalesHistory) (now : Z) :
  respects lifecycle (createSalesHistory data now).
Proof.
  intros db. unfold createSalesHistory, lifecycle; simpl. repeat split.
  - apply grows_app. reflexivity.
  - apply grows_refl. apply order_same_refl.
  - apply grows_refl. apply bill_same_refl.
Qed.

#[local] Hint Resolve respects_ret respects_createOrder respects_updateOrder
  respects_createBill respects_updateBill_final respects_createSalesHistory : inv.

Ltac respects_step :=
  match goal with
  | |- respects lifecycle (bind _ _) => apply respects_bind; [|intros ?]
  | |- respects lifecycle (forEach _ _) => apply respects_forEach; intros ?
  | |- respects lifecycle (match ?x with _ => _ end) => destruct x
  | |- respects lifecycle (if ?c then _ else _) => destruct c
  | |- respects lifecycle _ =>
      solve [auto with inv
            | apply respects_same; intros ?; repeat split; reflexivity]
  end.

Ltac respects_all := repeat respects_step.

Lemma runCall_lifecycle (call : ApiCall) (db : DB) : lifecycle db (runCall call db).
Proof.
  destruct call; simpl; unfold exec;
    match goal with
    | |- lifecycle db (snd (?m db)) =>
        assert (H : respects lifecycle m); [|apply H]
    end;
    unfold initializeTables, syncTables, addMissingTables, postTableReset,
      resetTable, postTableCancel, cancelTable, postTableRegenerateOtp,
      regenerateTableOtp, patchTable, postTablesJoin, getSessionValidate,
      postOrders, patchOrderItem, updateOrderItemStatus, patchOrder, postBills,
      getNextBillNumber, postBillFinalize, updateTable;
    respects_all.
Qed.

Lemma runCalls_lifecycle (calls : list ApiCall) (db : DB) :
  lifecycle db (runCalls calls db).
Proof.
  revert db. induction calls as [|call calls IH]; intros db; simpl.
  - apply lifecycle_refl.
  - eapply lifecycle_trans; [apply runCall_lifecycle | apply IH].
Qed.

Lemma grows_nth {A} (le : A -> A -> Prop) (l l' : list A) (i : nat) (x : A) :
  grows le l l' -> nth_error l i = Some x ->
  exists x', nth_error l' i = Some x' /\ le x x'.
Proof.
  intros [kept [added [E F]]] Hx. subst l'. revert i Hx.
  induction F as [|a b l kept Hab F IH]; intros i Hx.
  - destruct i; discriminate.
  - destruct i as [|i]; simpl in *.
    + inversion Hx; subst. exists b. split; [reflexivity | exact Hab].
    + apply IH. exact Hx.
Qed.

(** X11. Sales history is write-once: whatever calls are made, in whatever
    order and by whomever, the rows that were there are still there, in the
    same places and unchanged; calls only ever add rows after them. *)
Theorem sales_history_append_only (calls : list ApiCall) (db : DB) :
  exists added, salesHistory (runCalls calls db) = (salesHistory db ++ added)%list.
Proof.
  destruct (runCalls_lifecycle calls db) as [[kept [added [E F]]] _].
  exists added. rewrite E. f_equal.
  clear E. induction F as [|x y l kept Hxy F IH]; [reflexivity|].
  subst y. f_equal. exact IH.
Qed.

(** X12. Orders are never deleted and never change hands: whatever calls
    are made, the order at each position of the orders table is still at that
    position, with the id, tenant, session id, table number and creation
    time it was created with. *)
Theorem orders_never_deleted (calls : list ApiCall) (db : DB) (i : nat) (o : Order.t) :
  nth_error (orders db) i = Some o ->
  exists o', nth_error (orders (runCalls calls db)) i = Some o'
             /\ Order.id o' = Order.id o /\ Order.adminUid o' = Order.adminUid o
             /\ Order.sessionId o' = Order.sessionId o
             /\ Order.tableNumber o' = Order.tableNumber o
             /\ Order.createdAt o' = Order.createdAt o.
Proof.
  intros Hi. destruct (runCalls_lifecycle calls db) as [_ [Ho _]].
  destruct (grows_nth _ _ _ i o Ho Hi) as [o' [Hn Hs]].
  exists o'. split; [exact Hn | exact Hs].
Qed.

Lemma orders_never_deleted_witness :
  nth_error (orders Scenario.ordered) 0
  = Some (Order.mk 10 "demo" Scenario.session 3
            [OrderItem.mk "item-a" "A" "120.00" 2%float OrderItem.pending]
            "active" 300 300)
  /\ exists o',
       nth_error
         (orders (runCalls
                    [CallGenerateBill (fun _ => "") "demo" Scenario.billBody
                       "20251215" 400;
                     CallFinalize "demo" 11 (1 # 2) 500;
                     CallFinalize "demo" 11 (1 # 4) 600] Scenario.ordered)) 0
       = Some o'
       /\ Order.id o' = 10%nat /\ Order.sessionId o' = Scenario.session.
Proof.
  split; [reflexivity|].
  destruct (orders_never_deleted
              [CallGenerateBill (fun _ => "") "demo" Scenario.billBody "20251215" 400;
               CallFinalize "demo" 11 (1 # 2) 500; CallFinalize "demo" 11 (1 # 4) 600]
              Scenario.ordered 0 _ eq_refl) as [o' [Hn [Hid [_ [Hs _]]]]].
  exists o'. split; [exact Hn|]. split; [exact Hid | exact Hs].
Defined.

(** X13. Bills are never deleted and their amounts never change: whatever
    calls are made, the bill at each position is still there, either as it
    was or with [isFinal] set; and a bill that is final stays exactly as it
    is. *)
Theorem bills_only_become_final (calls : list ApiCall) (db : DB) (i : nat) (b : Bill.t) :
  nth_error (bills db) i = Some b ->
  exists b', nth_error (bills (runCalls calls db)) i = Some b'
             /\ (b' = b \/ b' = setIsFinal true b)
             /\ (Bill.isFinal b = true -> b' = b).
Proof.
  intros Hi. destruct (runCalls_lifecycle calls db) as [_ [_ Hb]].
  destruct (grows_nth _ _ _ i b Hb Hi) as [b' [Hn Hs]].
  exists b'. split; [exact Hn|]. split; [exact Hs|].
  intros Hf. destruct Hs as [Hs|Hs]; [exact Hs|].
  rewrite Hs. destruct b; simpl in *. subst. reflexivity.
Qed.

Lemma bills_only_become_final_witness :
  nth_error (bills Scenario.finalized) 0 = Some (setIsFinal true Scenario.bill)
  /\ nth_error (bills (runCalls [CallFinalize "demo" 11 (1 # 4) 600]
                               Scenario.finalized)) 0
     = Some (setIsFinal true Scenario.bill).
Proof.
  split; [reflexivity|].
  destruct (bills_only_become_final [CallFinalize "demo" 11 (1 # 4) 600]
              Scenario.finalized 0 _ eq_refl) as [b' [Hn [_ Hf]]].
  rewrite Hn. f_equal. apply Hf. reflexivity.
Defined.

(** ** Generating a bill *)

Lemma length_insert_desc {A} (key : A -> Z) (x : A) (l : list A) :
  List.length (insert_desc key x l) = S (List.length l).
Proof.
  induction l as [|z l IH]; simpl; [reflexivity|].
  destruct (key z <? key x); simpl; [reflexivity | now rewrite IH].
Qed.

Lemma length_orderBy_desc {A} (key : A -> Z) (l : list A) :
  List.length (orderBy_desc key l) = List.length l.
Proof.
  unfold orderBy_desc. induction l as [|x l IH]; simpl; [reflexivity|].
  rewrite length_insert_desc, IH. reflexivity.
Qed.

Lemma getNextBillNumber_eval (a dateStr : string) (db : DB) :
  getNextBillNumber a dateStr db
  = (billNumberOf dateStr (List.length (billsOf a db)), db).
Proof.
  unfold getNextBillNumber, bind, getBillsByAdminUid, ret, billNumberOf, billsOf.
  rewrite length_orderBy_desc. reflexivity.
Qed.

Lemma postBills_run (Number_toString : float -> string) (body : BillBody)
    (dateStr : string) (now : Z) (db : DB) :
  let a := bill_adminUid body in
  postBills Number_toString a body dateStr now db
  = if billRefused Number_toString body dateStr db then (Fail InternalError, db)
    else
      match storedAmounts (billAmounts Number_toString body) with
      | None => (Fail InternalError, db)
      | Some stored =>
          let row := billRow stored body dateStr now db in
          (Json row,
           let db1 := mkDB (tables db) (orders db) (bills db ++ [row]) (salesHistory db)
                        (S (nextId db)) (journal db ++ [SqlInsertBill (nextId db)]) in
           match eval (getTableByNumber a (bill_tableNumber body)) db with
           | Some t => exec (updateTableRows (Table.id t) (setBilling now)) db1
           | None => db1
           end)
      end.
Proof.
  intros a. unfold postBills. fold a. rewrite String.eqb_refl. cbn [negb].
  unfold bind at 1. rewrite getNextBillNumber_eval.
  unfold bind at 1. unfold createBill at 1.
  cbn [ib_billNumber ib_tableNumber ib_subtotal ib_discountPercentage ib_discountAmount
       ib_serviceChargePercentage ib_serviceChargeAmount ib_totalAmount
       ib_adminUid ib_sessionId ib_items ib_isFinal].
  unfold billRefused. fold a.
  change (mkAmounts _ _ _ _ _ _) with (billAmounts Number_toString body).
  destruct (existsb _ (bills db)); [reflexivity|].
  destruct (negb (int4 (bill_tableNumber body))); [reflexivity|].
  cbn [orb].
  destruct (storedAmounts (billAmounts Number_toString body)) as [stored|];
    [|reflexivity].
  unfold bind at 1. unfold getTableByNumber at 1.
  cbn [tables]. unfold eval, getTableByNumber. cbn [fst].
  cbv zeta. unfold billRow. fold a.
  destruct (find _ (tables db)) as [t|]; [|reflexivity].
  unfold bind, ret, exec, updateTable, setBilling.
  destruct (updateTableRows _ _ _). reflexivity.
Qed.

Lemma postBills_accepted (Number_toString : float -> string) (body : BillBody)
    (dateStr : string) (now : Z) (db : DB) :
  billRefused Number_toString body dateStr db = false ->
  exists stored,
    storedAmounts (billAmounts Number_toString body) = Some stored
    /\ postBills Number_toString (bill_adminUid body) body dateStr now db
       = (Json (billRow stored body dateStr now db),
          let db1 := mkDB (tables db) (orders db)
                       (bills db ++ [billRow stored body dateStr now db])
                       (salesHistory db) (S (nextId db))
                       (journal db ++ [SqlInsertBill (nextId db)]) in
          match eval (getTableByNumber (bill_adminUid body) (bill_tableNumber body)) db
          with
          | Some t => exec (updateTableRows (Table.id t) (setBilling now)) db1
          | None => db1
          end).
Proof.
  intros Hok.
  pose proof (postBills_run Number_toString body dateStr now db) as Hrun.
  cbv zeta in Hrun. rewrite Hok in Hrun.
  destruct (storedAmounts (billAmounts Number_toString body)) as [stored|] eqn:Es.
  - exists stored. split; [reflexivity | exact Hrun].
  - exfalso. unfold billRefused in Hok. rewrite Es in Hok.
    rewrite orb_true_r in Hok. discriminate.
Qed.

Lemma postBills_answer (Number_toString : float -> string) (body : BillBody)
    (dateStr : string) (now : Z) (db : DB) (bill : Bill.t) :
  eval (postBills Number_toString (bill_adminUid body) body dateStr now) db = Json bill ->
  billRefused Number_toString body dateStr db = false.
Proof.
  intros Hok.
  pose proof (postBills_run Number_toString body dateStr now db) as Hrun.
  cbv zeta in Hrun. unfold eval in Hok. rewrite Hrun in Hok.
  destruct (billRefused Number_toString body dateStr db); [discriminate | reflexivity].
Qed.



(** X15. Bill numbers are counted per tenant but must be unique over all
    tenants: when two tenants have the same number of bills and one of them
    generates a bill, the other's next bill on the same date gets the same
    number, and that request fails with 500 and writes nothing. *)
Theorem bill_number_collision (ts : float -> string) (bodyA bodyB : BillBody)
    (dateStr : string) (now now2 : Z) (db : DB) (billA : Bill.t) :
  bill_adminUid bodyA <> bill_adminUid bodyB ->
  List.length (billsOf (bill_adminUid bodyA) db)
  = List.length (billsOf (bill_adminUid bodyB) db) ->
  eval (postBills ts (bill_adminUid bodyA) bodyA dateStr now) db = Json billA ->
  let db1 := exec (postBills ts (bill_adminUid bodyA) bodyA dateStr now) db in
  postBills ts (bill_adminUid bodyB) bodyB dateStr now2 db1 = (Fail InternalError, db1).
Proof.
  intros Hne Hlen Hok db1.
  pose proof (postBills_answer ts bodyA dateStr now db billA Hok) as HokA.
  destruct (postBills_accepted ts bodyA dateStr now db HokA) as [stored [_ HrunA]].
  cbv zeta in HrunA.
  set (rowA := billRow stored bodyA dateStr now db) in *.
  assert (Hbills : bills db1 = (bills db ++ [rowA])%list).
  { unfold db1, exec. rewrite HrunA. cbn [snd].
    destruct (eval (getTableByNumber _ _) db); reflexivity. }
  pose proof (postBills_run ts bodyB dateStr now2 db1) as HrunB. cbv zeta in HrunB.
  assert (Hsame : List.length (billsOf (bill_adminUid bodyB) db1)
                  = List.length (billsOf (bill_adminUid bodyB) db)).
  { unfold billsOf. rewrite Hbills, filter_app, length_app.
    assert (E : String.eqb (bill_adminUid bodyA) (bill_adminUid bodyB) = false)
      by (apply String.eqb_neq; exact Hne).
    unfold rowA, billRow. cbn [filter Bill.adminUid]. rewrite E. simpl. lia. }
  assert (Htaken : billRefused ts bodyB dateStr db1 = true).
  { unfold billRefused. rewrite Hsame, <- Hlen.
    rewrite Hbills, existsb_app. unfold rowA, billRow. cbn [existsb Bill.billNumber].
    rewrite String.eqb_refl. rewrite !orb_true_r. reflexivity. }
  rewrite Htaken in HrunB. exact HrunB.
Qed.

Lemma bill_number_collision_witness :
  eval (postBills (fun _ => "") "demo" Scenario.billBody "20251215" 400) Scenario.ordered
  = Json Scenario.bill
  /\ postBills (fun _ => "") "other"
       (mkBillBody "other" "s" 1 [] None None) "20251215" 410
       (exec (postBills (fun _ => "") "demo" Scenario.billBody "20251215" 400)
             Scenario.ordered)
     = (Fail InternalError,
        exec (postBills (fun _ => "") "demo" Scenario.billBody "20251215" 400)
             Scenario.ordered).
Proof.
  assert (Hok : eval (postBills (fun _ => "") (bill_adminUid Scenario.billBody)
                        Scenario.billBody "20251215" 400) Scenario.ordered
                = Json Scenario.bill) by (vm_compute; reflexivity).
  split; [exact Hok|].
  assert (Hne : bill_adminUid Scenario.billBody
                <> bill_adminUid (mkBillBody "other" "s" 1 [] None None))
    by discriminate.
  assert (Hlen : List.length (billsOf (bill_adminUid Scenario.billBody) Scenario.ordered)
                 = List.length
                     (billsOf (bill_adminUid (mkBillBody "other" "s" 1 [] None None))
                        Scenario.ordered)) by reflexivity.
  exact (bill_number_collision (fun _ => "") Scenario.billBody
           (mkBillBody "other" "s" 1 [] None None) "20251215" 400 410
           Scenario.ordered Scenario.bill Hne Hlen Hok).
Defined.

(** X16. When the bill route answers a bill, it has kept the table invariant
    exactly when the billed table was not vacant: on a vacant table it
    leaves status billing with a null session.  A request that is refused
    writes nothing and so keeps the invariant. *)
Theorem generate_bill_invariant (ts : float -> string) (body : BillBody)
    (dateStr : string) (now : Z) (db : DB) :
  let a := bill_adminUid body in
  let n := bill_tableNumber body in
  NoDup (map Table.id (tables db)) ->
  tables_inv db ->
  (forall bill,
      eval (postBills ts a body dateStr now) db = Json bill ->
      (tables_inv (exec (postBills ts a body dateStr now) db)
       <-> forall t, eval (getTableByNumber a n) db = Some t ->
                     Table.status t <> Table.vacant))
  /\ (forall e,
        eval (postBills ts a body dateStr now) db = Fail e ->
        tables_inv (exec (postBills ts a body dateStr now) db)).
Proof.
  intros a n Hnd Hinv.
  pose proof (postBills_run ts body dateStr now db) as Hfull. cbv zeta in Hfull.
  fold a n in Hfull.
  split.
  2:{ intros e He. unfold eval in He. unfold exec. rewrite Hfull in *.
      destruct (billRefused ts body dateStr db); [exact Hinv|].
      destruct (storedAmounts (billAmounts ts body)); [discriminate | exact Hinv]. }
  intros bill Hanswer.
  pose proof (postBills_answer ts body dateStr now db bill Hanswer) as Hok.
  destruct (postBills_accepted ts body dateStr now db Hok) as [stored [_ Hrun]].
  cbv zeta in Hrun. fold a n in Hrun.
  unfold exec at 1. rewrite Hrun. cbn [snd].
  unfold tables_inv in *. rewrite Forall_forall in Hinv.
  destruct (eval (getTableByNumber a n) db) as [t|] eqn:Ht.
  - assert (Hin : In t (tables db)).
    { unfold eval, getTableByNumber in Ht; simpl in Ht.
      apply find_some in Ht. tauto. }
    unfold exec, updateTableRows; simpl. split.
    + intros Hall t0 Ht0 Hvac. inversion Ht0; subst t0.
      rewrite Forall_forall in Hall.
      assert (Hp : In (setBilling now t)
                     (map (fun x => if Nat.eqb (Table.id x) (Table.id t)
                                    then setBilling now x else x) (tables db))).
      { apply in_map_iff. exists t. rewrite Nat.eqb_refl. split; [reflexivity|exact Hin]. }
      specialize (Hall _ Hp). unfold table_inv in Hall; simpl in Hall.
      destruct (Hinv t Hin) as [Hv _]. specialize (Hv Hvac).
      destruct Hall as [_ Hback]. specialize (Hback Hv). discriminate.
    + intros Hnv. specialize (Hnv t eq_refl).
      apply Forall_forall. intros x Hx. apply in_map_iff in Hx.
      destruct Hx as [x0 [Hx0 Hin0]].
      destruct (Nat.eqb (Table.id x0) (Table.id t)) eqn:E.
      * apply Nat.eqb_eq in E.
        assert (x0 = t) by (eapply NoDup_map_inj; eauto). subst x0 x.
        unfold table_inv; simpl. split; [discriminate|].
        intros Hnone. destruct (Hinv t Hin) as [_ Hb]. specialize (Hb Hnone).
        contradiction.
      * subst x. apply Hinv. exact Hin0.
  - simpl. split.
    + intros _ t Ht0. discriminate.
    + intros _. apply Forall_forall. exact Hinv.
Qed.

Lemma generate_bill_invariant_witness :
  tables_inv Scenario.ordered
  /\ NoDup (map Table.id (tables Scenario.ordered))
  /\ tables_inv (exec (postBills (fun _ => "") "demo" Scenario.billBody "20251215" 400)
                      Scenario.ordered)
  /\ ~ tables_inv (exec (postBills (fun _ => "") "demo"
                           (mkBillBody "demo" "s" 5 [] None None) "20251215" 400)
                        Scenario.ordered).
Proof.
  assert (Hinv : tables_inv Scenario.ordered).
  { unfold tables_inv. vm_compute.
    repeat (constructor; [split; intros H; try reflexivity; discriminate H|]).
    constructor. }
  assert (Hnd : NoDup (map Table.id (tables Scenario.ordered))).
  { vm_compute. repeat (constructor; [simpl; intuition discriminate|]). constructor. }
  split; [exact Hinv|]. split; [exact Hnd|]. split.
  - assert (Hans : eval (postBills (fun _ => "") (bill_adminUid Scenario.billBody)
                           Scenario.billBody "20251215" 400) Scenario.ordered
                   = Json Scenario.bill) by (vm_compute; reflexivity).
    apply (proj1 (generate_bill_invariant (fun _ => "") Scenario.billBody "20251215" 400
                    Scenario.ordered Hnd Hinv) Scenario.bill Hans).
    intros t Ht.
    assert (Hs : option_map Table.status
                   (eval (getTableByNumber (bill_adminUid Scenario.billBody)
                            (bill_tableNumber Scenario.billBody)) Scenario.ordered)
                 = Some Table.active) by (vm_compute; reflexivity).
    rewrite Ht in Hs. simpl in Hs. inversion Hs as [E]. rewrite E. discriminate.
  - set (body5 := mkBillBody "demo" "s" 5 [] None None).
    assert (Hans : exists bill,
               eval (postBills (fun _ => "") (bill_adminUid body5) body5 "20251215" 400)
                    Scenario.ordered = Json bill).
    { eexists. vm_compute. reflexivity. }
    destruct Hans as [bill Hans].
    intros Hkept.
    destruct (proj1 (generate_bill_invariant (fun _ => "") body5 "20251215" 400
                       Scenario.ordered Hnd Hinv) bill Hans) as [Hfwd _].
    specialize (Hfwd Hkept). clear Hkept. rename Hfwd into Hkept.
    assert (Hs : exists t,
               eval (getTableByNumber (bill_adminUid body5) (bill_tableNumber body5))
                    Scenario.ordered = Some t
               /\ Table.status t = Table.vacant).
    { eexists. split; vm_compute; reflexivity. }
    destruct Hs as [t [Ht Hv]]. exact (Hkept t Ht Hv).
Defined.

(** ** Who may write what *)

(** X17. The protected routes refuse a tenant that does not own the row:
    reset, cancel, regenerate-otp and the table patch on a table of another
    tenant, the two order patches on an order of another tenant, finalize on
    a bill of another tenant and bill generation in another tenant's name
    all answer 403 and leave the store as it was. *)
Theorem foreign_tenant_rejected (req : string) (db : DB) :
  (forall id t, eval (getTable id) db = Some t -> Table.adminUid t <> req ->
     forall r now data,
       postTableReset req id r now db = (Fail Forbidden, db)
       /\ postTableCancel req id r now db = (Fail Forbidden, db)
       /\ postTableRegenerateOtp req id r now db = (Fail Forbidden, db)
       /\ patchTable req id data now db = (Fail Forbidden, db))
  /\ (forall id o, eval (getOrder id) db = Some o -> Order.adminUid o <> req ->
        forall itemIndex status body now,
          patchOrderItem req id itemIndex status now db = (Fail Forbidden, db)
          /\ patchOrder req id body now db = (Fail Forbidden, db))
  /\ (forall id b, eval (getBill id) db = Some b -> Bill.adminUid b <> req ->
        forall r now, postBillFinalize req id r now db = (Fail Forbidden, db))
  /\ (forall ts body dateStr now, bill_adminUid body <> req ->
        postBills ts req body dateStr now db = (Fail Forbidden, db)).
Proof.
  split; [|split; [|split]].
  - intros id t Hget Hne r now data.
    unfold eval, getTable in Hget; simpl in Hget. apply String.eqb_neq in Hne.
    unfold postTableReset, postTableCancel, postTableRegenerateOtp, patchTable, bind.
    unfold getTable. rewrite Hget, Hne. repeat split; reflexivity.
  - intros id o Hget Hne itemIndex status body now.
    unfold eval, getOrder in Hget; simpl in Hget. apply String.eqb_neq in Hne.
    unfold patchOrderItem, patchOrder, bind. unfold getOrder. rewrite Hget, Hne.
    split; reflexivity.
  - intros id b Hget Hne r now.
    unfold eval, getBill in Hget; simpl in Hget.
    apply not_eq_sym in Hne. apply String.eqb_neq in Hne.
    unfold postBillFinalize, bind. unfold getBill. rewrite Hget, Hne. reflexivity.
  - intros ts body dateStr now Hne.
    apply not_eq_sym in Hne. apply String.eqb_neq in Hne.
    unfold postBills. rewrite Hne. reflexivity.
Qed.

Lemma foreign_tenant_rejected_witness :
  postTableCancel "other" 2 (1 # 2) 250 Scenario.joined = (Fail Forbidden, Scenario.joined)
  /\ postBillFinalize "other" 11 (1 # 2) 500 Scenario.billed
     = (Fail Forbidden, Scenario.billed).
Proof.
  destruct (foreign_tenant_rejected "other" Scenario.joined) as [H1 _].
  destruct (foreign_tenant_rejected "other" Scenario.billed) as [_ [_ [H3 _]]].
  assert (Hne : Table.adminUid Scenario.table3 <> "other") by discriminate.
  assert (Hne2 : Bill.adminUid Scenario.bill <> "other") by discriminate.
  split.
  - destruct (H1 2%nat Scenario.table3 eq_refl Hne (1 # 2) 250
                (mkTablePatch None None)) as [_ [H _]]. exact H.
  - exact (H3 11%nat Scenario.bill eq_refl Hne2 (1 # 2) 500).
Defined.



(** X19. The two vacancy checks agree and mean what they say:
    [hasNonVacantTables] is the negation of [areAllTablesVacant], which
    holds exactly when every table of the tenant is vacant (other tenants'
    tables do not count); right after [initializeTables] for a tenant that
    had no tables, all its tables are vacant. *)
Theorem vacancy_checks (a : string) (db : DB) :
  eval (hasNonVacantTables a) db = negb (eval (areAllTablesVacant a) db)
  /\ (eval (areAllTablesVacant a) db = true
      <-> forall t, In t (tables db) -> Table.adminUid t = a ->
                    Table.status t = Table.vacant)
  /\ (forall count rs now,
        tablesOf a db = [] ->
        eval (areAllTablesVacant a) (exec (initializeTables a count rs now) db) = true).
Proof.
  assert (Hiff : forall d,
             eval (areAllTablesVacant a) d = true
             <-> forall t, In t (tables d) -> Table.adminUid t = a ->
                           Table.status t = Table.vacant).
  { intros d. unfold eval, areAllTablesVacant, bind, getTablesByAdminUid, ret; simpl.
    rewrite forallb_forall. split.
    - intros H t Hin Ha.
      assert (Hf : In t (filter (fun x => String.eqb (Table.adminUid x) a) (tables d))).
      { apply filter_In. split; [exact Hin | apply String.eqb_eq; exact Ha]. }
      specialize (H t Hf). destruct (Table.status t); try discriminate; reflexivity.
    - intros H t Hin. apply filter_In in Hin. destruct Hin as [Hin Ha].
      apply String.eqb_eq in Ha. rewrite (H t Hin Ha). reflexivity. }
  split; [|split].
  - unfold eval, hasNonVacantTables, areAllTablesVacant, bind, getTablesByAdminUid, ret.
    simpl. generalize (filter (fun t => String.eqb (Table.adminUid t) a) (tables db)).
    intros l. induction l as [|x l IH]; simpl; [reflexivity|].
    rewrite IH, negb_andb. reflexivity.
  - apply Hiff.
  - intros count rs now Hnone. apply Hiff. intros t Hin Ha.
    rewrite initializeTables_run in Hin. cbv zeta in Hin. cbn [tables] in Hin.
    apply in_app_or in Hin. destruct Hin as [Hin|Hin].
    + exfalso.
      assert (Hf : In t (tablesOf a db)).
      { unfold tablesOf. apply filter_In. split; [exact Hin|].
        apply String.eqb_eq. exact Ha. }
      rewrite Hnone in Hf. contradiction.
    + pose proof (missingRows_shape a (map Table.tableNumber (tablesOf a db)) rs now
                    (upTo count) (nextId db)) as Hs.
      rewrite Forall_forall in Hs. destruct (Hs t Hin) as [_ [Hv _]]. exact Hv.
Qed.

Lemma vacancy_checks_witness :
  tablesOf "demo" emptyDB = []
  /\ eval (areAllTablesVacant "demo")
          (exec (initializeTables "demo" 10 (fun _ => Scenario.draw) 100) emptyDB)
     = true
  /\ eval (hasNonVacantTables "demo") Scenario.joined = true.
Proof.
  split; [reflexivity|]. split.
  - destruct (vacancy_checks "demo" emptyDB) as [_ [_ H]].
    exact (H 10 (fun _ => Scenario.draw) 100 eq_refl).
  - destruct (vacancy_checks "demo" Scenario.joined) as [H _].
    rewrite H. vm_compute. reflexivity.
Defined.

(** ** What finalizing leaves alone *)

(** X20. Finalizing a bill does not touch the items of any order (an item
    that was pending or rejected stays so inside a completed order), and,
    order ids being distinct, it leaves every order of another session and
    every other bill exactly as it was. *)
Theorem finalize_frame (id : nat) (r : Q) (now : Z) (db : DB) (bill : Bill.t) :
  eval (getBill id) db = Some bill ->
  NoDup (map Order.id (orders db)) ->
  let db' := exec (postBillFinalize (Bill.adminUid bill) id r now) db in
  map Order.items (orders db') = map Order.items (orders db)
  /\ (forall o, In o (orders db) -> Order.sessionId o <> Bill.sessionId bill ->
                In o (orders db'))
  /\ (forall b, In b (bills db) -> Bill.id b <> Bill.id bill -> In b (bills db')).
Proof.
  intros Hget Hnd db'. unfold db', exec.
  rewrite (postBillFinalize_run (Bill.adminUid bill) id r now db bill Hget eq_refl).
  cbn [snd orders bills]. split; [|split].
  - rewrite map_map. apply map_ext. intros o.
    destruct (existsb _ _); reflexivity.
  - intros o Hin Hs. apply in_map_iff. exists o. split; [|exact Hin].
    destruct (existsb (fun x => Nat.eqb (Order.id o) (Order.id x))
                (eval (getOrdersBySessionId (Bill.sessionId bill)) db)) eqn:E;
      [|reflexivity].
    exfalso. apply existsb_exists in E. destruct E as [x [Hx Hid]].
    unfold eval, getOrdersBySessionId in Hx; simpl in Hx.
    apply In_orderBy_desc in Hx. apply filter_In in Hx. destruct Hx as [Hx Hsx].
    apply Nat.eqb_eq in Hid. apply String.eqb_eq in Hsx.
    assert (o = x) by (eapply NoDup_map_inj; eauto). subst x. contradiction.
  - intros b Hin Hid. apply in_map_iff. exists b. split; [|exact Hin].
    apply Nat.eqb_neq in Hid. rewrite Hid. reflexivity.
Qed.

Lemma finalize_frame_witness :
  NoDup (map Order.id (orders Scenario.billed))
  /\ map Order.items (orders Scenario.finalized)
     = [[OrderItem.mk "item-a" "A" "120.00" 2%float OrderItem.pending]].
Proof.
  assert (Hnd : NoDup (map Order.id (orders Scenario.billed))).
  { vm_compute. constructor; [intros []|constructor]. }
  split; [exact Hnd|].
  destruct (finalize_frame 11 (1 # 2) 500 Scenario.billed Scenario.bill eq_refl Hnd)
    as [H _].
  exact H.
Defined.

(** ** The cart *)

Lemma cartIds_addToCart (m : MenuItem) (c : list CartItem) :
  cartIds (addToCart m c)
  = if existsb (String.eqb (menu_id m)) (cartIds c) then cartIds c
    else (cartIds c ++ [menu_id m])%list.
Proof.
  unfold addToCart.
  assert (E : existsb (String.eqb (menu_id m)) (cartIds c)
              = match find (sameMenuItem (menu_id m)) c with
                | Some _ => true | None => false end).
  { induction c as [|x c IH]; simpl; [reflexivity|].
    unfold sameMenuItem at 1. rewrite (String.eqb_sym (menu_id m)).
    destruct (String.eqb (menu_id (menuItem x)) (menu_id m)); [reflexivity | exact IH]. }
  rewrite E. destruct (find (sameMenuItem (menu_id m)) c).
  - unfold cartIds. rewrite map_map. apply map_ext. intros x.
    destruct (sameMenuItem (menu_id m) x); reflexivity.
  - unfold cartIds. rewrite map_app. reflexivity.
Qed.

Lemma cartIds_removeFromCart (id : string) (c : list CartItem) :
  cartIds (removeFromCart id c)
  = filter (fun x => negb (String.eqb x id)) (cartIds c).
Proof.
  unfold removeFromCart, cartIds, sameMenuItem.
  induction c as [|x c IH]; simpl; [reflexivity|].
  destruct (String.eqb (menu_id (menuItem x)) id); simpl; [exact IH | f_equal; exact IH].
Qed.

Lemma cartIds_updateQuantity (id : string) (qty : float) (c : list CartItem) :
  cartIds (updateQuantity id qty c)
  = if (qty <=? 0)%float then filter (fun x => negb (String.eqb x id)) (cartIds c)
    else cartIds c.
Proof.
  unfold updateQuantity. destruct (qty <=? 0)%float.
  - apply cartIds_removeFromCart.
  - unfold cartIds. rewrite map_map. apply map_ext. intros x.
    destruct (sameMenuItem id x); reflexivity.
Qed.

Lemma runCartOp_distinct (op : CartOp) (c : list CartItem) :
  NoDup (cartIds c) -> NoDup (cartIds (runCartOp op c)).
Proof.
  intros H. destruct op as [m|id|id qty|]; simpl.
  - rewrite cartIds_addToCart.
    destruct (existsb (String.eqb (menu_id m)) (cartIds c)) eqn:E; [exact H|].
    apply NoDup_app_disjoint; [exact H | constructor; [intros []|constructor] |].
    intros x Hx [Hm|[]]. subst x.
    assert (Ht : existsb (String.eqb (menu_id m)) (cartIds c) = true).
    { apply existsb_exists. exists (menu_id m). split; [exact Hx|apply String.eqb_refl]. }
    congruence.
  - rewrite cartIds_removeFromCart. apply NoDup_filter. exact H.
  - rewrite cartIds_updateQuantity. destruct (qty <=? 0)%float; [|exact H].
    apply NoDup_filter. exact H.
  - constructor.
Qed.

(** X21. The cart never holds two lines for one menu item: adding, removing,
    changing a quantity and clearing keep the menu item ids of the lines
    distinct, so the order the page sends has one line per menu item. *)
Theorem cart_lines_distinct (ops : list CartOp) (cart : list CartItem) :
  NoDup (cartIds cart) ->
  NoDup (cartIds (runCart ops cart))
  /\ NoDup (map OrderItem.menuItemId (orderItems (runCart ops cart))).
Proof.
  intros H.
  assert (Hd : NoDup (cartIds (runCart ops cart))).
  { revert cart H. induction ops as [|op ops IH]; intros cart H; simpl; [exact H|].
    apply IH. apply runCartOp_distinct. exact H. }
  split; [exact Hd|].
  unfold orderItems. rewrite map_map. exact Hd.
Qed.

Lemma cart_lines_distinct_witness :
  NoDup (cartIds [])
  /\ NoDup (cartIds (runCart [AddToCart (mkMenuItem "item-a" "A" "120.00");
                              AddToCart (mkMenuItem "item-b" "B" "80.00");
                              AddToCart (mkMenuItem "item-a" "A" "120.00")] [])).
Proof.
  assert (H : NoDup (cartIds [])) by constructor.
  split; [exact H|].
  exact (proj1 (cart_lines_distinct
                  [AddToCart (mkMenuItem "item-a" "A" "120.00");
                   AddToCart (mkMenuItem "item-b" "B" "80.00");
                   AddToCart (mkMenuItem "item-a" "A" "120.00")] [] H)).
Defined.

Lemma removeFromCart_absent (id : string) (c : list CartItem) :
  find (sameMenuItem id) c = None -> removeFromCart id c = c.
Proof.
  unfold removeFromCart. induction c as [|x c IH]; simpl; [reflexivity|].
  destruct (sameMenuItem id x); [discriminate|]. intros H. simpl. f_equal. apply IH, H.
Qed.

(** X22. Removing a menu item from the cart leaves no line for it and keeps
    every other line; setting a quantity of zero or less does the same; and
    removing what was just added gives back the cart without that item --
    the cart itself when the item was not in it. *)
Theorem cart_remove (id : string) (c : list CartItem) :
  find (sameMenuItem id) (removeFromCart id c) = None
  /\ (forall item, In item c -> menu_id (menuItem item) <> id ->
                   In item (removeFromCart id c))
  /\ (forall qty, (qty <=? 0)%float = true ->
                  find (sameMenuItem id) (updateQuantity id qty c) = None)
  /\ (forall m, menu_id m = id ->
        removeFromCart id (addToCart m c) = removeFromCart id c
        /\ (find (sameMenuItem id) c = None -> removeFromCart id (addToCart m c) = c)).
Proof.
  assert (Hnone : forall c0, find (sameMenuItem id) (removeFromCart id c0) = None).
  { intros c0. unfold removeFromCart. induction c0 as [|x c0 IH]; simpl; [reflexivity|].
    destruct (sameMenuItem id x) eqn:E; simpl; [exact IH | rewrite E; exact IH]. }
  split; [apply Hnone|]. split.
  - intros item Hin Hne. unfold removeFromCart. apply filter_In. split; [exact Hin|].
    unfold sameMenuItem. apply String.eqb_neq in Hne. rewrite Hne. reflexivity.
  - split.
    + intros qty Hq. unfold updateQuantity. rewrite Hq. apply Hnone.
    + intros m Hm. subst id.
      assert (Heq : removeFromCart (menu_id m) (addToCart m c)
                    = removeFromCart (menu_id m) c).
      { unfold addToCart. destruct (find (sameMenuItem (menu_id m)) c).
        - unfold removeFromCart. induction c as [|x c IH]; simpl; [reflexivity|].
          destruct (sameMenuItem (menu_id m) x) eqn:E; simpl.
          + unfold sameMenuItem in *. simpl. rewrite E. simpl. exact IH.
          + rewrite E. simpl. f_equal. exact IH.
        - unfold removeFromCart. rewrite filter_app. simpl.
          unfold sameMenuItem at 2. simpl. rewrite String.eqb_refl. simpl.
          apply app_nil_r. }
      split; [exact Heq|].
      intros Habs. rewrite Heq. apply removeFromCart_absent. exact Habs.
Qed.

Lemma cart_remove_witness :
  (0 <=? 0)%float = true
  /\ find (sameMenuItem "item-a") (updateQuantity "item-a" 0%float Scenario.cart) = None
  /\ removeFromCart "item-b"
       (addToCart (mkMenuItem "item-b" "B" "80.00") Scenario.cart) = Scenario.cart.
Proof.
  destruct (cart_remove "item-a" Scenario.cart) as [_ [_ [H3 _]]].
  destruct (cart_remove "item-b" Scenario.cart) as [_ [_ [_ H4]]].
  split; [reflexivity|]. split.
  - exact (H3 0%float eq_refl).
  - destruct (H4 (mkMenuItem "item-b" "B" "80.00") eq_refl) as [_ H]. exact (H eq_refl).
Defined.

(** ** The billing page *)

Lemma bumpFirst_ids (id : string) (qty : float) (items : list BillItem.t) :
  map BillItem.menuItemId (bumpFirst id qty items) = map BillItem.menuItemId items.
Proof.
  induction items as [|i rest IH]; simpl; [reflexivity|].
  destruct (String.eqb (BillItem.menuItemId i) id); simpl; [reflexivity|].
  f_equal. exact IH.
Qed.

Lemma find_id_existsb (id : string) (items : list BillItem.t) :
  match find (fun i => String.eqb (BillItem.menuItemId i) id) items with
  | Some _ => true | None => false end
  = existsb (String.eqb id) (map BillItem.menuItemId items).
Proof.
  induction items as [|i rest IH]; simpl; [reflexivity|].
  rewrite (String.eqb_sym id).
  destruct (String.eqb (BillItem.menuItemId i) id); [reflexivity | exact IH].
Qed.

Lemma addBillable_ids (items : list BillItem.t) (item : OrderItem.t) :
  map BillItem.menuItemId (addBillable items item)
  = if isBillable (OrderItem.status item)
       && negb (existsb (String.eqb (OrderItem.menuItemId item))
                        (map BillItem.menuItemId items))
    then (map BillItem.menuItemId items ++ [OrderItem.menuItemId item])%list
    else map BillItem.menuItemId items.
Proof.
  unfold addBillable. destruct (isBillable (OrderItem.status item)); simpl; [|reflexivity].
  rewrite <- find_id_existsb.
  destruct (find _ items); simpl.
  - apply bumpFirst_ids.
  - rewrite map_app. reflexivity.
Qed.

Lemma existsb_string_In (x : string) (l : list string) :
  existsb (String.eqb x) l = true <-> In x l.
Proof.
  rewrite existsb_exists. split.
  - intros [y [Hin Hy]]. apply String.eqb_eq in Hy. subst. exact Hin.
  - intros Hin. exists x. split; [exact Hin | apply String.eqb_refl].
Qed.

Lemma fold_addBillable (l : list OrderItem.t) (acc : list BillItem.t) :
  NoDup (map BillItem.menuItemId acc) ->
  NoDup (map BillItem.menuItemId (fold_left addBillable l acc))
  /\ (forall id, In id (map BillItem.menuItemId (fold_left addBillable l acc))
                 <-> In id (map BillItem.menuItemId acc)
                     \/ exists item, In item l /\ isBillable (OrderItem.status item) = true
                                     /\ OrderItem.menuItemId item = id).
Proof.
  revert acc. induction l as [|x l IH]; intros acc Hnd; simpl.
  - split; [exact Hnd|]. intros id. split; [auto|]. intros [H|[item [[] _]]]. exact H.
  - assert (Hids := addBillable_ids acc x).
    assert (Hnd' : NoDup (map BillItem.menuItemId (addBillable acc x))).
    { rewrite Hids.
      destruct (isBillable (OrderItem.status x)); simpl; [|exact Hnd].
      destruct (existsb _ _) eqn:E; simpl; [exact Hnd|].
      apply NoDup_app_disjoint; [exact Hnd | constructor; [intros []|constructor] |].
      intros y Hy [Hm|[]]. subst y.
      apply existsb_string_In in Hy. congruence. }
    destruct (IH _ Hnd') as [H1 H2]. split; [exact H1|].
    intros id. rewrite H2, Hids. split.
    + intros [Hin|[item [Hin [Hb Hid]]]].
      * destruct (isBillable (OrderItem.status x)) eqn:Eb; simpl in Hin; [|left; exact Hin].
        destruct (existsb _ _) eqn:E; simpl in Hin; [left; exact Hin|].
        apply in_app_or in Hin. destruct Hin as [Hin|[Hin|[]]]; [left; exact Hin|].
        right. exists x. split; [left; reflexivity | split; assumption].
      * right. exists item. split; [right; exact Hin | split; assumption].
    + intros [Hin|[item [[Hx|Hin] [Hb Hid]]]].
      * left. destruct (isBillable (OrderItem.status x) && _); [|exact Hin].
        apply in_or_app. left. exact Hin.
      * subst item. left. rewrite Hb. simpl.
        destruct (existsb _ _) eqn:E; simpl.
        -- apply existsb_string_In in E. rewrite <- Hid. exact E.
        -- apply in_or_app. right. left. exact Hid.
      * right. exists item. split; [exact Hin | split; assumption].
Qed.

Lemma billableItems_flat (os : list Order.t) (acc : list BillItem.t) :
  fold_left (fun items order => fold_left addBillable (Order.items order) items) os acc
  = fold_left addBillable (flat_map Order.items os) acc.
Proof.
  revert acc. induction os as [|o os IH]; intros acc; simpl; [reflexivity|].
  rewrite IH, fold_left_app. reflexivity.
Qed.

(** X23. The items the billing page offers for a bill: one line per menu
    item id, and a menu item is on the list exactly when an active order of
    the selected table has an item of it that is accepted, processing or
    completed -- an item that is only pending or rejected is never billed;
    nothing is offered when no table is selected. *)
Theorem billable_items_spec (selectedTable : string) (orders : list Order.t) :
  let items := billableItems (tableOrders selectedTable orders) in
  NoDup (map BillItem.menuItemId items)
  /\ (forall id,
        In id (map BillItem.menuItemId items)
        <-> selectedTable <> ""
            /\ exists o item,
                 In o orders /\ Order.orderStatus o = "active"
                 /\ Js.String_of_Z (Order.tableNumber o) = selectedTable
                 /\ In item (Order.items o)
                 /\ (OrderItem.status item = OrderItem.accepted
                     \/ OrderItem.status item = OrderItem.processing
                     \/ OrderItem.status item = OrderItem.completed)
                 /\ OrderItem.menuItemId item = id).
Proof.
  intros items. unfold items, billableItems. rewrite billableItems_flat.
  destruct (fold_addBillable (flat_map Order.items (tableOrders selectedTable orders)) [])
    as [Hnd Hiff]; [constructor|].
  split; [exact Hnd|].
  intros id. rewrite Hiff. split.
  - intros [[]|[item [Hin [Hb Hid]]]].
    apply in_flat_map in Hin. destruct Hin as [o [Ho Hitem]].
    unfold tableOrders in Ho.
    destruct (String.eqb selectedTable "") eqn:Es; [contradiction|].
    apply filter_In in Ho. destruct Ho as [Ho Hc].
    apply andb_true_iff in Hc. destruct Hc as [Hn Hs].
    apply String.eqb_eq in Hn, Hs. apply String.eqb_neq in Es.
    split; [exact Es|]. exists o, item. repeat split; try assumption.
    destruct (OrderItem.status item); try discriminate; auto.
  - intros [Hsel [o [item [Ho [Hs [Hn [Hitem [Hst Hid]]]]]]]].
    right. exists item. split; [|split; [|exact Hid]].
    + apply in_flat_map. exists o. split; [|exact Hitem].
      unfold tableOrders. apply String.eqb_neq in Hsel. rewrite Hsel.
      apply filter_In. split; [exact Ho|].
      apply andb_true_iff. split; apply String.eqb_eq; assumption.
    + destruct Hst as [H|[H|H]]; rewrite H; reflexivity.
Qed.

Lemma or0_idempotent (x : option float) : Js.or0 (Some (Js.or0 x)) = Js.or0 x.
Proof.
  destruct x as [v|]; [|reflexivity].
  cbn [Js.or0]. destruct (PrimFloat.is_nan v || PrimFloat.is_zero v) eqn:E.
  - reflexivity.
  - rewrite E. reflexivity.
Qed.

(** X24. The bill the server stores is what the billing page showed: on the
    items and the two percentages that the page puts in its request, the
    subtotal, discount, service charge and total the route stores are the
    two-decimal renderings of the numbers the page computed for its preview.
    (The values are taken as the page builds them; the encoding of the
    request body by [apiRequest] is outside this development.) *)
Theorem preview_matches_bill (Number_toString : float -> string)
    (items : list BillItem.t) (discountPercentage serviceChargePercentage : string) :
  calculateTotals Number_toString items
    (Some (pagePercentage discountPercentage))
    (Some (pagePercentage serviceChargePercentage))
  = mkTotals
      (Js.toFixed2 Number_toString (pageSubtotal items))
      (Js.toFixed2 Number_toString (pagePercentage discountPercentage))
      (Js.toFixed2 Number_toString (pageDiscountAmount items discountPercentage))
      (Js.toFixed2 Number_toString (pagePercentage serviceChargePercentage))
      (Js.toFixed2 Number_toString
         (pageServiceChargeAmount items discountPercentage serviceChargePercentage))
      (Js.toFixed2 Number_toString
         (pageTotalAmount items discountPercentage serviceChargePercentage)).
Proof.
  unfold calculateTotals, pageTotalAmount, pageServiceChargeAmount, pageDiscountAmount,
    pageSubtotal, pagePercentage.
  rewrite !or0_idempotent. reflexivity.
Qed.

(** ** Pairing suggestions *)

Lemma firstn_In {A} (n : nat) (l : list A) (x : A) : In x (firstn n l) -> In x l.
Proof.
  revert l. induction n as [|n IH]; intros [|y l]; simpl; try tauto.
  intros [H|H]; [left; exact H | right; apply IH; exact H].
Qed.

(** X25. Whatever the model answers, the suggestion route returns at most
    three suggestions, each naming an available item of the tenant's own menu
    that is neither the selected item nor in the cart and that the model
    did name, together with that item's row; it returns none when the model
    call fails. *)
Theorem suggestions_are_valid (menu : list MenuRow) (adminUid selectedItemId : string)
    (cartItemIds : list string) (answer : option (list Suggestion))
    (result : list (Suggestion * MenuRow)) :
  postSuggestions menu adminUid selectedItemId cartItemIds answer = Json result ->
  (List.length result <= 3)%nat
  /\ (answer = None -> result = [])
  /\ (forall s row, In (s, row) result ->
        In row menu /\ row_id row = itemId s /\ row_adminUid row = adminUid
        /\ row_isAvailable row = true
        /\ itemId s <> selectedItemId /\ ~ In (itemId s) cartItemIds
        /\ exists suggestions, answer = Some suggestions /\ In s suggestions).
Proof.
  unfold postSuggestions.
  destruct (String.eqb adminUid "" || String.eqb selectedItemId ""); [discriminate|].
  destruct (find (fun item => String.eqb (row_id item) selectedItemId) menu)
    as [sel|] eqn:Esel; [|discriminate].
  apply find_some in Esel. destruct Esel as [_ Hselid]. apply String.eqb_eq in Hselid.
  rewrite Hselid.
  set (avail := filter row_isAvailable
                  (filter (fun item => String.eqb (row_adminUid item) adminUid) menu)).
  set (sugg := getAIPairingSuggestions selectedItemId (map row_id avail) cartItemIds answer).
  intros Hres. inversion Hres as [Hr]. clear Hres.
  assert (Hlen : (List.length sugg <= 3)%nat).
  { unfold sugg, getAIPairingSuggestions.
    destruct (Nat.eqb _ 0); [simpl; lia|].
    destruct answer; [|simpl; lia]. rewrite length_firstn. lia. }
  assert (Hnone : answer = None -> sugg = []).
  { intros ->. unfold sugg, getAIPairingSuggestions.
    destruct (Nat.eqb _ 0); reflexivity. }
  assert (Hs : forall s, In s sugg ->
             itemId s <> selectedItemId /\ ~ In (itemId s) cartItemIds
             /\ exists suggestions, answer = Some suggestions /\ In s suggestions).
  { intros s Hin. unfold sugg, getAIPairingSuggestions in Hin.
    destruct (Nat.eqb _ 0); [contradiction|].
    destruct answer as [l|]; [|contradiction].
    apply firstn_In in Hin. apply filter_In in Hin. destruct Hin as [Hin Hex].
    apply existsb_exists in Hex. destruct Hex as [id [Hid Heq]].
    apply String.eqb_eq in Heq. subst id.
    apply filter_In in Hid. destruct Hid as [_ Hc].
    apply andb_true_iff in Hc. destruct Hc as [Hne Hcart].
    apply negb_true_iff in Hne, Hcart. apply String.eqb_neq in Hne.
    split; [exact Hne|]. split.
    - intros Hc. apply existsb_string_In in Hc. congruence.
    - exists l. split; [reflexivity | exact Hin]. }
  split; [|split].
  - clear Hnone Hs. revert Hlen. generalize sugg. intros l. clear.
    intros Hlen.
    assert (H : forall l0 : list Suggestion,
               (List.length
                  (flat_map (fun s =>
                     match find (fun item => String.eqb (row_id item) (itemId s)) avail with
                     | Some fullItem => [(s, fullItem)]
                     | None => []
                     end) l0) <= List.length l0)%nat).
    { induction l0 as [|s l0 IH]; simpl; [lia|].
      rewrite length_app. destruct (find _ avail); simpl; lia. }
    specialize (H l). lia.
  - intros Ha. rewrite (Hnone Ha). reflexivity.
  - intros s row Hin. apply in_flat_map in Hin. destruct Hin as [s0 [Hs0 Hin]].
    destruct (find (fun item => String.eqb (row_id item) (itemId s0)) avail)
      as [full|] eqn:Ef; [|contradiction].
    destruct Hin as [Hin|[]]. inversion Hin; subst s0 full.
    apply find_some in Ef. destruct Ef as [Hav Hid]. apply String.eqb_eq in Hid.
    unfold avail in Hav. apply filter_In in Hav. destruct Hav as [Hav Hisav].
    apply filter_In in Hav. destruct Hav as [Hmenu Hown]. apply String.eqb_eq in Hown.
    destruct (Hs s Hs0) as [H1 [H2 H3]].
    repeat split; assumption.
Qed.

Lemma suggestions_are_valid_witness :
  postSuggestions
    [mkMenuRow "item-a" "demo" "A" true; mkMenuRow "item-b" "demo" "B" true;
     mkMenuRow "item-c" "demo" "C" false]
    "demo" "item-a" []
    (Some [mkSuggestion "item-b" "B" "goes well"; mkSuggestion "item-c" "C" "sweet";
           mkSuggestion "item-z" "Z" "made up"])
  = Json [(mkSuggestion "item-b" "B" "goes well", mkMenuRow "item-b" "demo" "B" true)]
  /\ (List.length [(mkSuggestion "item-b" "B" "goes well",
                    mkMenuRow "item-b" "demo" "B" true)] <= 3)%nat.
Proof.
  assert (H : postSuggestions
    [mkMenuRow "item-a" "demo" "A" true; mkMenuRow "item-b" "demo" "B" true;
     mkMenuRow "item-c" "demo" "C" false]
    "demo" "item-a" []
    (Some [mkSuggestion "item-b" "B" "goes well"; mkSuggestion "item-c" "C" "sweet";
           mkSuggestion "item-z" "Z" "made up"])
  = Json [(mkSuggestion "item-b" "B" "goes well", mkMenuRow "item-b" "demo" "B" true)])
    by reflexivity.
  split; [exact H|].
  exact (proj1 (suggestions_are_valid _ _ _ _ _ _ H)).
Defined.

(** ** Today's sales *)

(** X26. Every authorized finalize call on an existing bill raises the order
    count that the tenant's summary of today reports by one when it falls
    between the two midnights -- also when the bill was finalized before --
    and changes no other tenant's summary. *)
Theorem today_counts_every_finalize (a : string) (id : nat) (r : Q)
    (now today tomorrow : Z) (db : DB) (bill : Bill.t) :
  eval (getBill id) db = Some bill ->
  Bill.adminUid bill = a ->
  today <= now <= tomorrow ->
  let db' := exec (postBillFinalize a id r now) db in
  (exists before after,
      eval (getAnalyticsToday a a today tomorrow) db = Json before
      /\ eval (getAnalyticsToday a a today tomorrow) db' = Json after
      /\ orderCount after = S (orderCount before))
  /\ (forall other, other <> a ->
        eval (getTodaySales other today tomorrow) db'
        = eval (getTodaySales other today tomorrow) db).
Proof.
  intros Hget Ha Hnow db'. unfold db', exec.
  rewrite (postBillFinalize_run a id r now db bill Hget (eq_sym Ha)).
  unfold getAnalyticsToday. rewrite String.eqb_refl. cbn [negb].
  unfold eval, getTodaySales, bind, getSalesHistoryByDateRange, ret.
  cbn [fst snd salesHistory orderCount]. split.
  - eexists. eexists. split; [reflexivity|]. split; [reflexivity|].
    cbn [orderCount].
    rewrite !length_orderBy_desc, filter_app, length_app.
    cbn [filter SalesHistory.adminUid SalesHistory.createdAt].
    rewrite Ha, String.eqb_refl.
    replace (today <=? now) with true by (symmetry; apply Z.leb_le; lia).
    replace (now <=? tomorrow) with true by (symmetry; apply Z.leb_le; lia).
    simpl. lia.
  - intros other Hother. rewrite filter_app.
    cbn [filter SalesHistory.adminUid SalesHistory.createdAt].
    rewrite Ha. apply not_eq_sym in Hother. apply String.eqb_neq in Hother.
    rewrite Hother. cbn [andb]. rewrite app_nil_r. reflexivity.
Qed.

Lemma today_counts_every_finalize_witness :
  eval (getBill 11) Scenario.finalized = Some (setIsFinal true Scenario.bill)
  /\ (0 <= 600 <= 86400000)
  /\ exists before after,
       eval (getAnalyticsToday "demo" "demo" 0 86400000) Scenario.finalized = Json before
       /\ eval (getAnalyticsToday "demo" "demo" 0 86400000)
               (exec (postBillFinalize "demo" 11 (1 # 2) 600) Scenario.finalized)
          = Json after
       /\ orderCount after = S (orderCount before).
Proof.
  assert (Hget : eval (getBill 11) Scenario.finalized
                 = Some (setIsFinal true Scenario.bill)) by (vm_compute; reflexivity).
  assert (Hnow : 0 <= 600 <= 86400000) by lia.
  assert (Ha : Bill.adminUid (setIsFinal true Scenario.bill) = "demo")
    by (vm_compute; reflexivity).
  split; [exact Hget|]. split; [exact Hnow|].
  apply (today_counts_every_finalize "demo" 11 (1 # 2) 600 0 86400000
           Scenario.finalized (setIsFinal true Scenario.bill) Hget Ha Hnow).
Defined.

(** ** Restaurant settings *)

Lemma updateRestaurant_found (a : string) (data : RestaurantPatch) (now : Z)
    (restaurants : list Restaurant.t) (restaurant : Restaurant.t) :
  fst (updateRestaurant a data now restaurants) = Some restaurant ->
  Restaurant.adminUid restaurant = a
  /\ exists cur, getRestaurantByAdminUid a restaurants = Some cur.
Proof.
  unfold updateRestaurant, getRestaurantByAdminUid. cbn [fst]. intros H.
  split.
  - apply find_some in H. destruct H as [_ H]. apply String.eqb_eq in H. exact H.
  - induction restaurants as [|x l IH]; simpl in *; [discriminate|].
    destruct (String.eqb (Restaurant.adminUid x) a) eqn:E.
    + exists x. reflexivity.
    + rewrite E in H. apply IH. exact H.
Qed.

Lemma updateRestaurant_missing (a : string) (data : RestaurantPatch) (now : Z)
    (restaurants : list Restaurant.t) :
  fst (updateRestaurant a data now restaurants) = None ->
  snd (updateRestaurant a data now restaurants) = restaurants.
Proof.
  unfold updateRestaurant. cbn [fst snd].
  induction restaurants as [|x l IH]; simpl; [reflexivity|].
  destruct (String.eqb (Restaurant.adminUid x) a) eqn:E.
  - simpl. rewrite E. discriminate.
  - rewrite E. intros H. f_equal. apply IH. exact H.
Qed.

Lemma hasNonVacantTables_false (a : string) (db : DB) (t : Table.t) :
  eval (hasNonVacantTables a) db = false ->
  In t (tables db) -> Table.adminUid t = a -> Table.status t = Table.vacant.
Proof.
  unfold eval, hasNonVacantTables, bind, getTablesByAdminUid, ret. simpl.
  intros H Hin Ha.
  destruct (Table.status_eqb (Table.status t) Table.vacant) eqn:E.
  - destruct (Table.status t); try discriminate; reflexivity.
  - exfalso.
    assert (Ht : existsb (fun table => negb (Table.status_eqb (Table.status table)
                                                              Table.vacant))
                   (filter (fun x => String.eqb (Table.adminUid x) a) (tables db))
                 = true).
    { apply existsb_exists. exists t. split.
      - apply filter_In. split; [exact Hin | apply String.eqb_eq; exact Ha].
      - rewrite E. reflexivity. }
    congruence.
Qed.

(** X27. Saving the restaurant settings never removes or alters an occupied
    table, nor any table of another tenant: when no table of the tenant has a
    number above the restaurant's current table count and table ids are
    distinct, every table that is not vacant is still there, unchanged, after
    the call; orders, bills and sales history are not touched; and a call
    that is refused changes neither the tables nor the restaurant. *)
Theorem settings_keep_occupied_tables (reqAdminUid a : string) (body : RestaurantPatch)
    (rs : Z -> Q) (now : Z) (restaurants : list Restaurant.t) (db : DB) :
  NoDup (map Table.id (tables db)) ->
  (forall cur t, getRestaurantByAdminUid a restaurants = Some cur ->
                 In t (tables db) -> Table.adminUid t = a ->
                 Table.tableNumber t <= Restaurant.tableCount cur) ->
  let out := patchRestaurant reqAdminUid a body rs now restaurants db in
  (forall t, In t (tables db) ->
             Table.status t <> Table.vacant \/ Table.adminUid t <> a ->
             In t (tables (snd out)))
  /\ orders (snd out) = orders db
  /\ bills (snd out) = bills db
  /\ salesHistory (snd out) = salesHistory db
  /\ (forall e, fst (fst out) = Fail e -> snd out = db /\ snd (fst out) = restaurants).
Proof.
  intros Hnd Hinv out.
  pose (P := fun o : Response Restaurant.t * list Restaurant.t * DB =>
     (forall t, In t (tables db) ->
                Table.status t <> Table.vacant \/ Table.adminUid t <> a ->
                In t (tables (snd o)))
     /\ orders (snd o) = orders db
     /\ bills (snd o) = bills db
     /\ salesHistory (snd o) = salesHistory db
     /\ (forall e, fst (fst o) = Fail e -> snd o = db /\ snd (fst o) = restaurants)).
  change (P out). unfold out, patchRestaurant.
  assert (Hsame : forall (x : Response Restaurant.t * list Restaurant.t),
             snd x = restaurants -> P (x, db)).
  { intros x Hx. unfold P. cbn [fst snd]. repeat split; auto. }
  destruct (negb (String.eqb reqAdminUid a)).
  { unfold ret. apply Hsame. reflexivity. }
  destruct (updateRestaurantSchema_parse body) as [data|] eqn:Eparse;
    [|unfold ret; apply Hsame; reflexivity].
  unfold bind at 1.
  set (guard := match rp_tableCount data, getRestaurantByAdminUid a restaurants with
                | Some n, Some currentRestaurant =>
                    if negb (Z.eqb n (Restaurant.tableCount currentRestaurant))
                    then hasNonVacantTables a
                    else ret false
                | _, _ => ret false
                end).
  assert (Hguard : snd (guard db) = db).
  { unfold guard. destruct (rp_tableCount data); [|reflexivity].
    destruct (getRestaurantByAdminUid a restaurants); [|reflexivity].
    destruct (negb _); reflexivity. }
  assert (Hfree : fst (guard db) = false ->
            forall n cur t, rp_tableCount data = Some n ->
              getRestaurantByAdminUid a restaurants = Some cur ->
              In t (tables db) -> Table.adminUid t = a ->
              Table.status t = Table.vacant \/ Table.tableNumber t <= n).
  { unfold guard. intros Hg n cur t Hn Hcur Hin Ha. rewrite Hn, Hcur in Hg.
    destruct (Z.eqb n (Restaurant.tableCount cur)) eqn:En; cbn [negb] in Hg.
    - right. apply Z.eqb_eq in En. rewrite En. apply (Hinv cur t Hcur Hin Ha).
    - left. apply (hasNonVacantTables_false a db t Hg Hin Ha). }
  destruct (guard db) as [hasNonVacant db0] eqn:Eg. cbn [fst snd] in Hguard, Hfree.
  subst db0. clear Eg. clear guard.
  destruct hasNonVacant; [unfold ret; apply Hsame; reflexivity|].
  destruct (match rp_tableCount data with Some n => negb (int4 n) | None => false end);
    [unfold ret; apply Hsame; reflexivity|].
  destruct (updateRestaurant a data now restaurants) as [restaurant restaurants'] eqn:Eup.
  destruct restaurant as [restaurant|].
  2:{ unfold ret. apply Hsame.
      cbn [snd]. change restaurants' with (snd (@None Restaurant.t, restaurants')).
      rewrite <- Eup. apply updateRestaurant_missing. rewrite Eup. reflexivity. }
  destruct (updateRestaurant_found a data now restaurants restaurant) as [Hown [cur Hcur]];
    [rewrite Eup; reflexivity|].
  rewrite Hown.
  destruct (rp_tableCount data) as [n|] eqn:En.
  2:{ unfold P, bind, ret. cbn [fst snd]. repeat split; auto; discriminate. }
  unfold bind at 1.
  destruct (syncTables a n rs now db) as [u db1] eqn:Es.
  assert (Hdb1 : db1 = exec (syncTables a n rs now) db)
    by (unfold exec; rewrite Es; reflexivity).
  rewrite syncTables_run in Hdb1. cbv zeta in Hdb1. subst db1. unfold P, ret.
  cbn [fst snd tables orders bills salesHistory].
  split; [|repeat split; try reflexivity; discriminate].
  intros t Hin Hkeep. apply filter_In. split; [apply in_or_app; left; exact Hin|].
  apply negb_true_iff. apply (excessId_false_old a n db t Hnd Hin).
  destruct (String.eqb (Table.adminUid t) a) eqn:Ea.
  - apply String.eqb_eq in Ea. right.
    destruct (Hfree eq_refl n cur t eq_refl Hcur Hin Ea) as [Hv|Hle]; [|exact Hle].
    destruct Hkeep as [Hk|Hk]; contradiction.
  - left. apply String.eqb_neq. exact Ea.
Qed.

Lemma settings_keep_occupied_tables_witness :
  NoDup (map Table.id (tables Scenario.joined))
  /\ In Scenario.table3
        (tables (snd (patchRestaurant "demo" "demo"
                        (mkRestaurantPatch (Some "The Golden Pub") None None None None
                                           (Some 10))
                        (fun _ => Scenario.draw) 300
                        [Restaurant.mk "demo" "Golden Pub" None None None None 10 0]
                        Scenario.joined))).
Proof.
  assert (Hnd : NoDup (map Table.id (tables Scenario.joined))).
  { vm_compute. repeat (constructor; [simpl; intuition discriminate|]). constructor. }
  split; [exact Hnd|].
  assert (Hinv : forall cur t,
             getRestaurantByAdminUid "demo"
               [Restaurant.mk "demo" "Golden Pub" None None None None 10 0] = Some cur ->
             In t (tables Scenario.joined) -> Table.adminUid t = "demo" ->
             Table.tableNumber t <= Restaurant.tableCount cur).
  { assert (Hall : forallb (fun t => Table.tableNumber t <=? 10)
                     (tables Scenario.joined) = true) by (vm_compute; reflexivity).
    intros cur t Hcur Hin _. inversion Hcur; subst cur. cbn [Restaurant.tableCount].
    apply Z.leb_le. apply (proj1 (forallb_forall _ _) Hall t Hin). }
  destruct (settings_keep_occupied_tables "demo" "demo"
              (mkRestaurantPatch (Some "The Golden Pub") None None None None (Some 10))
              (fun _ => Scenario.draw) 300
              [Restaurant.mk "demo" "Golden Pub" None None None None 10 0]
              Scenario.joined Hnd Hinv) as [H _].
  apply H.
  - vm_compute. tauto.
  - left. vm_compute. discriminate.
Defined.
